(** * Payment status reconciliation of oscar_docdata/interface.py

    A shallow embedding of [Interface._store_report], [_set_status],
    [_store_report_lines], [_get_payment_sum] and
    [_process_authorized_payment], and of their callers [for_merchant],
    [start_payment], [cancel_order] and [update_order], followed by the
    properties the specification states about them and by further
    properties of the code.

    Conventions of the embedding.
    - Gateway totals and amounts are Python integers in minor units: [Z].
    - A [Decimal] obtained as [D(n) / 100] is represented by its number of
      hundredths [n]; the division is exact, so nothing is lost.
      [order.total_gross_amount] is such a decimal, so
      [int(order.total_gross_amount * 100)] is the number itself.
    - Timestamps are microseconds on the [Z] line.
    - [hasattr(obj, name)] on the parsed report is an [option] field.
    - Statuses are Python strings.
    - Side effects (log records, signals, rows of the store) are threaded
      through a state-and-exception monad [M].
    - A method that assigns to the fields of the [order] it is given returns
      that order as it leaves it. *)

From Stdlib Require Import ZArith List Ascii String Sorting.Sorted Sorting.Permutation.
From stdpp Require Import base tactics option list gmap strings pretty.

Open Scope Z_scope.
Open Scope string_scope.

(** ** Data received from the gateway (the parsed status report) *)

(** [<amount currency="USD">23700</amount>]: [value] and [_currency]. *)
Record Amount := {
  value : Z;
  _currency : string
}.

(** One [capture], [refund] or [chargeback] element of an authorization. *)
Record Item := {
  item_status : string;
  item_amount : Amount;
  item_reason : option string
}.

Record Authorization := {
  auth_status : string;
  auth_amount : Amount;
  confidenceLevel : string;
  capture : option (list Item);
  refund : option (list Item);
  chargeback : option (list Item)
}.

(** A [ns0:payment] object of the report. *)
Record Payment := {
  id : Z;
  paymentMethod : string;
  authorization : Authorization
}.

Record Totals := {
  totalRegistered : Z;
  totalShopperPending : Z;
  totalAcquirerPending : Z;
  totalAcquirerApproved : Z;
  totalCaptured : Z;
  totalRefunded : Z;
  totalChargedback : Z;
  _exchangedTo : string
}.

(** [payment] is [None] when the report has no [payment] attribute. *)
Record Report := {
  approximateTotals : Totals;
  payment : option (list Payment)
}.

(** ** The stored models *)

Module DocdataOrder.

(** Modelled from the spec: the status constants of the order model
    (oscar_docdata/models.py is not part of the sources).  Section 3 of
    the specification lists the ten values; they are taken as ten
    distinct strings. *)
Definition STATUS_NEW := "new".
Definition STATUS_IN_PROGRESS := "in_progress".
Definition STATUS_PENDING := "pending".
Definition STATUS_PAID := "paid".
Definition STATUS_PAID_REFUNDED := "paid_refunded".
Definition STATUS_REFUNDED := "refunded".
Definition STATUS_CANCELLED := "cancelled".
Definition STATUS_CHARGED_BACK := "charged_back".
Definition STATUS_EXPIRED := "expired".
Definition STATUS_UNKNOWN := "unknown".

(** Modelled from the spec: [STATUS_CHOICES], the recognized values, as
    the keys of [dict(DocdataOrder.STATUS_CHOICES)]. *)
Definition STATUS_CHOICES : list string :=
  [STATUS_NEW; STATUS_IN_PROGRESS; STATUS_PENDING; STATUS_PAID;
   STATUS_PAID_REFUNDED; STATUS_REFUNDED; STATUS_CANCELLED;
   STATUS_CHARGED_BACK; STATUS_EXPIRED; STATUS_UNKNOWN].

Record t := {
  order_key : string;
  merchant_name : string;
  merchant_order_id : string;
  currency : string;
  total_gross_amount : Z;
  status : string;
  total_registered : Z;
  total_shopper_pending : Z;
  total_acquirer_pending : Z;
  total_acquirer_approved : Z;
  total_captured : Z;
  total_refunded : Z;
  total_charged_back : Z;
  created : Z
}.

Definition set_status (s : string) (o : t) : t :=
  {| order_key := order_key o; merchant_name := merchant_name o;
     merchant_order_id := merchant_order_id o; currency := currency o;
     total_gross_amount := total_gross_amount o; status := s;
     total_registered := total_registered o;
     total_shopper_pending := total_shopper_pending o;
     total_acquirer_pending := total_acquirer_pending o;
     total_acquirer_approved := total_acquirer_approved o;
     total_captured := total_captured o;
     total_refunded := total_refunded o;
     total_charged_back := total_charged_back o;
     created := created o |}.

(** The seven assignments at the head of [_store_report]. *)
Definition set_totals (tt : Totals) (o : t) : t :=
  {| order_key := order_key o; merchant_name := merchant_name o;
     merchant_order_id := merchant_order_id o; currency := currency o;
     total_gross_amount := total_gross_amount o; status := status o;
     total_registered := totalRegistered tt;
     total_shopper_pending := totalShopperPending tt;
     total_acquirer_pending := totalAcquirerPending tt;
     total_acquirer_approved := totalAcquirerApproved tt;
     total_captured := totalCaptured tt;
     total_refunded := totalRefunded tt;
     total_charged_back := totalChargedback tt;
     created := created o |}.

End DocdataOrder.

Module DocdataPayment.

Record t := {
  docdata_order : string;
  payment_id : Z;
  payment_method : string;
  confidence_level : string;
  amount_allocated : Z;
  amount_debited : Z;
  amount_refunded : Z;
  amount_chargeback : Z;
  status : string
}.

(** Modelled from the spec: the field defaults of a freshly constructed
    payment line (the model class is not part of the sources).  Every one
    of these fields is overwritten before the line is saved. *)
Definition new (order : DocdataOrder.t) (pid : Z) (method : string) : t :=
  {| docdata_order := DocdataOrder.order_key order;
     payment_id := pid;
     payment_method := method;
     confidence_level := "";
     amount_allocated := 0;
     amount_debited := 0;
     amount_refunded := 0;
     amount_chargeback := 0;
     status := "NEW" |}.

Definition set_payment_method (m : string) (p : t) : t :=
  {| docdata_order := docdata_order p; payment_id := payment_id p;
     payment_method := m; confidence_level := confidence_level p;
     amount_allocated := amount_allocated p; amount_debited := amount_debited p;
     amount_refunded := amount_refunded p; amount_chargeback := amount_chargeback p;
     status := status p |}.

(** The five assignments that store the totals of a line. *)
Definition set_totals (level : string) (allocated debited refunded chargedback : Z)
    (p : t) : t :=
  {| docdata_order := docdata_order p; payment_id := payment_id p;
     payment_method := payment_method p; confidence_level := level;
     amount_allocated := allocated; amount_debited := debited;
     amount_refunded := refunded; amount_chargeback := chargedback;
     status := status p |}.

Definition set_status (s : string) (p : t) : t :=
  {| docdata_order := docdata_order p; payment_id := payment_id p;
     payment_method := payment_method p; confidence_level := confidence_level p;
     amount_allocated := amount_allocated p; amount_debited := amount_debited p;
     amount_refunded := amount_refunded p; amount_chargeback := amount_chargeback p;
     status := s |}.

End DocdataPayment.

Module DocdataClient.

(** Modelled from the spec: the gateway's authorization status codes
    (oscar_docdata/gateway.py is not part of the sources); the spelling
    follows the literal ['AUTHORIZED'] the interface compares against. *)
Definition STATUS_NEW := "NEW".
Definition STATUS_STARTED := "STARTED".
Definition STATUS_REDIRECTED_FOR_AUTHENTICATION := "REDIRECTED_FOR_AUTHENTICATION".
Definition STATUS_AUTHORIZATION_REQUESTED := "AUTHORIZATION_REQUESTED".
Definition STATUS_AUTHORIZED := "AUTHORIZED".
Definition STATUS_PAID := "PAID".
Definition STATUS_CANCELLED := "CANCELLED".
Definition STATUS_CHARGED_BACK := "CHARGED_BACK".
Definition STATUS_CONFIRMED_PAID := "CONFIRMED_PAID".
Definition STATUS_CONFIRMED_CHARGEDBACK := "CONFIRMED_CHARGEDBACK".
Definition STATUS_CLOSED_SUCCESS := "CLOSED_SUCCESS".
Definition STATUS_CLOSED_CANCELLED := "CLOSED_CANCELLED".

End DocdataClient.

(** ** Effects *)

Inductive exn :=
  | IndexError (what : string)
  | AttributeError (what : string)
  | IntegrityError.

Inductive outcome (A : Type) :=
  | Return (a : A)
  | Raise (e : exn).
Arguments Return {A} a.
Arguments Raise {A} e.

Inductive level := DEBUG | INFO | WARNING | ERROR.

Record LogRecord := {
  log_level : level;
  log_message : string
}.

Inductive Signal :=
  | payment_added (order : DocdataOrder.t) (payment : DocdataPayment.t)
  | payment_updated (order : DocdataOrder.t) (payment : DocdataPayment.t)
  | order_status_changed (order : DocdataOrder.t) (old_status new_status : string).

Inductive Write :=
  | SaveOrder (order_key : string)
  | InsertPayment (payment_id : Z)
  | UpdatePayment (payment_id : Z).

(** The world a pass runs in.
    [orders] and [payments] are the tables of the store.  [concurrent] holds
    the payment rows that another pass commits after this pass has looked
    the payment id up and before this pass inserts it: the create/create
    race of the two notification views.  [writes], [signals] and [log] are
    the traces of what the pass did, oldest first. *)
Record World := {
  orders : gmap string DocdataOrder.t;
  payments : gmap Z DocdataPayment.t;
  concurrent : gmap Z DocdataPayment.t;
  writes : list Write;
  signals : list Signal;
  log : list LogRecord
}.

Definition M (A : Type) : Type := World -> outcome A * World.

Definition ret {A} (a : A) : M A := fun w => (Return a, w).

Definition bind {A B} (m : M A) (k : A -> M B) : M B :=
  fun w =>
    match m w with
    | (Return a, w') => k a w'
    | (Raise e, w') => (Raise e, w')
    end.

Definition raise {A} (e : exn) : M A := fun w => (Raise e, w).

(** [try: m except IntegrityError: handler]. *)
Definition try_except_IntegrityError {A} (m : M A) (handler : M A) : M A :=
  fun w =>
    match m w with
    | (Raise IntegrityError, w') => handler w'
    | r => r
    end.

#[global] Instance M_ret : MRet M := @ret.
#[global] Instance M_bind : MBind M := fun A B k m => bind m k.

Definition lift {A} (o : outcome A) : M A := fun w => (o, w).

(** [logger.debug], [logger.info], [logger.warn] and [logger.error].  A
    message built with [str.format] is formatted before the call, and the
    formatting can raise; a [%s] template is formatted by the logging module
    itself, which never raises into the caller, and is recorded by the first
    line of its template. *)
Definition logger (l : level) (msg : string) : M unit :=
  fun w =>
    (Return tt,
     {| orders := orders w; payments := payments w; concurrent := concurrent w;
        writes := writes w; signals := signals w;
        log := log w ++ [{| log_level := l; log_message := msg |}] |}).

Definition send (s : Signal) : M unit :=
  fun w =>
    (Return tt,
     {| orders := orders w; payments := payments w; concurrent := concurrent w;
        writes := writes w; signals := signals w ++ [s]; log := log w |}).

(** ** [str.format] with positional fields

    [format "a {0} b {1}" [x; y]] substitutes the arguments for the numbered
    fields; a field whose index has no argument raises [IndexError], as
    Python's ["{0}: {1}".format(x)] does. *)

Definition digit_of (c : ascii) : nat := (nat_of_ascii c - 48)%nat.

Fixpoint format_from (tpl : string) (field : option nat) (args : list string)
  : outcome string :=
  match tpl with
  | EmptyString => Return EmptyString
  | String c rest =>
    match field with
    | None =>
      if Ascii.eqb c "{"%char then format_from rest (Some 0%nat) args
      else match format_from rest None args with
           | Return s => Return (String c s)
           | Raise e => Raise e
           end
    | Some n =>
      if Ascii.eqb c "}"%char then
        match args !! n with
        | Some a =>
          match format_from rest None args with
          | Return s => Return (a ++ s)
          | Raise e => Raise e
          end
        | None => Raise (IndexError "tuple index out of range")
        end
      else format_from rest (Some (10 * n + digit_of c)%nat) args
    end
  end.

Definition format (tpl : string) (args : list string) : M string :=
  lift (format_from tpl None args).

Definition str (z : Z) : string := pretty z.

(** ** Access to the store *)

(** [DocdataPayment.objects.select_for_update().get(payment_id=...)]; the
    result is [None] where the source catches [DoesNotExist]. *)
Definition get_payment (pid : Z) : M (option DocdataPayment.t) :=
  fun w => (Return (payments w !! pid), w).

(** Modelled from the spec: [ddpayment.save()] on the abstract store with
    insert-or-update semantics (the ORM is not part of the sources).  A line
    that was constructed by this pass is inserted; the insert hits the
    uniqueness constraint, and raises [IntegrityError] without writing, when
    a row with the same payment id is there by then, which is exactly when a
    concurrent pass has committed it in between.  A line that was fetched is
    updated in place. *)
Definition save_payment (adding : bool) (p : DocdataPayment.t) : M unit :=
  fun w =>
    let pid := DocdataPayment.payment_id p in
    if adding then
      let rows := match concurrent w !! pid with
                  | Some r => <[pid := r]> (payments w)
                  | None => payments w
                  end in
      match rows !! pid with
      | Some _ =>
        (Raise IntegrityError,
         {| orders := orders w; payments := rows;
            concurrent := delete pid (concurrent w);
            writes := writes w; signals := signals w; log := log w |})
      | None =>
        (Return tt,
         {| orders := orders w; payments := <[pid := p]> rows;
            concurrent := concurrent w;
            writes := writes w ++ [InsertPayment pid];
            signals := signals w; log := log w |})
      end
    else
      (Return tt,
       {| orders := orders w; payments := <[pid := p]> (payments w);
          concurrent := concurrent w;
          writes := writes w ++ [UpdatePayment pid];
          signals := signals w; log := log w |}).

(** [order.save()]. *)
Definition save_order (o : DocdataOrder.t) : M unit :=
  fun w =>
    (Return tt,
     {| orders := <[DocdataOrder.order_key o := o]> (orders w);
        payments := payments w; concurrent := concurrent w;
        writes := writes w ++ [SaveOrder (DocdataOrder.order_key o)];
        signals := signals w; log := log w |}).

(** [transaction.savepoint()], [savepoint_commit] and [savepoint_rollback]
    around a single statement.  A statement that fails has written nothing,
    so rolling back to the savepoint leaves the tables as they are. *)
Definition savepoint : M unit := mret tt.
Definition savepoint_commit (sid : unit) : M unit := mret tt.
Definition savepoint_rollback (sid : unit) : M unit := mret tt.

(** ** Python helpers *)

(** [a or b] on an optional string: [None] and the empty string are falsy. *)
Definition py_or (a : option string) (b : string) : string :=
  match a with
  | Some s => if bool_decide (s = "") then b else s
  | None => b
  end.

(** [timedelta(days=n)] in microseconds. *)
Definition timedelta_days (n : Z) : Z := n * 86400 * 1000000.

(** [l[-1]]. *)
Definition last_item {A} (l : list A) : M A :=
  match last l with
  | Some x => mret x
  | None => raise (IndexError "list index out of range")
  end.

(** [list.sort(key=...)]: a stable sort, ascending in the key. *)
Fixpoint insert_by {A} (key : A -> Z) (x : A) (l : list A) : list A :=
  match l with
  | [] => [x]
  | y :: l' =>
    if bool_decide (key x <= key y) then x :: y :: l'
    else y :: insert_by key x l'
  end.

Definition sort_by {A} (key : A -> Z) (l : list A) : list A :=
  foldr (insert_by key) [] l.

(** [_to_decimal]: [D(int(amount.value)) / 100], in hundredths. *)
Definition _to_decimal (amount : Amount) : Z := value amount.

(** ** class Interface *)

Section Interface.

(** [appsettings.DOCDATA_PAYMENT_SUCCESS_MARGIN], the vocabularies
    [DocdataClient.DOCUMENTED_STATUS_VALUES] and
    [DocdataClient.SEEN_UNDOCUMENTED_STATUS_VALUES], and the reading of the
    clock [now()] are configuration and environment of a pass. *)
Variable DOCDATA_PAYMENT_SUCCESS_MARGIN : gmap string Z.
Variable DOCUMENTED_STATUS_VALUES : list string.
Variable SEEN_UNDOCUMENTED_STATUS_VALUES : list string.
Variable now : Z.

Definition status_mapping : gmap string string :=
  list_to_map
    [(DocdataClient.STATUS_NEW, DocdataOrder.STATUS_NEW);
     (DocdataClient.STATUS_STARTED, DocdataOrder.STATUS_NEW);
     (DocdataClient.STATUS_REDIRECTED_FOR_AUTHENTICATION, DocdataOrder.STATUS_IN_PROGRESS);
     (DocdataClient.STATUS_AUTHORIZATION_REQUESTED, DocdataOrder.STATUS_PENDING);
     (DocdataClient.STATUS_AUTHORIZED, DocdataOrder.STATUS_PENDING);
     (DocdataClient.STATUS_PAID, DocdataOrder.STATUS_PENDING);
     (DocdataClient.STATUS_CANCELLED, DocdataOrder.STATUS_CANCELLED);
     (DocdataClient.STATUS_CHARGED_BACK, DocdataOrder.STATUS_CHARGED_BACK);
     (DocdataClient.STATUS_CONFIRMED_PAID, DocdataOrder.STATUS_PAID);
     (DocdataClient.STATUS_CONFIRMED_CHARGEDBACK, DocdataOrder.STATUS_CHARGED_BACK);
     (DocdataClient.STATUS_CLOSED_SUCCESS, DocdataOrder.STATUS_PAID);
     (DocdataClient.STATUS_CLOSED_CANCELLED, DocdataOrder.STATUS_CANCELLED)].

(** The signal wrapper [Interface.order_status_changed]. *)
Definition order_status_changed_hook
    (docdataorder : DocdataOrder.t) (old_status new_status : string) : M unit :=
  if bool_decide (old_status = new_status) then mret tt
  else send (order_status_changed docdataorder old_status new_status).

Definition _set_status (order : DocdataOrder.t) (new_status : string)
  : M (bool * DocdataOrder.t) :=
  let old_status := DocdataOrder.status order in
  if bool_decide (old_status <> new_status) then
    new_status ←
      (if bool_decide (new_status ∉ DocdataOrder.STATUS_CHOICES) then
         let new_status := DocdataOrder.STATUS_UNKNOWN in
         msg ← format "Payment cluster {0} status changed {1} -> {2} -> UNKNOWN!"
                 [DocdataOrder.order_key order; old_status; new_status];
         logger WARNING msg;;
         mret new_status
       else
         msg ← format "Payment cluster {0} status changed {1} -> {2}"
                 [DocdataOrder.order_key order; old_status; new_status];
         logger INFO msg;;
         mret new_status);
    mret (true, DocdataOrder.set_status new_status order)
  else
    mret (false, order).

(** The loop of [_get_payment_sum] over the elements of one tag. *)
Fixpoint payment_sum_loop (payment : Payment) (class_name success_status : string)
    (tags : list Item) (amount : Z) : M Z :=
  match tags with
  | [] => mret amount
  | tag :: rest =>
    if bool_decide (item_status tag = success_status) then
      payment_sum_loop payment class_name success_status rest
        (amount + _to_decimal (item_amount tag))
    else
      msg ← format "{0} of {1} is marked as {2}, not adding to totals"
              [class_name; str (id payment); item_status tag];
      logger DEBUG msg;;
      payment_sum_loop payment class_name success_status rest amount
  end.

(** [xml_tag] is the attribute read by [getattr(authorization, xml_tag)],
    [class_name] the title-cased class name of its elements. *)
Definition _get_payment_sum (payment : Payment)
    (xml_tag : Authorization -> option (list Item)) (class_name : string)
    (success_status : string) : M Z :=
  let amount := 0 in
  let authorization := authorization payment in
  match xml_tag authorization with
  | Some tags => payment_sum_loop payment class_name success_status tags amount
  | None => mret amount
  end.

(** [report.payment] where the attribute is read unguarded. *)
Definition report_payment (report : Report) : M (list Payment) :=
  match payment report with
  | Some l => mret l
  | None => raise (AttributeError "payment")
  end.

(** Lines 521-529 of [_process_authorized_payment]: the margin that
    tolerates a currency conversion. *)
Definition success_margin (order : DocdataOrder.t) (report : Report) : M Z :=
  let totals := approximateTotals report in
  let margin := 0 in
  if bool_decide (DocdataOrder.currency order = _exchangedTo totals) then
    payments ← report_payment report;
    if existsb (fun p => bool_decide
                  (_currency (auth_amount (authorization p)) <> DocdataOrder.currency order))
               payments
    then
      let margin := default 0 (DOCDATA_PAYMENT_SUCCESS_MARGIN !! _exchangedTo totals) in
      if bool_decide (margin >= totalRegistered totals) then mret 0
      else mret margin
    else mret margin
  else mret margin.

(** The loop over [authorization.chargeback] that logs every chargeback. *)
Fixpoint log_chargebacks (payment : Payment) (chargebacks : list Item) : M unit :=
  match chargebacks with
  | [] => mret tt
  | chargeback :: rest =>
    let reason := default "(reason not provided)" (item_reason chargeback) in
    msg ← format "- Payment {0} chargedback: {1} {2}, {3}"
            [str (id payment); _currency (item_amount chargeback);
             str (value (item_amount chargeback)); reason];
    logger INFO msg;;
    log_chargebacks payment rest
  end.

(** Lines 556-604: the branch taken when [payment_sum == 0]. *)
Definition zero_sum_status (order : DocdataOrder.t) (totals : Totals)
    (payment : Payment) (new_status : option string) : M (option string) :=
  let authorization := authorization payment in
  new_status ←
    (if bool_decide (totalCaptured totals = totalChargedback totals) then
       (match chargeback authorization with
        | Some (c :: cs) => log_chargebacks payment (c :: cs)
        | _ =>
          msg ← format "Payment cluster {0} chargedback." [DocdataOrder.order_key order];
          logger INFO msg
        end);;
       mret (Some DocdataOrder.STATUS_CHARGED_BACK)
     else mret new_status);
  if bool_decide (totalCaptured totals = totalRefunded totals) then
    msg ← format "Payment cluster {0} refunded." [DocdataOrder.order_key order];
    logger INFO msg;;
    mret (Some DocdataOrder.STATUS_REFUNDED)
  else mret new_status.

Definition _process_authorized_payment (order : DocdataOrder.t) (report : Report)
    (payment : Payment) : M (option string) :=
  let totals := approximateTotals report in
  let new_status : option string := None in
  margin ← success_margin order report;
  if bool_decide (totalCaptured totals < totalRegistered totals - margin) then
    mret None
  else
    let payment_sum :=
      totalCaptured totals - totalChargedback totals - totalRefunded totals in
    if bool_decide (payment_sum >= totalRegistered totals - margin) then
      msg ← format "Payment cluster {0} Total Registered: {1} >= Captured: {2} (margin: {3}); new status PAID"
              [DocdataOrder.order_key order; str (totalRegistered totals);
               str (totalCaptured totals); str margin];
      logger INFO msg;;
      mret (Some DocdataOrder.STATUS_PAID)
    else if bool_decide (payment_sum = 0) then
      zero_sum_status order totals payment new_status
    else if bool_decide (payment_sum > 0) then
      msg ← format "Payment cluster {0} Total Registered: {1} < Captured: {2} - Refunded: {3} - Chargeback: {4}  (margin: {5}); new status PAID_REFUNDED"
              [DocdataOrder.order_key order; str (totalRegistered totals);
               str (totalCaptured totals); str (totalRefunded totals);
               str (totalChargedback totals); str margin];
      logger INFO msg;;
      mret (Some DocdataOrder.STATUS_PAID_REFUNDED)
    else
      logger ERROR "Payment cluster %s chargeback and refunded sum is negative. Please investigate.";;
      mret (Some DocdataOrder.STATUS_UNKNOWN).

(** Lines 413-435 of [_store_report_lines]: saving one line under a
    savepoint and firing its signal.  In the handler, the assignment
    [ddpayment.id = str(payment.id)] that precedes the second [save()] is
    what makes that save an update of the existing row. *)
Definition persist_payment (order : DocdataOrder.t) (payment : Payment)
    (ddpayment : DocdataPayment.t) (added updated : bool) : M unit :=
  if added || updated then
    sid ← savepoint;
    added ←
      try_except_IntegrityError
        (save_payment added ddpayment;;
         savepoint_commit sid;;
         mret added)
        (savepoint_rollback sid;;
         msg ← format "Experienced concurrency issues with update-status, payment id {0}: {1}"
                 [str (id payment)];
         logger WARNING msg;;
         save_payment false ddpayment;;
         mret false);
    if added : bool then send (payment_added order ddpayment)
    else send (payment_updated order ddpayment)
  else mret tt.

(** The body of the [for payment in report_payments] loop of
    [_store_report_lines].  It receives the candidate status found so far
    and returns the candidate after this line together with the stored line
    and the report entry it came from ([_source]). *)
Definition store_report_line (order : DocdataOrder.t) (report : Report)
    (new_status : option string) (payment : Payment)
  : M (option string * (DocdataPayment.t * Payment)) :=
  msg ← format "- Payment {0} with {1}: auth status: {2}"
          [str (id payment); paymentMethod payment;
           auth_status (authorization payment)];
  logger DEBUG msg;;
  let authorization := authorization payment in
  let auth_status := auth_status authorization in
  '(new_status, amount_allocated) ←
    (if bool_decide (auth_status = "AUTHORIZED") then
       maybe_new_status ← _process_authorized_payment order report payment;
       let new_status :=
         match maybe_new_status with
         | Some s => Some s
         | None => new_status
         end in
       mret (new_status, _to_decimal (auth_amount authorization))
     else mret (new_status, 0));
  found ← get_payment (id payment);
  let '(ddpayment, added) :=
    match found with
    | Some row => (row, false)
    | None => (DocdataPayment.new order (id payment) (paymentMethod payment), true)
    end in
  '(ddpayment, updated) ←
    (if negb (bool_decide (paymentMethod payment = DocdataPayment.payment_method ddpayment)) then
       msg ← format "Payment method from Docdata doesn't match saved payment method. Storing the payment method received from Docdata for payment id {0}: {1}"
               [str (DocdataPayment.payment_id ddpayment); paymentMethod payment];
       logger WARNING msg;;
       mret (DocdataPayment.set_payment_method (paymentMethod payment) ddpayment, true)
     else mret (ddpayment, false));
  let old_values :=
    (DocdataPayment.confidence_level ddpayment, DocdataPayment.amount_allocated ddpayment,
     DocdataPayment.amount_chargeback ddpayment, DocdataPayment.amount_refunded ddpayment,
     DocdataPayment.amount_debited ddpayment) in
  amount_debited ← _get_payment_sum payment capture "Capture" "CAPTURED";
  amount_refunded ← _get_payment_sum payment refund "Refund" "CAPTURED";
  amount_chargeback ← _get_payment_sum payment chargeback "Chargeback" "CHARGED";
  let ddpayment :=
    DocdataPayment.set_totals (confidenceLevel authorization) amount_allocated
      amount_debited amount_refunded amount_chargeback ddpayment in
  let new_values :=
    (DocdataPayment.confidence_level ddpayment, DocdataPayment.amount_allocated ddpayment,
     DocdataPayment.amount_chargeback ddpayment, DocdataPayment.amount_refunded ddpayment,
     DocdataPayment.amount_debited ddpayment) in
  let updated := if bool_decide (old_values <> new_values) then true else updated in
  '(ddpayment, updated) ←
    (if bool_decide (DocdataPayment.status ddpayment <> auth_status) then
       msg ← format "Docdata payment status changed. payment={0} status: {1} -> {2}"
               [str (id payment); DocdataPayment.status ddpayment; auth_status];
       logger INFO msg;;
       (if bool_decide (auth_status ∉ DOCUMENTED_STATUS_VALUES)
           && bool_decide (auth_status ∉ SEEN_UNDOCUMENTED_STATUS_VALUES)
        then
          msg ← format "Received unknown payment status from Docdata. payment={0}, status={1}"
                  [str (id payment); auth_status];
          logger WARNING msg
        else mret tt);;
       mret (DocdataPayment.set_status auth_status ddpayment, true)
     else mret (ddpayment, updated));
  persist_payment order payment ddpayment added updated;;
  mret (new_status, (ddpayment, payment)).

(** The [for] loop itself. *)
Fixpoint store_report_loop (order : DocdataOrder.t) (report : Report)
    (report_payments : list Payment) (new_status : option string)
    (ddpayment_objects : list (DocdataPayment.t * Payment))
  : M (option string * list (DocdataPayment.t * Payment)) :=
  match report_payments with
  | [] => mret (new_status, ddpayment_objects)
  | payment :: rest =>
    '(new_status, ddpayment) ← store_report_line order report new_status payment;
    store_report_loop order report rest new_status (ddpayment_objects ++ [ddpayment])
  end.

(** Lines 441-482 of [_store_report_lines]: what follows the loop.  The
    fallback on the last line, the check of the registered total, and the
    sort of the stored lines. *)
Definition conclude_lines (order : DocdataOrder.t) (totals : Totals)
    (report_payments : list Payment) (new_status : option string)
    (ddpayment_objects : list (DocdataPayment.t * Payment))
  : M (string * list (DocdataPayment.t * Payment)) :=
  new_status ←
    match new_status with
    | Some s => mret s
    | None =>
      last_payment ← last_item report_payments;
      let new_status :=
        default DocdataOrder.STATUS_UNKNOWN
          (status_mapping !! auth_status (authorization last_payment)) in
      if bool_decide (DocdataOrder.status order ∈
                        [DocdataOrder.STATUS_EXPIRED; DocdataOrder.STATUS_CANCELLED])
         && bool_decide (new_status ∈
                        [DocdataOrder.STATUS_NEW; DocdataOrder.STATUS_IN_PROGRESS])
      then mret (DocdataOrder.status order)
      else mret new_status
    end;
  let total_registered := totalRegistered totals in
  let total_gross_cents := DocdataOrder.total_gross_amount order in
  (if bool_decide (new_status <> DocdataOrder.STATUS_CANCELLED)
      && bool_decide (total_registered <> total_gross_cents)
   then logger ERROR "Payment cluster %s total: %s does not equal Total Registered: %s."
   else mret tt);;
  let ddpayment_objects :=
    sort_by (fun ddpayment => DocdataPayment.payment_id (fst ddpayment)) ddpayment_objects in
  mret (new_status, ddpayment_objects).

Definition _store_report_lines (order : DocdataOrder.t) (report : Report)
  : M (string * list (DocdataPayment.t * Payment)) :=
  let new_status : option string := None in
  let ddpayment_objects : list (DocdataPayment.t * Payment) := [] in
  let totals := approximateTotals report in
  msg ← format "Payment cluster {0} Total Registered: {1} Total Captured: {2} Total Chargedback: {3} Total Refunded: {4}"
          [DocdataOrder.order_key order; str (totalRegistered totals);
           str (totalCaptured totals); str (totalChargedback totals);
           str (totalRefunded totals)];
  logger INFO msg;;
  payments ← report_payment report;
  let report_payments := sort_by id payments in
  '(new_status, ddpayment_objects) ←
    store_report_loop order report report_payments new_status ddpayment_objects;
  conclude_lines order totals report_payments new_status ddpayment_objects.

(** Lines 242-268 of [_store_report]: the status of a payment cluster that
    has no payment yet, from the heuristics on [approximateTotals]. *)
Definition status_without_payments (order : DocdataOrder.t) (totals : Totals)
    (indented_status : option string) : M string :=
  if bool_decide (totalShopperPending totals = 0)
     && bool_decide (totalAcquirerPending totals = 0)
     && bool_decide (totalAcquirerApproved totals = 0)
     && bool_decide (totalCaptured totals = 0)
     && bool_decide (totalRefunded totals = 0)
     && bool_decide (totalChargedback totals = 0)
  then
    if bool_decide (DocdataOrder.status order = DocdataOrder.STATUS_CANCELLED) then
      mret (DocdataOrder.status order)
    else if bool_decide (DocdataOrder.created order < now - timedelta_days 21) then
      mret (py_or indented_status DocdataOrder.STATUS_EXPIRED)
    else
      mret (py_or indented_status DocdataOrder.STATUS_NEW)
  else
    logger ERROR "Payment cluster %s has no payment yet, and unknown 'approximateTotals' heuristics.";;
    if bool_decide (DocdataOrder.status order ∈
                      [DocdataOrder.STATUS_EXPIRED; DocdataOrder.STATUS_CANCELLED])
    then mret (DocdataOrder.status order)
    else mret (py_or indented_status DocdataOrder.STATUS_NEW).

(** Lines 270-276 of [_store_report]: assigning the status, saving the
    order and announcing the change. *)
Definition store_status (order : DocdataOrder.t) (new_status : string)
  : M DocdataOrder.t :=
  let old_status := DocdataOrder.status order in
  '(status_changed, order) ← _set_status order new_status;
  save_order order;;
  (if status_changed : bool then
     order_status_changed_hook order old_status (DocdataOrder.status order)
   else mret tt);;
  mret order.

Definition _store_report (order : DocdataOrder.t) (report : Report)
    (indented_status : option string) : M DocdataOrder.t :=
  let totals := approximateTotals report in
  let order := DocdataOrder.set_totals totals order in
  new_status ←
    match payment report with
    | Some _ =>
      '(new_status, ddpayments) ← _store_report_lines order report;
      mret new_status
    | None => status_without_payments order totals indented_status
    end;
  store_status order new_status.

End Interface.

(** ** The callers of the core: [for_merchant], [start_payment],
    [cancel_order] and [update_order] *)

(** What a caller can raise: an exception of the core above, one of the
    two the interface raises itself, one of the gateway client (which logs
    and raises on a failed call), or [DoesNotExist] of a failed lookup. *)
Inductive error :=
  | Core (e : exn)
  | InvalidMerchant (msg : string)
  | ImproperlyConfigured (msg : string)
  | GatewayError (what : string)
  | DoesNotExist.

Inductive reply (A : Type) :=
  | Ok (a : A)
  | Fail (e : error).
Arguments Ok {A} a.
Arguments Fail {A} e.

Definition F (A : Type) : Type := World -> reply A * World.

(** Running a computation of the core inside a caller. *)
Definition core {A} (m : M A) : F A :=
  fun w =>
    match m w with
    | (Return a, w') => (Ok a, w')
    | (Raise e, w') => (Fail (Core e), w')
    end.

(** [template.format(args)] as the argument of a [raise]. *)
Definition raise_formatted {A} (exception : string -> error) (tpl : string)
    (args : list string) : F A :=
  fun w =>
    match format_from tpl None args with
    | Return msg => (Fail (exception msg), w)
    | Raise e => (Fail (Core e), w)
    end.

Section Callers.

(** The gateway client is a collaborator (oscar_docdata/gateway.py is not
    part of the sources): its calls are taken as given.  [PaymentInfo] is
    the payment object handed to [client.start]; [status] stands for
    [client.status(order_key).report] and [start] for
    [client.start(...).payment_id]; each call can raise. *)
Variable PaymentInfo : Type.

Record Client := {
  client_merchant_name : string;
  client_status : string -> reply Report;
  client_cancel : string -> reply unit;
  client_start : string -> PaymentInfo -> option string -> reply Z
}.

(** [DocdataClient(testing_mode, merchant_name=..., merchant_password=...)]
    and [DocdataClient.for_merchant(merchant_name, testing_mode=...)]. *)
Variable DocdataClient_init : bool -> option string -> option string -> Client.
Variable DocdataClient_for_merchant : string -> bool -> reply Client.

(** [appsettings.DOCDATA_TESTING] and [appsettings.DOCDATA_MERCHANT_PASSWORDS]. *)
Variable DOCDATA_TESTING : bool.
Variable DOCDATA_MERCHANT_PASSWORDS : gmap string string.

(** The queryset filter [active_merchants()] of the order model. *)
Variable active_merchants : DocdataOrder.t -> bool.

Variable DOCDATA_PAYMENT_SUCCESS_MARGIN : gmap string Z.
Variable DOCUMENTED_STATUS_VALUES : list string.
Variable SEEN_UNDOCUMENTED_STATUS_VALUES : list string.
Variable now : Z.

(** An instance of [Interface]. *)
Record Interface := {
  testing_mode : bool;
  client : Client
}.

Definition __init__ (testing_mode : option bool)
    (merchant_name merchant_password : option string) : Interface :=
  let testing_mode :=
    match testing_mode with
    | None => DOCDATA_TESTING
    | Some t => t
    end in
  {| testing_mode := testing_mode;
     client := DocdataClient_init testing_mode merchant_name merchant_password |}.

Definition for_merchant (merchant_name : string) (testing_mode : option bool)
  : F Interface :=
  match DOCDATA_MERCHANT_PASSWORDS !! merchant_name with
  | None =>
    raise_formatted ImproperlyConfigured
      "No password provided in DOCDATA_MERCHANT_PASSWORDS for merchant '{0}'"
      [merchant_name]
  | Some password =>
    fun w => (Ok (__init__ testing_mode (Some merchant_name) (Some password)), w)
  end.

(** [order] is an order key (the old calling convention) or an order. *)
Definition start_payment (self : Interface) (order : string + DocdataOrder.t)
    (payment : PaymentInfo) (payment_method : option string) : F Z :=
  fun w =>
    let found :=
      match order with
      | inl order_key =>
        match orders w !! order_key with
        | Some o => if active_merchants o then Ok o else Fail DoesNotExist
        | None => Fail DoesNotExist
        end
      | inr o => Ok o
      end in
    match found with
    | Fail e => (Fail e, w)
    | Ok order =>
      match DocdataClient_for_merchant (DocdataOrder.merchant_name order)
              (testing_mode self) with
      | Fail e => (Fail e, w)
      | Ok client =>
        match client_start client (DocdataOrder.order_key order) payment
                payment_method with
        | Fail e => (Fail e, w)
        | Ok payment_id =>
          core ('(_, order) ← _set_status order DocdataOrder.STATUS_IN_PROGRESS;
                save_order order;;
                mret payment_id) w
        end
      end
    end.

Definition cancel_order (self : Interface) (order : DocdataOrder.t)
  : F DocdataOrder.t :=
  fun w =>
    match DocdataClient_for_merchant (DocdataOrder.merchant_name order)
            (testing_mode self) with
    | Fail e => (Fail e, w)
    | Ok client =>
      match client_cancel client (DocdataOrder.order_key order) with
      | Fail e => (Fail e, w)
      | Ok _ =>
        match client_status client (DocdataOrder.order_key order) with
        | Fail e => (Fail e, w)
        | Ok report =>
          core (_store_report DOCDATA_PAYMENT_SUCCESS_MARGIN
                  DOCUMENTED_STATUS_VALUES SEEN_UNDOCUMENTED_STATUS_VALUES now
                  order report (Some DocdataOrder.STATUS_CANCELLED)) w
        end
      end
    end.

Definition update_order (self : Interface) (order : DocdataOrder.t)
  : F DocdataOrder.t :=
  fun w =>
    match DocdataClient_for_merchant (DocdataOrder.merchant_name order)
            (testing_mode self) with
    | Fail e => (Fail e, w)
    | Ok client =>
      if bool_decide (client_merchant_name client <> DocdataOrder.merchant_name order)
      then
        raise_formatted InvalidMerchant
          "Order {0} belongs to a different merchant: {1} (client uses: {2})"
          [DocdataOrder.merchant_order_id order; DocdataOrder.merchant_name order;
           client_merchant_name client] w
      else
        match client_status client (DocdataOrder.order_key order) with
        | Fail e => (Fail e, w)
        | Ok report =>
          core (_store_report DOCDATA_PAYMENT_SUCCESS_MARGIN
                  DOCUMENTED_STATUS_VALUES SEEN_UNDOCUMENTED_STATUS_VALUES now
                  order report None) w
        end
    end.

End Callers.

(** * Summaries of the functions, and inputs for the examples

    What each function of the interface returns or leaves behind, written as
    a plain function of its inputs; the lemmas below connect each of them to
    the code. *)

(** [add_log l w]: [w] with the records [l] appended to its log. *)
Definition add_log (l : list LogRecord) (w : World) : World :=
  {| orders := orders w; payments := payments w; concurrent := concurrent w;
     writes := writes w; signals := signals w; log := log w ++ l |}.

(** [logs_only w w']: [w'] is [w] with further log records, nothing else. *)
Definition logs_only (w w' : World) : Prop := exists l, w' = add_log l w.

(** [quiet_at w m a]: run from [w], [m] returns [a] and only logs. *)
Definition quiet_at {A} (w : World) (m : M A) (a : A) : Prop :=
  exists w', m w = (Return a, w') /\ logs_only w w'.

(** [quiet m a]: [m] returns [a] and only logs, from every world. *)
Definition quiet {A} (m : M A) (a : A) : Prop := forall w, quiet_at w m a.

(** The value [success_margin] computes, as a function of its inputs. *)
Definition margin_value (cfg : gmap string Z) (currency : string)
    (totals : Totals) (payments : list Payment) : Z :=
  if bool_decide (currency = _exchangedTo totals)
     && existsb (fun p => bool_decide
                   (_currency (auth_amount (authorization p)) <> currency))
                payments
  then
    let margin := default 0 (cfg !! _exchangedTo totals) in
    if bool_decide (margin >= totalRegistered totals) then 0 else margin
  else 0.

(** The status the [payment_sum == 0] branch leaves in [new_status]. *)
Definition zero_sum_value (totals : Totals) (new_status : option string)
  : option string :=
  if bool_decide (totalCaptured totals = totalRefunded totals)
  then Some DocdataOrder.STATUS_REFUNDED
  else if bool_decide (totalCaptured totals = totalChargedback totals)
  then Some DocdataOrder.STATUS_CHARGED_BACK
  else new_status.

(** The value [_process_authorized_payment] returns for margin [m]. *)
Definition decision_value (totals : Totals) (m : Z) : option string :=
  if bool_decide (totalCaptured totals < totalRegistered totals - m) then None
  else
    let payment_sum :=
      totalCaptured totals - totalChargedback totals - totalRefunded totals in
    if bool_decide (payment_sum >= totalRegistered totals - m)
    then Some DocdataOrder.STATUS_PAID
    else if bool_decide (payment_sum = 0) then zero_sum_value totals None
    else if bool_decide (payment_sum > 0)
    then Some DocdataOrder.STATUS_PAID_REFUNDED
    else Some DocdataOrder.STATUS_UNKNOWN.

(** The world before anything is stored. *)
Definition empty_world : World :=
  {| orders := ∅; payments := ∅; concurrent := ∅;
     writes := []; signals := []; log := [] |}.

(** An order of 10.00 EUR in the given status, created at [created]. *)
Definition order_of (status : string) (created : Z) : DocdataOrder.t :=
  {| DocdataOrder.order_key := "K"; DocdataOrder.merchant_name := "shop";
     DocdataOrder.merchant_order_id := "100001"; DocdataOrder.currency := "EUR";
     DocdataOrder.total_gross_amount := 1000; DocdataOrder.status := status;
     DocdataOrder.total_registered := 0; DocdataOrder.total_shopper_pending := 0;
     DocdataOrder.total_acquirer_pending := 0;
     DocdataOrder.total_acquirer_approved := 0; DocdataOrder.total_captured := 0;
     DocdataOrder.total_refunded := 0; DocdataOrder.total_charged_back := 0;
     DocdataOrder.created := created |}.

Definition totals_of (registered captured refunded chargedback : Z) : Totals :=
  {| totalRegistered := registered; totalShopperPending := 0;
     totalAcquirerPending := 0; totalAcquirerApproved := 0;
     totalCaptured := captured; totalRefunded := refunded;
     totalChargedback := chargedback; _exchangedTo := "EUR" |}.

(** A report entry without capture, refund or chargeback elements. *)
Definition line_of (pid : Z) (method status currency : string) : Payment :=
  {| id := pid; paymentMethod := method;
     authorization :=
       {| auth_status := status;
          auth_amount := {| value := 1000; _currency := currency |};
          confidenceLevel := "ACQUIRER_APPROVED";
          capture := None; refund := None; chargeback := None |} |}.

(** The status an assignment of [new_status] leaves. *)
Definition assigned_status (new_status : string) : string :=
  if bool_decide (new_status ∈ DocdataOrder.STATUS_CHOICES) then new_status
  else DocdataOrder.STATUS_UNKNOWN.

(** The sum [_get_payment_sum] returns. *)
Definition items_total (success_status : string) (tags : option (list Item)) : Z :=
  match tags with
  | Some l =>
    foldr (fun tag acc =>
             if bool_decide (item_status tag = success_status)
             then _to_decimal (item_amount tag) + acc else acc) 0 l
  | None => 0
  end.

(** [amount_allocated] of a report entry. *)
Definition allocated (p : Payment) : Z :=
  if bool_decide (auth_status (authorization p) = "AUTHORIZED")
  then _to_decimal (auth_amount (authorization p)) else 0.

(** The candidate status after a line, given the candidate before it. *)
Definition candidate (cfg : gmap string Z) (currency : string) (totals : Totals)
    (payments : list Payment) (new_status : option string) (p : Payment)
  : option string :=
  if bool_decide (auth_status (authorization p) = "AUTHORIZED") then
    match decision_value totals (margin_value cfg currency totals payments) with
    | Some s => Some s
    | None => new_status
    end
  else new_status.

(** The line as it stands before it is saved, with the [added] and
    [updated] flags, given what the lookup found. *)
Definition line_value (order : DocdataOrder.t) (p : Payment)
    (found : option DocdataPayment.t) : DocdataPayment.t * bool * bool :=
  let '(ddpayment, added) :=
    match found with
    | Some row => (row, false)
    | None => (DocdataPayment.new order (id p) (paymentMethod p), true)
    end in
  let '(ddpayment, updated) :=
    if negb (bool_decide (paymentMethod p = DocdataPayment.payment_method ddpayment))
    then (DocdataPayment.set_payment_method (paymentMethod p) ddpayment, true)
    else (ddpayment, false) in
  let old_values :=
    (DocdataPayment.confidence_level ddpayment, DocdataPayment.amount_allocated ddpayment,
     DocdataPayment.amount_chargeback ddpayment, DocdataPayment.amount_refunded ddpayment,
     DocdataPayment.amount_debited ddpayment) in
  let ddpayment :=
    DocdataPayment.set_totals (confidenceLevel (authorization p)) (allocated p)
      (items_total "CAPTURED" (capture (authorization p)))
      (items_total "CAPTURED" (refund (authorization p)))
      (items_total "CHARGED" (chargeback (authorization p))) ddpayment in
  let new_values :=
    (DocdataPayment.confidence_level ddpayment, DocdataPayment.amount_allocated ddpayment,
     DocdataPayment.amount_chargeback ddpayment, DocdataPayment.amount_refunded ddpayment,
     DocdataPayment.amount_debited ddpayment) in
  let updated := if bool_decide (old_values <> new_values) then true else updated in
  if bool_decide (DocdataPayment.status ddpayment <> auth_status (authorization p))
  then (DocdataPayment.set_status (auth_status (authorization p)) ddpayment, added, true)
  else (ddpayment, added, updated).

(** The table after the rows of a concurrent pass for [pid] have landed. *)
Definition landed (pid : Z) (w : World) : gmap Z DocdataPayment.t :=
  match concurrent w !! pid with
  | Some r => <[pid := r]> (payments w)
  | None => payments w
  end.

(** A world in which a concurrent pass commits payment 2 of order K while
    this pass is between its lookup and its insert. *)
Definition racing_world : World :=
  {| orders := ∅; payments := ∅;
     concurrent := {[ 2 := DocdataPayment.new (order_of "new" 0) 2 "VISA" ]};
     writes := []; signals := []; log := [] |}.

(** The six totals the heuristics look at are all zero. *)
Definition all_zero (totals : Totals) : bool :=
  bool_decide (totalShopperPending totals = 0)
  && bool_decide (totalAcquirerPending totals = 0)
  && bool_decide (totalAcquirerApproved totals = 0)
  && bool_decide (totalCaptured totals = 0)
  && bool_decide (totalRefunded totals = 0)
  && bool_decide (totalChargedback totals = 0).

(** The status [status_without_payments] returns. *)
Definition heuristic_value (now : Z) (order : DocdataOrder.t) (totals : Totals)
    (indented_status : option string) : string :=
  if all_zero totals then
    if bool_decide (DocdataOrder.status order = DocdataOrder.STATUS_CANCELLED)
    then DocdataOrder.status order
    else if bool_decide (DocdataOrder.created order < now - timedelta_days 21)
    then py_or indented_status DocdataOrder.STATUS_EXPIRED
    else py_or indented_status DocdataOrder.STATUS_NEW
  else
    if bool_decide (DocdataOrder.status order ∈
                      [DocdataOrder.STATUS_EXPIRED; DocdataOrder.STATUS_CANCELLED])
    then DocdataOrder.status order
    else py_or indented_status DocdataOrder.STATUS_NEW.

(** The order a pass returns when it assigns [new_status]. *)
Definition order_after (order : DocdataOrder.t) (new_status : string)
  : DocdataOrder.t :=
  if bool_decide (DocdataOrder.status order = new_status) then order
  else DocdataOrder.set_status (assigned_status new_status) order.

(** The rows of the payment table are filed under their payment id. *)
Definition store_wf (rows : gmap Z DocdataPayment.t) : Prop :=
  forall k r, rows !! k = Some r -> DocdataPayment.payment_id r = k.

(** The signal a saved line fires. *)
Definition line_signal (order : DocdataOrder.t) (row : DocdataPayment.t)
    (added updated : bool) : list Signal :=
  if added || updated then
    [if added then payment_added order row else payment_updated order row]
  else [].

Definition line_write (row : DocdataPayment.t) (added updated : bool) : list Write :=
  if added || updated then
    [if added then InsertPayment (DocdataPayment.payment_id row)
     else UpdatePayment (DocdataPayment.payment_id row)]
  else [].

Definition is_line_signal (s : Signal) : Prop :=
  match s with
  | payment_added _ _ | payment_updated _ _ => True
  | order_status_changed _ _ _ => False
  end.

(** The status the fallback on the last line gives. *)
Definition fallback_value (order : DocdataOrder.t) (last_payment : Payment) : string :=
  let new_status :=
    default DocdataOrder.STATUS_UNKNOWN
      (status_mapping !! auth_status (authorization last_payment)) in
  if bool_decide (DocdataOrder.status order ∈
                    [DocdataOrder.STATUS_EXPIRED; DocdataOrder.STATUS_CANCELLED])
     && bool_decide (new_status ∈
                    [DocdataOrder.STATUS_NEW; DocdataOrder.STATUS_IN_PROGRESS])
  then DocdataOrder.status order
  else new_status.

(** The status [conclude_lines] returns for the candidate [cand] the loop
    ended with; [None] where the fallback has no last line. *)
Definition lines_value (order : DocdataOrder.t) (sorted : list Payment)
    (cand : option string) : option string :=
  match cand with
  | Some s => Some s
  | None => fallback_value order <$> last sorted
  end.

(** The signal that announces the change of status of a pass, if any. *)
Definition status_signal (old_status : string) (order' : DocdataOrder.t)
  : list Signal :=
  if bool_decide (old_status = DocdataOrder.status order') then []
  else [order_status_changed order' old_status (DocdataOrder.status order')].

(** A paid order: Registered 1000, Captured 1000, one AUTHORIZED line. *)
Definition paid_report : Report :=
  {| approximateTotals := totals_of 1000 1000 0 0;
     payment := Some [line_of 1 "VISA" "AUTHORIZED" "EUR"] |}.

(** The statuses the sub-decision can give. *)
Definition decided : list string :=
  [DocdataOrder.STATUS_PAID; DocdataOrder.STATUS_CHARGED_BACK;
   DocdataOrder.STATUS_REFUNDED; DocdataOrder.STATUS_PAID_REFUNDED;
   DocdataOrder.STATUS_UNKNOWN].

(** The intended status is absent, empty or recognized: the update flow
    passes none and the cancel flow passes CANCELLED. *)
Definition intended_recognized (indented_status : option string) : Prop :=
  forall s, indented_status = Some s -> s = "" \/ s ∈ DocdataOrder.STATUS_CHOICES.

(** A write to the payment table. *)
Definition is_payment_write (wr : Write) : Prop :=
  match wr with
  | InsertPayment _ | UpdatePayment _ => True
  | SaveOrder _ => False
  end.

(** The payment id a write to the payment table is filed under. *)
Definition written_id (wr : Write) : Z :=
  match wr with
  | InsertPayment pid | UpdatePayment pid => pid
  | SaveOrder _ => 0
  end.


(** * Reasoning principles for the effect monad *)

(** Every field of the template has an argument among [n] of them. *)
Fixpoint fields_in_range (tpl : string) (field : option nat) (n : nat) : bool :=
  match tpl with
  | EmptyString => true
  | String c rest =>
    match field with
    | None =>
      if Ascii.eqb c "{"%char then fields_in_range rest (Some 0%nat) n
      else fields_in_range rest None n
    | Some i =>
      if Ascii.eqb c "}"%char then (i <? n)%nat && fields_in_range rest None n
      else fields_in_range rest (Some (10 * i + digit_of c)%nat) n
    end
  end.

Lemma add_log_nil w : add_log [] w = w.
Proof. destruct w; unfold add_log; simpl. by rewrite app_nil_r. Qed.

Lemma add_log_app l1 l2 w : add_log l2 (add_log l1 w) = add_log (l1 ++ l2)%list w.
Proof. unfold add_log; simpl. by rewrite app_assoc. Qed.

Lemma logs_only_refl w : logs_only w w.
Proof. exists []. by rewrite add_log_nil. Qed.

Lemma logs_only_trans w1 w2 w3 :
  logs_only w1 w2 -> logs_only w2 w3 -> logs_only w1 w3.
Proof.
  intros [l1 ->] [l2 ->]. exists (l1 ++ l2)%list. apply add_log_app.
Qed.

Lemma logs_only_payments w w' : logs_only w w' -> payments w' = payments w.
Proof. by intros [l ->]. Qed.

Lemma logs_only_orders w w' : logs_only w w' -> orders w' = orders w.
Proof. by intros [l ->]. Qed.

Lemma logs_only_writes w w' : logs_only w w' -> writes w' = writes w.
Proof. by intros [l ->]. Qed.

Lemma logs_only_signals w w' : logs_only w w' -> signals w' = signals w.
Proof. by intros [l ->]. Qed.

Lemma format_from_total tpl : forall field args,
  fields_in_range tpl field (length args) = true ->
  exists s, format_from tpl field args = Return s.
Proof.
  induction tpl as [|c rest IH]; intros field args H; simpl in *.
  - by eexists.
  - destruct field as [i|].
    + destruct (Ascii.eqb c "}").
      * apply andb_true_iff in H as [Hi Hrest].
        apply Nat.ltb_lt in Hi.
        destruct (lookup_lt_is_Some_2 args i Hi) as [a Ha]. rewrite Ha.
        destruct (IH None args Hrest) as [s ->]. by eexists.
      * by apply IH.
    + destruct (Ascii.eqb c "{").
      * by apply IH.
      * destruct (IH None args H) as [s ->]. by eexists.
Qed.

Section Quiet.
Context {A B : Type}.

Lemma quiet_at_ret w (a : A) : quiet_at w (mret a) a.
Proof. exists w. split; [done | apply logs_only_refl]. Qed.

Lemma quiet_at_bind w (m : M A) (k : A -> M B) a b :
  quiet_at w m a ->
  (forall w', logs_only w w' -> quiet_at w' (k a) b) ->
  quiet_at w (m ≫= k) b.
Proof.
  intros (w1 & Hm & H1) Hk.
  destruct (Hk w1 H1) as (w2 & Hk2 & H2).
  exists w2. split; [| by eapply logs_only_trans].
  unfold mbind, M_bind, bind. by rewrite Hm.
Qed.

Lemma quiet_ret (a : A) : quiet (mret a) a.
Proof. intros w. apply quiet_at_ret. Qed.

Lemma quiet_bind (m : M A) (k : A -> M B) a b :
  quiet m a -> quiet (k a) b -> quiet (m ≫= k) b.
Proof. intros Hm Hk w. eapply quiet_at_bind; [apply Hm | intros; apply Hk]. Qed.

End Quiet.

Lemma quiet_logger lvl msg : quiet (logger lvl msg) tt.
Proof.
  intros w. eexists. split; [reflexivity |].
  by exists [{| log_level := lvl; log_message := msg |}].
Qed.

Lemma quiet_format_bind {B} tpl args (k : string -> M B) b :
  fields_in_range tpl None (length args) = true ->
  (forall s, quiet (k s) b) ->
  quiet (format tpl args ≫= k) b.
Proof.
  intros Hf Hk w.
  destruct (format_from_total tpl None args Hf) as [s Hs].
  destruct (Hk s w) as (w' & Hw & Hl).
  exists w'. split; [| done].
  unfold mbind, M_bind, bind, format, lift. by rewrite Hs.
Qed.

Lemma quiet_log_format {B} lvl tpl args (k : M B) b :
  fields_in_range tpl None (length args) = true ->
  quiet k b ->
  quiet (format tpl args ≫= (fun msg => logger lvl msg ≫= fun _ => k)) b.
Proof.
  intros Hf Hk. apply quiet_format_bind; [done |].
  intros s. eapply quiet_bind; [apply quiet_logger | done].
Qed.

Lemma quiet_fst {A} (m : M A) a w : quiet m a -> fst (m w) = Return a.
Proof. intros H. destruct (H w) as (w' & -> & _). done. Qed.

Ltac quiet_step :=
  first
    [ apply quiet_ret
    | apply quiet_log_format; [reflexivity |]
    | eapply quiet_bind; [apply quiet_logger |] ].

(** * The paid / refund / chargeback sub-decision *)

Lemma success_margin_quiet cfg order totals payments :
  quiet (success_margin cfg order
           {| approximateTotals := totals; payment := Some payments |})
        (margin_value cfg (DocdataOrder.currency order) totals payments).
Proof.
  unfold success_margin, margin_value, report_payment; simpl.
  case_bool_decide; simpl; [| apply quiet_ret].
  eapply quiet_bind; [apply quiet_ret |].
  destruct (existsb _ payments); [| apply quiet_ret].
  case_bool_decide; apply quiet_ret.
Qed.

Lemma margin_value_clamped cfg cur totals payments :
  margin_value cfg cur totals payments = 0
  \/ margin_value cfg cur totals payments < totalRegistered totals.
Proof.
  unfold margin_value.
  destruct (_ && _); [| by left].
  simpl. case_bool_decide; [by left | right; lia].
Qed.

Lemma log_chargebacks_quiet payment chargebacks :
  quiet (log_chargebacks payment chargebacks) tt.
Proof.
  induction chargebacks as [|c cs IH]; simpl; [apply quiet_ret |].
  by quiet_step.
Qed.

Lemma zero_sum_status_quiet order totals payment new_status :
  quiet (zero_sum_status order totals payment new_status)
        (zero_sum_value totals new_status).
Proof.
  unfold zero_sum_status, zero_sum_value.
  eapply quiet_bind
    with (a := if bool_decide (totalCaptured totals = totalChargedback totals)
               then Some DocdataOrder.STATUS_CHARGED_BACK else new_status).
  - case_bool_decide; [| apply quiet_ret].
    eapply quiet_bind; [| apply quiet_ret].
    destruct (chargeback (authorization payment)) as [[|c cs]|].
    + quiet_step. apply quiet_ret.
    + apply log_chargebacks_quiet.
    + quiet_step. apply quiet_ret.
  - case_bool_decide; [| apply quiet_ret].
    quiet_step. apply quiet_ret.
Qed.

Lemma _process_authorized_payment_quiet cfg order totals payments payment :
  quiet (_process_authorized_payment cfg order
           {| approximateTotals := totals; payment := Some payments |} payment)
        (decision_value totals
           (margin_value cfg (DocdataOrder.currency order) totals payments)).
Proof.
  unfold _process_authorized_payment, decision_value.
  eapply quiet_bind; [apply success_margin_quiet |]. simpl.
  case_bool_decide; [apply quiet_ret |].
  case_bool_decide; [quiet_step; apply quiet_ret |].
  case_bool_decide; [apply zero_sum_status_quiet |].
  case_bool_decide; [quiet_step; apply quiet_ret |].
  quiet_step. apply quiet_ret.
Qed.

Lemma quiet_run {A} (m : M A) a w :
  quiet m a -> exists l, m w = (Return a, add_log l w).
Proof. intros H. destruct (H w) as (w' & Hw & l & ->). by exists l. Qed.

(** C6. The currency-conversion margin is non-zero only when the order
    currency equals the totals' exchanged-to currency and some payment
    line's authorization amount is in another currency; it is then the
    configured tolerance of that currency; and a tolerance that is greater
    than or equal to Registered is clamped to zero. *)
Theorem success_margin_spec
    (cfg : gmap string Z) (order : DocdataOrder.t) (totals : Totals)
    (payments : list Payment) (w : World) :
  let report := {| approximateTotals := totals; payment := Some payments |} in
  let tolerance := default 0 (cfg !! _exchangedTo totals) in
  let converted :=
    DocdataOrder.currency order = _exchangedTo totals /\
    Exists (fun p => _currency (auth_amount (authorization p))
                     <> DocdataOrder.currency order) payments in
  exists m,
    fst (success_margin cfg order report w) = Return m /\
    (m <> 0 -> converted /\ m = tolerance /\ m < totalRegistered totals) /\
    (converted -> tolerance < totalRegistered totals -> m = tolerance) /\
    (tolerance >= totalRegistered totals -> m = 0) /\
    (~ converted -> m = 0).
Proof.
  intros report tolerance converted.
  exists (margin_value cfg (DocdataOrder.currency order) totals payments).
  split; [apply quiet_fst, success_margin_quiet |].
  assert (Hconv : converted <->
    bool_decide (DocdataOrder.currency order = _exchangedTo totals)
    && existsb (fun p => bool_decide
                  (_currency (auth_amount (authorization p))
                   <> DocdataOrder.currency order)) payments = true).
  { unfold converted. rewrite andb_true_iff, bool_decide_eq_true.
    rewrite existsb_exists, Exists_exists.
    split; intros [Hc (p & Hin & Hp)]; (split; [done |]); exists p.
    - split; [by apply list_elem_of_In | by apply bool_decide_eq_true].
    - split; [by apply list_elem_of_In | by apply bool_decide_eq_true in Hp]. }
  unfold margin_value. fold tolerance.
  destruct (_ && _) eqn:Hb; simpl.
  - assert (converted) as Hc by by apply Hconv.
    destruct (bool_decide (tolerance >= totalRegistered totals)) eqn:Ht;
      [apply bool_decide_eq_true in Ht | apply bool_decide_eq_false in Ht];
      (split; [| split; [| split]]); intros; try done; try lia.
    split; [done | lia].
  - repeat split; try done.
    intros Hc _. apply Hconv in Hc. congruence.
Qed.

(** C6, at a cross-currency order with tolerance 50: Registered 1000 keeps
    the margin, Registered 0 clamps it. *)
Lemma success_margin_spec_witness :
  let cfg : gmap string Z := {[ "EUR" := 50 ]} in
  let order :=
    {| DocdataOrder.order_key := "K"; DocdataOrder.merchant_name := "m";
       DocdataOrder.merchant_order_id := "1"; DocdataOrder.currency := "EUR";
       DocdataOrder.total_gross_amount := 1000; DocdataOrder.status := "new";
       DocdataOrder.total_registered := 0; DocdataOrder.total_shopper_pending := 0;
       DocdataOrder.total_acquirer_pending := 0;
       DocdataOrder.total_acquirer_approved := 0; DocdataOrder.total_captured := 0;
       DocdataOrder.total_refunded := 0; DocdataOrder.total_charged_back := 0;
       DocdataOrder.created := 0 |} in
  let totals :=
    {| totalRegistered := 0; totalShopperPending := 0; totalAcquirerPending := 0;
       totalAcquirerApproved := 0; totalCaptured := 0; totalRefunded := 0;
       totalChargedback := 0; _exchangedTo := "EUR" |} in
  let payments :=
    [{| id := 1; paymentMethod := "AMEX";
        authorization :=
          {| auth_status := "AUTHORIZED";
             auth_amount := {| value := 0; _currency := "USD" |};
             confidenceLevel := "ACQUIRER_APPROVED";
             capture := None; refund := None; chargeback := None |} |}] in
  let w := {| orders := ∅; payments := ∅; concurrent := ∅;
              writes := []; signals := []; log := [] |} in
  fst (success_margin cfg order
         {| approximateTotals := totals; payment := Some payments |} w)
  = Return 0.
Proof.
  intros cfg order totals payments w.
  destruct (success_margin_spec cfg order totals payments w)
    as (m & Hm & _ & _ & Hclamp & _).
  rewrite Hm. f_equal. apply Hclamp. vm_compute. discriminate.
Defined.

Lemma negative_sum_logs_error cfg order totals payments payment w :
  let m := margin_value cfg (DocdataOrder.currency order) totals payments in
  let payment_sum :=
    totalCaptured totals - totalChargedback totals - totalRefunded totals in
  totalCaptured totals >= totalRegistered totals - m ->
  payment_sum < totalRegistered totals - m ->
  payment_sum < 0 ->
  exists l,
    log (snd (_process_authorized_payment cfg order
                {| approximateTotals := totals; payment := Some payments |}
                payment w))
    = (log w ++ l)%list /\
    Exists (fun r => log_level r = ERROR) l.
Proof.
  intros m payment_sum Hc Hs Hneg.
  destruct (quiet_run _ _ w (success_margin_quiet cfg order totals payments))
    as [l Hl].
  unfold _process_authorized_payment, mbind, M_bind, bind. rewrite Hl. simpl.
  fold m.
  rewrite (bool_decide_eq_false_2 (totalCaptured totals < _)) by lia.
  rewrite (bool_decide_eq_false_2 (_ >= _)) by (unfold payment_sum in Hs; lia).
  rewrite (bool_decide_eq_false_2 (_ = 0)) by (unfold payment_sum in Hneg; lia).
  rewrite (bool_decide_eq_false_2 (_ > 0)) by (unfold payment_sum in Hneg; lia).
  simpl. eexists. rewrite <- app_assoc. split; [reflexivity |].
  apply Exists_app. right. by constructor.
Qed.

(** C1. The sub-decision on an AUTHORIZED line, for totals Registered,
    Captured, Refunded, Chargedback and the margin m the pass computes:
    Captured < Registered - m yields no status; otherwise, with paymentSum =
    Captured - Chargedback - Refunded, the cases are tried in order:
    paymentSum >= Registered - m yields PAID, else paymentSum > 0 yields
    PAID_REFUNDED, else paymentSum < 0 yields UNKNOWN, and the latter is
    logged as an error while the function still returns.  With a
    non-negative Registered a negative paymentSum always yields UNKNOWN. *)
Theorem authorized_payment_decision
    (cfg : gmap string Z) (order : DocdataOrder.t) (totals : Totals)
    (payments : list Payment) (payment : Payment) (w : World) :
  let report := {| approximateTotals := totals; payment := Some payments |} in
  let run := _process_authorized_payment cfg order report payment w in
  let Registered := totalRegistered totals in
  let Captured := totalCaptured totals in
  let paymentSum :=
    totalCaptured totals - totalChargedback totals - totalRefunded totals in
  exists m,
    fst (success_margin cfg order report w) = Return m /\
    (Captured < Registered - m -> fst run = Return None) /\
    (Captured >= Registered - m -> paymentSum >= Registered - m ->
       fst run = Return (Some DocdataOrder.STATUS_PAID)) /\
    (Captured >= Registered - m -> paymentSum < Registered - m ->
       paymentSum > 0 ->
       fst run = Return (Some DocdataOrder.STATUS_PAID_REFUNDED)) /\
    (Captured >= Registered - m -> paymentSum < Registered - m ->
       paymentSum < 0 ->
       fst run = Return (Some DocdataOrder.STATUS_UNKNOWN) /\
       exists l, log (snd run) = (log w ++ l)%list /\
                 Exists (fun r => log_level r = ERROR) l) /\
    (0 <= Registered -> Captured >= Registered - m -> paymentSum < 0 ->
       fst run = Return (Some DocdataOrder.STATUS_UNKNOWN)).
Proof.
  intros report run Registered Captured paymentSum.
  set (m := margin_value cfg (DocdataOrder.currency order) totals payments).
  exists m.
  split; [apply quiet_fst, success_margin_quiet |].
  assert (Hrun : fst run = Return (decision_value totals m))
    by apply quiet_fst, _process_authorized_payment_quiet.
  assert (Hm : m = 0 \/ m < Registered) by apply margin_value_clamped.
  rewrite Hrun. unfold decision_value.
  fold Registered Captured paymentSum.
  repeat split.
  - intros H. by rewrite bool_decide_eq_true_2.
  - intros H1 H2. rewrite bool_decide_eq_false_2 by lia.
    by rewrite bool_decide_eq_true_2.
  - intros H1 H2 H3. rewrite bool_decide_eq_false_2 by lia.
    rewrite (bool_decide_eq_false_2 (_ >= _)) by lia.
    rewrite (bool_decide_eq_false_2 (_ = 0)) by lia.
    by rewrite bool_decide_eq_true_2.
  - rewrite bool_decide_eq_false_2 by lia.
    rewrite (bool_decide_eq_false_2 (_ >= _)) by lia.
    rewrite (bool_decide_eq_false_2 (_ = 0)) by lia.
    by rewrite (bool_decide_eq_false_2 (_ > 0)) by lia.
  - by apply negative_sum_logs_error.
  - intros H0 H1 H3. rewrite bool_decide_eq_false_2 by lia.
    rewrite (bool_decide_eq_false_2 (_ >= _)) by lia.
    rewrite (bool_decide_eq_false_2 (_ = 0)) by lia.
    by rewrite (bool_decide_eq_false_2 (_ > 0)) by lia.
Qed.

(** C1, at Registered 1000, Captured 1000, Refunded 200 (a partial refund)
    and at Registered 1000, Captured 400 (not yet captured). *)
Lemma authorized_payment_decision_witness :
  fst (_process_authorized_payment ∅ (order_of "new" 0)
         {| approximateTotals := totals_of 1000 1000 200 0;
            payment := Some [line_of 1 "VISA" "AUTHORIZED" "EUR"] |}
         (line_of 1 "VISA" "AUTHORIZED" "EUR") empty_world)
  = Return (Some DocdataOrder.STATUS_PAID_REFUNDED)
  /\
  fst (_process_authorized_payment ∅ (order_of "new" 0)
         {| approximateTotals := totals_of 1000 400 0 0;
            payment := Some [line_of 1 "VISA" "AUTHORIZED" "EUR"] |}
         (line_of 1 "VISA" "AUTHORIZED" "EUR") empty_world)
  = Return None.
Proof.
  split.
  - destruct (authorized_payment_decision ∅ (order_of "new" 0)
                (totals_of 1000 1000 200 0)
                [line_of 1 "VISA" "AUTHORIZED" "EUR"]
                (line_of 1 "VISA" "AUTHORIZED" "EUR") empty_world)
      as (m & Hm & _ & _ & Hrefunded & _).
    vm_compute in Hm. injection Hm as <-.
    apply Hrefunded; simpl; lia.
  - destruct (authorized_payment_decision ∅ (order_of "new" 0)
                (totals_of 1000 400 0 0)
                [line_of 1 "VISA" "AUTHORIZED" "EUR"]
                (line_of 1 "VISA" "AUTHORIZED" "EUR") empty_world)
      as (m & Hm & Hnone & _).
    vm_compute in Hm. injection Hm as <-.
    apply Hnone; simpl; lia.
Defined.




(** * Status assignment *)

Lemma bind_Return_inv {A B} (m : M A) (k : A -> M B) w b w' :
  (m ≫= k) w = (Return b, w') ->
  exists a w1, m w = (Return a, w1) /\ k a w1 = (Return b, w').
Proof.
  unfold mbind, M_bind, bind.
  destruct (m w) as [[a|e] w1]; [eauto | discriminate].
Qed.

Lemma bind_run {A B} (m : M A) (k : A -> M B) w a w1 :
  m w = (Return a, w1) -> (m ≫= k) w = k a w1.
Proof. unfold mbind, M_bind, bind. by intros ->. Qed.

Lemma _set_status_same order w :
  _set_status order (DocdataOrder.status order) w = (Return (false, order), w).
Proof.
  unfold _set_status. by rewrite bool_decide_eq_false_2 by (intros H; by apply H).
Qed.

Lemma _set_status_changed order new_status w :
  DocdataOrder.status order <> new_status ->
  exists msg,
    _set_status order new_status w
    = (Return (true, DocdataOrder.set_status (assigned_status new_status) order),
       add_log [{| log_level := if bool_decide (new_status ∈ DocdataOrder.STATUS_CHOICES)
                                then INFO else WARNING;
                   log_message := msg |}] w).
Proof.
  intros Hne. unfold _set_status, assigned_status.
  rewrite bool_decide_eq_true_2 by done.
  destruct (bool_decide_reflect (new_status ∈ DocdataOrder.STATUS_CHOICES)) as [Hin|Hin].
  - rewrite (bool_decide_eq_false_2 (_ ∉ _)) by (intros H; by apply H).
    destruct (format_from_total "Payment cluster {0} status changed {1} -> {2}" None
                [DocdataOrder.order_key order; DocdataOrder.status order; new_status]
                eq_refl) as [s Hs].
    exists s. unfold mbind, M_bind, bind, format, lift. by rewrite Hs.
  - rewrite (bool_decide_eq_true_2 (_ ∉ _)) by done.
    destruct (format_from_total
                "Payment cluster {0} status changed {1} -> {2} -> UNKNOWN!" None
                [DocdataOrder.order_key order; DocdataOrder.status order;
                 DocdataOrder.STATUS_UNKNOWN]
                eq_refl) as [s Hs].
    exists s. unfold mbind, M_bind, bind, format, lift. by rewrite Hs.
Qed.

Lemma assigned_status_recognized new_status :
  assigned_status new_status ∈ DocdataOrder.STATUS_CHOICES.
Proof.
  unfold assigned_status. case_bool_decide; [done | compute_done].
Qed.

(** * One report line *)

Lemma payment_sum_loop_quiet payment class_name success_status tags : forall amount,
  quiet (payment_sum_loop payment class_name success_status tags amount)
        (amount + items_total success_status (Some tags)).
Proof.
  induction tags as [|tag rest IH]; intros amount; simpl.
  - replace (amount + 0) with amount by lia. apply quiet_ret.
  - case_bool_decide.
    + replace (amount + (_to_decimal (item_amount tag) + _))
        with (amount + _to_decimal (item_amount tag)
              + items_total success_status (Some rest)) by (simpl; lia).
      apply IH.
    + quiet_step. apply IH.
Qed.

Lemma _get_payment_sum_quiet payment xml_tag class_name success_status :
  quiet (_get_payment_sum payment xml_tag class_name success_status)
        (items_total success_status (xml_tag (authorization payment))).
Proof.
  unfold _get_payment_sum.
  destruct (xml_tag (authorization payment)) as [tags|]; [| apply quiet_ret].
  apply (payment_sum_loop_quiet payment class_name success_status tags 0).
Qed.

Lemma quiet_at_peel {A B} w (m : M A) (k : A -> M B) a (T : M B) :
  quiet_at w m a ->
  (forall w', logs_only w w' -> exists w1, logs_only w' w1 /\ k a w' = T w1) ->
  exists w1, logs_only w w1 /\ (m ≫= k) w = T w1.
Proof.
  intros (w' & Hm & Hw') Hk.
  destruct (Hk w' Hw') as (w1 & Hw1 & Heq).
  exists w1. split; [by eapply logs_only_trans |].
  by rewrite (bind_run _ _ _ _ _ Hm).
Qed.

Lemma get_payment_quiet_at w0 w pid :
  logs_only w0 w -> quiet_at w (get_payment pid) (payments w0 !! pid).
Proof.
  intros H. exists w. split; [| apply logs_only_refl].
  unfold get_payment. by rewrite (logs_only_payments _ _ H).
Qed.

Lemma peel_log_format {B} w lvl tpl args (k : M B) (T : M B) :
  fields_in_range tpl None (length args) = true ->
  (forall w', logs_only w w' -> exists w1, logs_only w' w1 /\ k w' = T w1) ->
  exists w1, logs_only w w1 /\
    (format tpl args ≫= fun msg => logger lvl msg ≫= fun _ => k) w = T w1.
Proof.
  intros Hf Hk.
  destruct (format_from_total tpl None args Hf) as [s Hs].
  destruct (Hk (add_log [{| log_level := lvl; log_message := s |}] w))
    as (w1 & Hw1 & Heq); [by eexists |].
  exists w1. split; [eapply logs_only_trans; [| done]; by eexists |].
  unfold mbind, M_bind, bind, format, lift. rewrite Hs. simpl. exact Heq.
Qed.

Lemma quiet_quiet_at {A} (m : M A) a w : quiet m a -> quiet_at w m a.
Proof. intros H. apply H. Qed.

Lemma store_report_line_run cfg doc seen order totals entries new_status p w :
  let report := {| approximateTotals := totals; payment := Some entries |} in
  let v := line_value order p (payments w !! id p) in
  exists w1, logs_only w w1 /\
    store_report_line cfg doc seen order report new_status p w
    = (persist_payment order p v.1.1 v.1.2 v.2 ≫= fun _ =>
       mret (candidate cfg (DocdataOrder.currency order) totals entries new_status p,
             (v.1.1, p))) w1.
Proof.
  intros report v. unfold store_report_line.
  apply peel_log_format; [reflexivity |]. intros w1 Hw1.
  eapply quiet_at_peel
    with (a := (candidate cfg (DocdataOrder.currency order) totals entries new_status p,
                allocated p)).
  { unfold candidate, allocated. case_bool_decide.
    - eapply quiet_at_bind; [apply _process_authorized_payment_quiet |].
      intros; exact (quiet_at_ret _ _).
    - exact (quiet_at_ret _ _). }
  intros w2 Hw2.
  eapply quiet_at_peel.
  { apply (get_payment_quiet_at w). eapply logs_only_trans; eassumption. }
  intros w3 Hw3.
  subst v. unfold line_value.
  set (base := match payments w !! id p with
               | Some row => (row, false)
               | None => (DocdataPayment.new order (id p) (paymentMethod p), true)
               end).
  clearbody base. destruct base as [ddpayment added].
  destruct (bool_decide (paymentMethod p = DocdataPayment.payment_method ddpayment));
    simpl.
  all: eapply quiet_at_peel;
    [ first [ exact (quiet_at_ret _ _)
            | apply quiet_quiet_at, quiet_log_format; [reflexivity | apply quiet_ret] ]
    | intros w4 Hw4 ].
  all: eapply quiet_at_peel;
    [ apply quiet_quiet_at, _get_payment_sum_quiet | intros w5 Hw5 ].
  all: eapply quiet_at_peel;
    [ apply quiet_quiet_at, _get_payment_sum_quiet | intros w6 Hw6 ].
  all: eapply quiet_at_peel;
    [ apply quiet_quiet_at, _get_payment_sum_quiet | intros w7 Hw7 ].
  all: simpl.
  all: destruct (bool_decide (DocdataPayment.status _ <> _)); simpl.
  all: eapply quiet_at_peel;
    [ first
        [ exact (quiet_at_ret _ _)
        | apply quiet_quiet_at, quiet_log_format; [reflexivity |];
          eapply quiet_bind; [| apply quiet_ret];
          destruct (_ && _);
          [ apply quiet_format_bind; [reflexivity | intros; apply quiet_logger]
          | apply quiet_ret ] ]
    | intros w8 Hw8 ].
  all: eexists; split; [apply logs_only_refl | reflexivity].
Qed.

(** * Saving a line *)

Lemma persist_payment_unchanged order p row w :
  persist_payment order p row false false w = (Return tt, w).
Proof. reflexivity. Qed.

Lemma persist_payment_update order p row w :
  persist_payment order p row false true w
  = (Return tt,
     {| orders := orders w;
        payments := <[DocdataPayment.payment_id row := row]> (payments w);
        concurrent := concurrent w;
        writes := writes w ++ [UpdatePayment (DocdataPayment.payment_id row)];
        signals := signals w ++ [payment_updated order row];
        log := log w |}).
Proof. reflexivity. Qed.

Lemma persist_payment_insert order p row updated w :
  concurrent w !! DocdataPayment.payment_id row = None ->
  payments w !! DocdataPayment.payment_id row = None ->
  persist_payment order p row true updated w
  = (Return tt,
     {| orders := orders w;
        payments := <[DocdataPayment.payment_id row := row]> (payments w);
        concurrent := concurrent w;
        writes := writes w ++ [InsertPayment (DocdataPayment.payment_id row)];
        signals := signals w ++ [payment_added order row];
        log := log w |}).
Proof.
  intros Hc Hp.
  unfold persist_payment, savepoint, savepoint_commit, try_except_IntegrityError,
    save_payment, send, mbind, M_bind, bind, mret, M_ret, ret.
  simpl. rewrite Hc, Hp. reflexivity.
Qed.

Lemma persist_payment_conflict order p row updated w :
  is_Some (landed (DocdataPayment.payment_id row) w !! DocdataPayment.payment_id row) ->
  persist_payment order p row true updated w
  = (Raise (IndexError "tuple index out of range"),
     {| orders := orders w;
        payments := landed (DocdataPayment.payment_id row) w;
        concurrent := delete (DocdataPayment.payment_id row) (concurrent w);
        writes := writes w;
        signals := signals w;
        log := log w |}).
Proof.
  intros [r Hr].
  unfold persist_payment, savepoint, savepoint_commit, savepoint_rollback,
    try_except_IntegrityError, save_payment, send, mbind, M_bind, bind, mret,
    M_ret, ret.
  simpl. fold (landed (DocdataPayment.payment_id row) w). rewrite Hr.
  reflexivity.
Qed.

(** C3 states that a line whose insert hits the uniqueness constraint is
    retried as an update and announced by [payment_updated].  The code does
    not get that far: for every such line the handler rolls back and then
    raises [IndexError] while formatting its warning, whose template has two
    fields for one argument.  No signal is sent, no update is written, and
    the row in the table is the one of the concurrent pass. *)
Theorem create_race_raises_IndexError
    (order : DocdataOrder.t) (p : Payment) (row r : DocdataPayment.t)
    (updated : bool) (w : World) :
  payments w !! DocdataPayment.payment_id row = None ->
  concurrent w !! DocdataPayment.payment_id row = Some r ->
  let out := persist_payment order p row true updated w in
  fst out = Raise (IndexError "tuple index out of range") /\
  signals (snd out) = signals w /\
  writes (snd out) = writes w /\
  payments (snd out) !! DocdataPayment.payment_id row = Some r.
Proof.
  intros Hp Hc out. subst out.
  rewrite persist_payment_conflict.
  - simpl. repeat split. unfold landed. rewrite Hc. apply lookup_insert_eq.
  - unfold landed. rewrite Hc, lookup_insert_eq. by eexists.
Qed.

(** C3, at payment 2 of order K. *)
Lemma create_race_raises_IndexError_witness :
  fst (persist_payment (order_of "new" 0) (line_of 2 "VISA" "AUTHORIZED" "EUR")
         (DocdataPayment.set_status "AUTHORIZED"
            (DocdataPayment.new (order_of "new" 0) 2 "VISA"))
         true true racing_world)
  = Raise (IndexError "tuple index out of range").
Proof.
  apply (create_race_raises_IndexError (order_of "new" 0)
           (line_of 2 "VISA" "AUTHORIZED" "EUR")
           (DocdataPayment.set_status "AUTHORIZED"
              (DocdataPayment.new (order_of "new" 0) 2 "VISA"))
           (DocdataPayment.new (order_of "new" 0) 2 "VISA")
           true racing_world); reflexivity.
Defined.

(** The same race seen from a whole pass: the update of the order aborts
    with the [IndexError], the order row is not saved and no signal at all
    is sent. *)
Example create_race_aborts_pass :
  let out :=
    _store_report ∅ [] [] 0 (order_of "new" 0)
      {| approximateTotals := totals_of 1000 1000 0 0;
         payment := Some [line_of 2 "VISA" "AUTHORIZED" "EUR"] |}
      None racing_world in
  fst out = Raise (IndexError "tuple index out of range") /\
  signals (snd out) = [] /\ writes (snd out) = [] /\ orders (snd out) = ∅.
Proof. vm_compute. repeat split. Qed.

(** * Reports without usable payment lines *)

(** C10. A report whose payment list is present but empty does not take the
    no-payment heuristics: the loop runs zero times, no candidate exists, and
    the fallback indexes the last element of the empty sorted list.  The
    pass raises [IndexError]; no status is assigned, nothing is saved and no
    signal is sent. *)
Theorem empty_payment_list_raises
    (cfg : gmap string Z) (doc seen : list string) (now : Z)
    (order : DocdataOrder.t) (totals : Totals)
    (indented_status : option string) (w : World) :
  let out :=
    _store_report cfg doc seen now order
      {| approximateTotals := totals; payment := Some [] |} indented_status w in
  fst out = Raise (IndexError "list index out of range") /\
  orders (snd out) = orders w /\
  payments (snd out) = payments w /\
  writes (snd out) = writes w /\
  signals (snd out) = signals w.
Proof.
  intros out. subst out.
  unfold _store_report, _store_report_lines, format, lift, mbind, M_bind, bind.
  simpl. repeat split.
Qed.

(** * Finishing a pass *)

(** What [store_status] does: the order it returns, the row it saves and
    the signal it sends. *)
Lemma store_status_run order new_status w :
  let order' :=
    if bool_decide (DocdataOrder.status order = new_status) then order
    else DocdataOrder.set_status (assigned_status new_status) order in
  exists l,
    store_status order new_status w
    = (Return order',
       {| orders := <[DocdataOrder.order_key order := order']> (orders w);
          payments := payments w;
          concurrent := concurrent w;
          writes := writes w ++ [SaveOrder (DocdataOrder.order_key order)];
          signals :=
            signals w ++
            (if bool_decide (DocdataOrder.status order = DocdataOrder.status order')
             then []
             else [order_status_changed order' (DocdataOrder.status order)
                     (DocdataOrder.status order')]);
          log := log w ++ l |}).
Proof.
  intros order'. subst order'. unfold store_status.
  case_bool_decide as Hs.
  - subst new_status. exists [].
    rewrite (bind_run _ _ _ _ _ (_set_status_same order w)).
    rewrite bool_decide_eq_true_2 by done.
    destruct w; simpl. unfold save_order, mbind, M_bind, bind; simpl.
    by rewrite !app_nil_r.
  - destruct (_set_status_changed order new_status w Hs) as [msg Hmsg].
    rewrite (bind_run _ _ _ _ _ Hmsg). eexists.
    unfold save_order, order_status_changed_hook, send, mbind, M_bind, bind; simpl.
    destruct (bool_decide (DocdataOrder.status order = assigned_status new_status));
      simpl; [rewrite app_nil_r |]; reflexivity.
Qed.

Lemma status_without_payments_quiet now order totals indented_status :
  quiet (status_without_payments now order totals indented_status)
        (heuristic_value now order totals indented_status).
Proof.
  unfold status_without_payments, heuristic_value, all_zero.
  destruct (_ && _).
  - repeat case_bool_decide; apply quiet_ret.
  - quiet_step. case_bool_decide; apply quiet_ret.
Qed.

Lemma all_zero_spec totals :
  all_zero totals = true <->
  totalShopperPending totals = 0 /\ totalAcquirerPending totals = 0 /\
  totalAcquirerApproved totals = 0 /\ totalCaptured totals = 0 /\
  totalRefunded totals = 0 /\ totalChargedback totals = 0.
Proof.
  unfold all_zero. rewrite !andb_true_iff, !bool_decide_eq_true. tauto.
Qed.

(** A pass over a report without [payment] attribute always returns. *)
Lemma _store_report_no_payment cfg doc seen now order totals indented_status w :
  let order_t := DocdataOrder.set_totals totals order in
  let order' :=
    order_after order_t (heuristic_value now order_t totals indented_status) in
  exists l,
    _store_report cfg doc seen now order
      {| approximateTotals := totals; payment := None |} indented_status w
    = (Return order',
       {| orders := <[DocdataOrder.order_key order := order']> (orders w);
          payments := payments w;
          concurrent := concurrent w;
          writes := writes w ++ [SaveOrder (DocdataOrder.order_key order)];
          signals :=
            signals w ++
            (if bool_decide (DocdataOrder.status order = DocdataOrder.status order')
             then []
             else [order_status_changed order' (DocdataOrder.status order)
                     (DocdataOrder.status order')]);
          log := log w ++ l |}).
Proof.
  intros order_t order'. unfold _store_report. simpl. fold order_t.
  destruct (quiet_run _ _ w
              (status_without_payments_quiet now order_t totals indented_status))
    as [l1 Hl1].
  rewrite (bind_run _ _ _ _ _ Hl1).
  destruct (store_status_run order_t
              (heuristic_value now order_t totals indented_status)
              (add_log l1 w)) as [l2 Hl2].
  rewrite Hl2. exists (l1 ++ l2)%list. simpl. fold order'.
  by rewrite app_assoc.
Qed.

(** C5. A pass over a report without payment entries whose six totals are
    all zero: a CANCELLED order stays CANCELLED; otherwise an order older
    than 21 days becomes EXPIRED, or takes the intended status when one is
    requested; otherwise it becomes NEW, or takes the intended status.  In
    particular an order that is not cancelled and was created 22 days ago
    becomes EXPIRED.  The pass returns and saves the order in that status. *)
Theorem zero_totals_heuristics
    (cfg : gmap string Z) (doc seen : list string) (now : Z)
    (order : DocdataOrder.t) (totals : Totals)
    (indented_status : option string) (w : World) :
  totalShopperPending totals = 0 -> totalAcquirerPending totals = 0 ->
  totalAcquirerApproved totals = 0 -> totalCaptured totals = 0 ->
  totalRefunded totals = 0 -> totalChargedback totals = 0 ->
  let out :=
    _store_report cfg doc seen now order
      {| approximateTotals := totals; payment := None |} indented_status w in
  let age := now - DocdataOrder.created order in
  let cancelled := DocdataOrder.status order = DocdataOrder.STATUS_CANCELLED in
  exists order',
    fst out = Return order' /\
    orders (snd out) !! DocdataOrder.order_key order = Some order' /\
    (cancelled -> DocdataOrder.status order' = DocdataOrder.STATUS_CANCELLED) /\
    (~ cancelled -> age > timedelta_days 21 -> indented_status = None ->
       DocdataOrder.status order' = DocdataOrder.STATUS_EXPIRED) /\
    (~ cancelled -> age <= timedelta_days 21 -> indented_status = None ->
       DocdataOrder.status order' = DocdataOrder.STATUS_NEW) /\
    (forall s, ~ cancelled -> indented_status = Some s -> s <> "" ->
       s ∈ DocdataOrder.STATUS_CHOICES -> DocdataOrder.status order' = s) /\
    (~ cancelled -> age = timedelta_days 22 -> indented_status = None ->
       DocdataOrder.status order' = DocdataOrder.STATUS_EXPIRED).
Proof.
  intros Z1 Z2 Z3 Z4 Z5 Z6 out age cancelled.
  destruct (_store_report_no_payment cfg doc seen now order totals
              indented_status w) as [l Hl].
  subst out. rewrite Hl. clear Hl. simpl.
  set (order_t := DocdataOrder.set_totals totals order).
  eexists. split; [reflexivity |].
  split; [apply lookup_insert_eq |].
  assert (Hz : all_zero totals = true) by by apply all_zero_spec.
  assert (Hfinal : forall s,
    heuristic_value now order_t totals indented_status = s ->
    s ∈ DocdataOrder.STATUS_CHOICES ->
    DocdataOrder.status
      (order_after order_t (heuristic_value now order_t totals indented_status))
    = s).
  { intros s -> Hin. unfold order_after. case_bool_decide; [done |].
    simpl. unfold assigned_status. by rewrite bool_decide_eq_true_2. }
  assert (Hexp : ~ cancelled -> age > timedelta_days 21 -> indented_status = None ->
    DocdataOrder.status
      (order_after order_t (heuristic_value now order_t totals indented_status))
    = DocdataOrder.STATUS_EXPIRED).
  { intros Hc Hage ->. apply Hfinal; [| compute_done].
    unfold heuristic_value. rewrite Hz. simpl.
    rewrite bool_decide_eq_false_2 by done.
    rewrite bool_decide_eq_true_2 by (unfold age in Hage; lia). done. }
  repeat split.
  - intros Hc. apply Hfinal; [| compute_done].
    unfold heuristic_value. rewrite Hz. simpl.
    by rewrite bool_decide_eq_true_2.
  - exact Hexp.
  - intros Hc Hage ->. apply Hfinal; [| compute_done].
    unfold heuristic_value. rewrite Hz. simpl.
    rewrite bool_decide_eq_false_2 by done.
    rewrite bool_decide_eq_false_2 by (unfold age in Hage; lia). done.
  - intros s Hc -> Hs Hin. apply Hfinal; [| done].
    unfold heuristic_value. rewrite Hz. simpl.
    rewrite bool_decide_eq_false_2 by done.
    unfold py_or. rewrite (bool_decide_eq_false_2 (s = "")) by done.
    by case_bool_decide.
  - intros Hc Hage. apply Hexp; [done |]. rewrite Hage.
    unfold timedelta_days. lia.
Qed.

(** C5, at an order in status NEW created 22 days before the pass. *)
Lemma zero_totals_heuristics_witness :
  exists order',
    fst (_store_report ∅ [] [] (timedelta_days 22) (order_of "new" 0)
           {| approximateTotals := totals_of 1000 0 0 0; payment := None |}
           None empty_world)
    = Return order' /\
    DocdataOrder.status order' = DocdataOrder.STATUS_EXPIRED.
Proof.
  destruct (zero_totals_heuristics ∅ [] [] (timedelta_days 22) (order_of "new" 0)
              (totals_of 1000 0 0 0) None empty_world
              eq_refl eq_refl eq_refl eq_refl eq_refl eq_refl)
    as (order' & Hrun & _ & _ & _ & _ & _ & H22).
  exists order'. split; [exact Hrun |].
  apply H22; [discriminate | reflexivity | reflexivity].
Defined.


(** * Sorting the report entries *)

Section SortBy.
Context {A : Type} (key : A -> Z).

Lemma insert_by_perm x l : Permutation (insert_by key x l) (x :: l).
Proof.
  induction l as [|y l IH]; simpl; [done |].
  case_bool_decide; [done |].
  rewrite IH. apply perm_swap.
Qed.

Lemma sort_by_perm l : Permutation (sort_by key l) l.
Proof.
  induction l as [|x l IH]; simpl; [done |].
  rewrite insert_by_perm. by constructor.
Qed.

Lemma insert_by_sorted x l :
  Sorted (fun a b => key a <= key b) l ->
  Sorted (fun a b => key a <= key b) (insert_by key x l).
Proof.
  induction 1 as [|y l Hs IH Hhd]; simpl.
  - repeat constructor.
  - case_bool_decide.
    + repeat constructor; done.
    + constructor; [done |].
      destruct Hhd as [|z l Hyz]; simpl.
      * constructor. lia.
      * case_bool_decide; constructor; lia.
Qed.

Lemma sort_by_sorted l : Sorted (fun a b => key a <= key b) (sort_by key l).
Proof.
  induction l as [|x l IH]; simpl; [constructor |].
  by apply insert_by_sorted.
Qed.

Lemma insert_by_comm x y l :
  key x <> key y ->
  insert_by key x (insert_by key y l) = insert_by key y (insert_by key x l).
Proof.
  intros Hxy. induction l as [|z l IH]; simpl.
  - repeat case_bool_decide; try lia; reflexivity.
  - repeat (case_bool_decide; simpl); try lia; try reflexivity.
    by rewrite IH.
Qed.

Lemma sort_by_unique l l' :
  Permutation l l' -> NoDup (map key l) -> sort_by key l = sort_by key l'.
Proof.
  induction 1 as [|x l l' Hp IH|x y l|l l' l'' Hp1 IH1 Hp2 IH2]; intros Hnd.
  - reflexivity.
  - simpl. f_equal. apply IH. by inversion Hnd.
  - simpl. apply insert_by_comm.
    simpl in Hnd. apply NoDup_cons in Hnd as [Hy _].
    intros Heq. apply Hy. rewrite Heq. left.
  - rewrite IH1 by done. apply IH2.
    assert (Hm : Permutation (map key l) (map key l')) by by apply Permutation_map.
    by rewrite <- Hm.
Qed.

End SortBy.

Lemma bind_ext {A B} (m m' : M A) (k k' : A -> M B) w :
  m w = m' w -> (forall a w1, k a w1 = k' a w1) -> (m ≫= k) w = (m' ≫= k') w.
Proof.
  intros Hm Hk. unfold mbind, M_bind, bind. rewrite Hm.
  destruct (m' w) as [[a|e] w1]; [apply Hk | done].
Qed.

Lemma existsb_Permutation {A} (f : A -> bool) l l' :
  Permutation l l' -> existsb f l = existsb f l'.
Proof.
  induction 1 as [|x l l' _ IH|x y l|l l' l'' _ IH1 _ IH2]; simpl.
  - reflexivity.
  - by rewrite IH.
  - destruct (f x), (f y); reflexivity.
  - by rewrite IH1.
Qed.

Section Reordering.
Variables (cfg : gmap string Z) (doc seen : list string).
Variables (order : DocdataOrder.t) (totals : Totals).
Variables (entries entries' : list Payment).
Hypothesis Hperm : Permutation entries entries'.

Let report := {| approximateTotals := totals; payment := Some entries |}.
Let report' := {| approximateTotals := totals; payment := Some entries' |}.

Lemma success_margin_reordered w :
  success_margin cfg order report w = success_margin cfg order report' w.
Proof.
  unfold success_margin, report_payment, report, report'.
  cbn [payment approximateTotals].
  case_bool_decide; [| done].
  unfold mbind, M_bind, bind, mret, M_ret, ret.
  by rewrite (existsb_Permutation _ _ _ Hperm).
Qed.

Lemma _process_authorized_payment_reordered p w :
  _process_authorized_payment cfg order report p w
  = _process_authorized_payment cfg order report' p w.
Proof.
  unfold _process_authorized_payment.
  apply bind_ext; [apply success_margin_reordered | reflexivity].
Qed.

Lemma store_report_line_reordered new_status p w :
  store_report_line cfg doc seen order report new_status p w
  = store_report_line cfg doc seen order report' new_status p w.
Proof.
  unfold store_report_line.
  apply bind_ext; [reflexivity |]. intros msg w1.
  apply bind_ext; [reflexivity |]. intros [] w2. cbv zeta.
  apply bind_ext; [| reflexivity].
  case_bool_decide; [| reflexivity].
  apply bind_ext; [apply _process_authorized_payment_reordered | reflexivity].
Qed.

Lemma store_report_loop_reordered l : forall new_status objs w,
  store_report_loop cfg doc seen order report l new_status objs w
  = store_report_loop cfg doc seen order report' l new_status objs w.
Proof.
  induction l as [|p l IH]; intros new_status objs w; simpl; [done |].
  unfold mbind, M_bind, bind.
  rewrite store_report_line_reordered.
  destruct (store_report_line _ _ _ _ _ _ _ _) as [[[ns dd]|e] w1]; [| done].
  apply IH.
Qed.

End Reordering.

Lemma bind_mret {A B} (a : A) (k : A -> M B) w : (mret a ≫= k) w = k a w.
Proof. reflexivity. Qed.

(** C2 as stated fails for a report in which two entries carry the same
    payment id: the sort is stable, so the two keep the order they arrive
    in, and the entry that comes last decides both the fallback status and
    the stored line. *)
Lemma duplicate_ids_depend_on_order :
  let a := line_of 1 "VISA" "AUTHORIZED" "EUR" in
  let b := line_of 1 "IDEAL" "NEW" "EUR" in
  let run entries :=
    _store_report ∅ [] [] 0 (order_of "new" 0)
      {| approximateTotals := totals_of 1000 0 0 0; payment := Some entries |}
      None empty_world in
  Permutation [a; b] [b; a] /\
  (exists o, fst (run [a; b]) = Return o /\
             DocdataOrder.status o = DocdataOrder.STATUS_NEW) /\
  (exists o, fst (run [b; a]) = Return o /\
             DocdataOrder.status o = DocdataOrder.STATUS_PENDING) /\
  DocdataPayment.payment_method <$> payments (snd (run [a; b])) !! 1 = Some "IDEAL" /\
  DocdataPayment.payment_method <$> payments (snd (run [b; a])) !! 1 = Some "VISA".
Proof.
  intros a b run. split; [apply perm_swap |].
  split; [eexists; split; [vm_compute; reflexivity | reflexivity] |].
  split; [eexists; split; [vm_compute; reflexivity | reflexivity] |].
  split; vm_compute; reflexivity.
Qed.

(** * Replaying a report *)

Lemma line_value_added order p found :
  (line_value order p found).1.2 = bool_decide (found = None).
Proof.
  unfold line_value. destruct found as [r|]; simpl;
    repeat (case_bool_decide; simpl); try done.
Qed.

Lemma line_value_payment_id order p found :
  DocdataPayment.payment_id (line_value order p found).1.1
  = match found with
    | Some r => DocdataPayment.payment_id r
    | None => id p
    end.
Proof.
  unfold line_value. destruct found as [r|]; simpl;
    repeat (case_bool_decide; simpl); done.
Qed.

Lemma line_value_settled order order' p found :
  line_value order' p (Some (line_value order p found).1.1)
  = ((line_value order p found).1.1, false, false).
Proof.
  unfold line_value. destruct found as [r|]; simpl.
  all: repeat (case_bool_decide; simpl in * ); simplify_eq; done.
Qed.

Lemma line_value_unchanged order p r :
  (line_value order p (Some r)).2 = false ->
  (line_value order p (Some r)).1.1 = r.
Proof.
  unfold line_value. simpl.
  repeat (case_bool_decide; simpl in * ); try done.
  intros _.
  repeat match goal with
         | H : ~ (_ <> _) |- _ => apply dec_stable in H
         end.
  destruct r; simpl in *. simplify_eq. reflexivity.
Qed.

Lemma persist_payment_Return order p row added updated w w' :
  persist_payment order p row added updated w = (Return tt, w') ->
  orders w' = orders w /\
  payments w'
  = (if added || updated
     then <[DocdataPayment.payment_id row := row]> (payments w) else payments w) /\
  signals w' = (signals w ++ line_signal order row added updated)%list /\
  writes w' = (writes w ++ line_write row added updated)%list.
Proof.
  destruct added.
  - destruct (landed (DocdataPayment.payment_id row) w !! DocdataPayment.payment_id row)
      as [r|] eqn:Hl.
    + rewrite persist_payment_conflict by by eexists. discriminate.
    + unfold landed in Hl.
      destruct (concurrent w !! DocdataPayment.payment_id row) as [r|] eqn:Hc.
      * by rewrite lookup_insert_eq in Hl.
      * rewrite persist_payment_insert by done. intros [= <-]. done.
  - destruct updated.
    + rewrite persist_payment_update. intros [= <-]. done.
    + rewrite persist_payment_unchanged. intros [= <-].
      unfold line_signal, line_write. simpl. by rewrite !app_nil_r.
Qed.

Lemma line_signal_is_line_signal order row added updated :
  Forall is_line_signal (line_signal order row added updated).
Proof.
  unfold line_signal. destruct added, updated; simpl; repeat constructor.
Qed.

Section Loop.
Variables (cfg : gmap string Z) (doc seen : list string).
Variables (order : DocdataOrder.t) (totals : Totals) (entries : list Payment).

Let report := {| approximateTotals := totals; payment := Some entries |}.
Let cand := candidate cfg (DocdataOrder.currency order) totals entries.

(** What a line that returns has done. *)
Lemma store_report_line_Return new_status p w new_status' dd w' :
  store_report_line cfg doc seen order report new_status p w
  = (Return (new_status', dd), w') ->
  let v := line_value order p (payments w !! id p) in
  new_status' = cand new_status p /\
  dd = (v.1.1, p) /\
  orders w' = orders w /\
  payments w'
  = (if v.1.2 || v.2
     then <[DocdataPayment.payment_id v.1.1 := v.1.1]> (payments w) else payments w) /\
  signals w' = (signals w ++ line_signal order v.1.1 v.1.2 v.2)%list /\
  writes w' = (writes w ++ line_write v.1.1 v.1.2 v.2)%list.
Proof.
  intros Hrun v.
  destruct (store_report_line_run cfg doc seen order totals entries new_status p w)
    as (w1 & Hw1 & Heq).
  fold report v in Heq. rewrite Heq in Hrun.
  apply bind_Return_inv in Hrun as ([] & w2 & Hp & Hret).
  injection Hret as <- <- <-.
  apply persist_payment_Return in Hp as (Ho & Hpay & Hsig & Hwr).
  rewrite Ho, Hpay, Hsig, Hwr.
  rewrite (logs_only_orders _ _ Hw1), (logs_only_payments _ _ Hw1),
    (logs_only_signals _ _ Hw1), (logs_only_writes _ _ Hw1).
  done.
Qed.

End Loop.

Lemma bind_unchanged {B} order p row (k : unit -> M B) w :
  (persist_payment order p row false false ≫= k) w = k tt w.
Proof. reflexivity. Qed.

Section Lines.
Variables (cfg : gmap string Z) (doc seen : list string).
Variables (order : DocdataOrder.t) (totals : Totals) (entries : list Payment).

Let report := {| approximateTotals := totals; payment := Some entries |}.
Let cand := candidate cfg (DocdataOrder.currency order) totals entries.

(** A loop that returns has left the order table alone and has sent line
    signals only; its candidate is the fold of [candidate] over the lines. *)
Lemma store_report_loop_Return l : forall new_status objs w new_status' objs' w',
  store_report_loop cfg doc seen order report l new_status objs w
  = (Return (new_status', objs'), w') ->
  new_status' = foldl cand new_status l /\
  orders w' = orders w /\
  exists evs, signals w' = (signals w ++ evs)%list /\ Forall is_line_signal evs.
Proof.
  induction l as [|p l IH]; intros new_status objs w new_status' objs' w' Hrun;
    simpl in Hrun.
  - injection Hrun as <- <- <-. repeat split. exists []. by rewrite app_nil_r.
  - apply bind_Return_inv in Hrun as ([ns1 dd] & w1 & Hline & Hrest).
    apply store_report_line_Return in Hline as (-> & _ & Ho & _ & Hs & _).
    apply IH in Hrest as (-> & Ho' & evs & Hs' & Hevs).
    repeat split; [congruence |].
    eexists. rewrite Hs', Hs, <- app_assoc. split; [reflexivity |].
    apply Forall_app. split; [apply line_signal_is_line_signal | done].
Qed.

(** The rows a loop that returns leaves in the payment table. *)
Lemma store_report_loop_rows l : forall new_status objs w new_status' objs' w',
  store_report_loop cfg doc seen order report l new_status objs w
  = (Return (new_status', objs'), w') ->
  store_wf (payments w) ->
  NoDup (map id l) ->
  store_wf (payments w') /\
  (forall p, p ∈ l ->
     payments w' !! id p = Some (line_value order p (payments w !! id p)).1.1) /\
  (forall k, k ∉ map id l -> payments w' !! k = payments w !! k).
Proof.
  induction l as [|p l IH]; intros new_status objs w new_status' objs' w' Hrun Hwf Hnd;
    simpl in Hrun.
  - injection Hrun as <- <- <-. split; [done |]. split; [| done].
    intros p Hp. by apply elem_of_nil in Hp.
  - apply bind_Return_inv in Hrun as ([ns1 dd] & w1 & Hline & Hrest).
    apply store_report_line_Return in Hline as (_ & _ & _ & Hpay & _ & _).
    simpl in Hnd. apply NoDup_cons in Hnd as [Hp Hnd].
    set (v := line_value order p (payments w !! id p)) in *.
    assert (Hid : DocdataPayment.payment_id v.1.1 = id p).
    { unfold v. rewrite line_value_payment_id.
      destruct (payments w !! id p) as [r|] eqn:Hr; [by apply Hwf | done]. }
    assert (Hpay1 : payments w1 = <[id p := v.1.1]> (payments w)).
    { rewrite Hpay, Hid.
      destruct (v.1.2 || v.2) eqn:Hflags; [done |].
      apply orb_false_iff in Hflags as [Hadded Hupdated].
      unfold v in Hadded. rewrite line_value_added in Hadded.
      apply bool_decide_eq_false in Hadded.
      destruct (payments w !! id p) as [r|] eqn:Hr; [| done].
      symmetry. apply insert_id. rewrite Hr. f_equal.
      symmetry. by apply line_value_unchanged. }
    assert (Hwf1 : store_wf (payments w1)).
    { rewrite Hpay1. intros k r Hk.
      destruct (decide (id p = k)) as [<-|Hne].
      - rewrite lookup_insert_eq in Hk. by simplify_eq.
      - rewrite lookup_insert_ne in Hk by done. by apply Hwf. }
    destruct (IH _ _ _ _ _ _ Hrest Hwf1 Hnd) as (Hwf' & Hrows & Hother).
    split; [done |]. split.
    + intros q Hq. apply elem_of_cons in Hq as [->|Hq].
      * rewrite Hother by done. rewrite Hpay1. apply lookup_insert_eq.
      * rewrite (Hrows q Hq). rewrite Hpay1.
        rewrite lookup_insert_ne; [done |].
        intros Heq. apply Hp. rewrite Heq. apply list_elem_of_fmap.
        by exists q.
    + intros k Hk. simpl in Hk. apply not_elem_of_cons in Hk as [Hne Hk].
      rewrite (Hother k Hk). rewrite Hpay1. by rewrite lookup_insert_ne.
Qed.

(** A loop over lines that are all stored and up to date only logs. *)
Lemma store_report_loop_settled l : forall new_status objs w,
  (forall p, p ∈ l -> exists r,
     payments w !! id p = Some r /\ line_value order p (Some r) = (r, false, false)) ->
  exists objs' w',
    store_report_loop cfg doc seen order report l new_status objs w
    = (Return (foldl cand new_status l, objs'), w') /\
    logs_only w w'.
Proof.
  induction l as [|p l IH]; intros new_status objs w Hall; simpl.
  - exists objs, w. split; [done | apply logs_only_refl].
  - destruct (Hall p) as (r & Hr & Hv); [left |].
    destruct (store_report_line_run cfg doc seen order totals entries new_status p w)
      as (w1 & Hw1 & Heq).
    fold report in Heq. rewrite Hr, Hv in Heq. simpl in Heq.
    rewrite bind_unchanged in Heq.
    destruct (IH (cand new_status p) (objs ++ [(r, p)])%list w1)
      as (objs' & w' & Hrest & Hw').
    { intros q Hq. rewrite (logs_only_payments _ _ Hw1). apply Hall. by right. }
    exists objs', w'. split; [| by eapply logs_only_trans].
    by rewrite (bind_run _ _ _ _ _ Heq).
Qed.

End Lines.

Lemma conclude_lines_quiet order totals sorted cand objs s :
  lines_value order sorted cand = Some s ->
  quiet (conclude_lines order totals sorted cand objs)
        (s, sort_by (fun dd => DocdataPayment.payment_id dd.1) objs).
Proof.
  intros Hv. unfold conclude_lines.
  eapply quiet_bind with (a := s).
  - destruct cand as [c|]; simpl in Hv.
    + injection Hv as ->. apply quiet_ret.
    + unfold last_item. destruct (last sorted) as [lastp|]; [| done].
      simpl in Hv. injection Hv as <-.
      eapply quiet_bind; [apply quiet_ret |].
      unfold fallback_value. simpl. destruct (_ && _); apply quiet_ret.
  - simpl. eapply quiet_bind; [| apply quiet_ret].
    destruct (_ && _); [apply quiet_logger | apply quiet_ret].
Qed.

Lemma conclude_lines_raise order totals sorted cand objs w :
  lines_value order sorted cand = None ->
  conclude_lines order totals sorted cand objs w
  = (Raise (IndexError "list index out of range"), w).
Proof.
  intros Hv. unfold conclude_lines.
  destruct cand as [c|]; [done |]. simpl in Hv.
  unfold last_item. destruct (last sorted); [done |]. reflexivity.
Qed.

Lemma _store_report_lines_run cfg doc seen order totals entries w :
  let report := {| approximateTotals := totals; payment := Some entries |} in
  let sorted := sort_by id entries in
  exists w0, logs_only w w0 /\
    _store_report_lines cfg doc seen order report w
    = (store_report_loop cfg doc seen order report sorted None [] ≫= fun r =>
       conclude_lines order totals sorted r.1 r.2) w0.
Proof.
  intros report sorted. unfold _store_report_lines.
  apply peel_log_format; [reflexivity |]. intros w0 Hw0.
  exists w0. split; [apply logs_only_refl |].
  unfold report_payment. cbn [payment report approximateTotals].
  rewrite bind_mret. cbv zeta. fold sorted.
  apply bind_ext; [reflexivity |]. by intros [ns objs] w1.
Qed.

Lemma elem_of_sort_by {A} (key : A -> Z) l x : x ∈ sort_by key l <-> x ∈ l.
Proof. by rewrite (sort_by_perm key l). Qed.

Section LinesPass.
Variables (cfg : gmap string Z) (doc seen : list string).
Variables (order : DocdataOrder.t) (totals : Totals) (entries : list Payment).

Let report := {| approximateTotals := totals; payment := Some entries |}.
Let sorted := sort_by id entries.
Let cand :=
  foldl (candidate cfg (DocdataOrder.currency order) totals entries) None sorted.

Lemma _store_report_lines_Return w new_status objs w' :
  _store_report_lines cfg doc seen order report w = (Return (new_status, objs), w') ->
  lines_value order sorted cand = Some new_status /\
  orders w' = orders w /\
  (exists evs, signals w' = (signals w ++ evs)%list /\ Forall is_line_signal evs) /\
  (store_wf (payments w) -> NoDup (map id entries) ->
   store_wf (payments w') /\
   forall p, p ∈ entries ->
     payments w' !! id p = Some (line_value order p (payments w !! id p)).1.1).
Proof.
  intros Hrun.
  destruct (_store_report_lines_run cfg doc seen order totals entries w)
    as (w0 & Hw0 & Heq).
  fold report sorted in Heq. rewrite Heq in Hrun. clear Heq.
  apply bind_Return_inv in Hrun as ([c objs0] & w1 & Hloop & Hend).
  simpl in Hend.
  pose proof (store_report_loop_Return _ _ _ _ _ _ _ _ _ _ _ _ _ Hloop)
    as (Hc & Ho & evs & Hs & Hevs).
  fold cand in Hc. subst c.
  destruct (lines_value order sorted cand) as [s|] eqn:Hv;
    [| by rewrite conclude_lines_raise in Hend].
  destruct (quiet_run _ _ w1 (conclude_lines_quiet order totals sorted cand objs0 s Hv))
    as [l Hl].
  rewrite Hl in Hend. injection Hend as <- <- <-.
  split; [done |].
  split; [simpl; by rewrite Ho, (logs_only_orders _ _ Hw0) |].
  split.
  { exists evs. simpl. by rewrite Hs, (logs_only_signals _ _ Hw0). }
  intros Hwf Hnd. simpl.
  destruct (store_report_loop_rows _ _ _ _ _ _ _ _ _ _ _ _ _ Hloop)
    as (Hwf' & Hrows & _).
  - by rewrite (logs_only_payments _ _ Hw0).
  - unfold sorted.
    assert (Hm : Permutation (map id (sort_by id entries)) (map id entries))
      by apply Permutation_map, sort_by_perm.
    by rewrite Hm.
  - split; [done |]. intros p Hp.
    rewrite (Hrows p) by by apply elem_of_sort_by.
    by rewrite (logs_only_payments _ _ Hw0).
Qed.

Lemma _store_report_lines_settled w new_status :
  (forall p, p ∈ entries -> exists r,
     payments w !! id p = Some r /\ line_value order p (Some r) = (r, false, false)) ->
  lines_value order sorted cand = Some new_status ->
  exists objs w',
    _store_report_lines cfg doc seen order report w = (Return (new_status, objs), w') /\
    logs_only w w'.
Proof.
  intros Hall Hv.
  destruct (_store_report_lines_run cfg doc seen order totals entries w)
    as (w0 & Hw0 & Heq).
  fold report sorted in Heq. rewrite Heq. clear Heq.
  destruct (store_report_loop_settled cfg doc seen order totals entries sorted
              None [] w0) as (objs0 & w1 & Hloop & Hw1).
  { intros p Hp. rewrite (logs_only_payments _ _ Hw0).
    apply Hall. by apply elem_of_sort_by in Hp. }
  fold report cand in Hloop.
  rewrite (bind_run _ _ _ _ _ Hloop). simpl.
  destruct (quiet_run _ _ w1 (conclude_lines_quiet order totals sorted cand objs0 _ Hv))
    as [l Hl].
  rewrite Hl. eexists _, _. split; [reflexivity |].
  eapply logs_only_trans; [exact Hw0 |].
  eapply logs_only_trans; [exact Hw1 | by eexists].
Qed.

End LinesPass.

(** * Whole passes *)

Lemma order_after_same order :
  order_after order (DocdataOrder.status order) = order.
Proof. unfold order_after. by rewrite bool_decide_eq_true_2. Qed.

Lemma order_after_twice order new_status :
  order_after (order_after order new_status) new_status
  = order_after order new_status.
Proof.
  unfold order_after.
  destruct (bool_decide_reflect (DocdataOrder.status order = new_status)) as [Hs|Hs].
  - by rewrite bool_decide_eq_true_2.
  - case_bool_decide; reflexivity.
Qed.

(** Assigning again either the same status or the status the order has
    leaves the order as it is. *)
Lemma order_after_stable order new_status new_status' :
  new_status' = new_status
  \/ new_status' = DocdataOrder.status (order_after order new_status) ->
  order_after (order_after order new_status) new_status'
  = order_after order new_status.
Proof.
  intros [-> | ->]; [apply order_after_twice | apply order_after_same].
Qed.

Lemma order_after_key order new_status :
  DocdataOrder.order_key (order_after order new_status)
  = DocdataOrder.order_key order.
Proof. unfold order_after. by case_bool_decide. Qed.

Lemma order_after_currency order new_status :
  DocdataOrder.currency (order_after order new_status)
  = DocdataOrder.currency order.
Proof. unfold order_after. by case_bool_decide. Qed.

Lemma order_after_created order new_status :
  DocdataOrder.created (order_after order new_status)
  = DocdataOrder.created order.
Proof. unfold order_after. by case_bool_decide. Qed.

Lemma order_after_set_totals totals order new_status :
  DocdataOrder.set_totals totals
    (order_after (DocdataOrder.set_totals totals order) new_status)
  = order_after (DocdataOrder.set_totals totals order) new_status.
Proof. unfold order_after. by case_bool_decide. Qed.

Lemma order_after_recognized order new_status :
  DocdataOrder.status order ∈ DocdataOrder.STATUS_CHOICES ->
  DocdataOrder.status (order_after order new_status) ∈ DocdataOrder.STATUS_CHOICES.
Proof.
  intros H. unfold order_after. case_bool_decide; [done |].
  apply assigned_status_recognized.
Qed.

Lemma heuristic_value_stable now now' order totals indented_status :
  (DocdataOrder.created order < now - timedelta_days 21
   <-> DocdataOrder.created order < now' - timedelta_days 21) ->
  let ns := heuristic_value now order totals indented_status in
  let ns' := heuristic_value now' (order_after order ns) totals indented_status in
  ns' = ns \/ ns' = DocdataOrder.status (order_after order ns).
Proof.
  intros Hage ns ns'. subst ns'. unfold heuristic_value at 1 2.
  rewrite order_after_created.
  rewrite (bool_decide_ext _ _ (iff_sym Hage)).
  destruct (all_zero totals) eqn:Hz.
  - destruct (bool_decide_reflect
                (DocdataOrder.status (order_after order ns)
                 = DocdataOrder.STATUS_CANCELLED)) as [Hc|Hc]; [by right |].
    left. subst ns. unfold heuristic_value. rewrite Hz.
    destruct (bool_decide_reflect
                (DocdataOrder.status order = DocdataOrder.STATUS_CANCELLED))
      as [Hc0|Hc0]; [| done].
    exfalso. apply Hc. unfold heuristic_value. rewrite Hz.
    rewrite bool_decide_eq_true_2 by done. by rewrite order_after_same.
  - destruct (bool_decide_reflect
                (DocdataOrder.status (order_after order ns)
                 ∈ [DocdataOrder.STATUS_EXPIRED; DocdataOrder.STATUS_CANCELLED]))
      as [Hc|Hc]; [by right |].
    left. subst ns. unfold heuristic_value. rewrite Hz.
    destruct (bool_decide_reflect
                (DocdataOrder.status order
                 ∈ [DocdataOrder.STATUS_EXPIRED; DocdataOrder.STATUS_CANCELLED]))
      as [Hc0|Hc0]; [| done].
    exfalso. apply Hc. unfold heuristic_value. rewrite Hz.
    rewrite bool_decide_eq_true_2 by done. by rewrite order_after_same.
Qed.

Lemma fallback_value_stable order p :
  let ns := fallback_value order p in
  let ns' := fallback_value (order_after order ns) p in
  ns' = ns \/ ns' = DocdataOrder.status (order_after order ns).
Proof.
  intros ns ns'. subst ns'. unfold fallback_value at 1 2.
  destruct (_ && _) eqn:Hg; [by right |]. left.
  subst ns. unfold fallback_value.
  destruct (bool_decide (DocdataOrder.status order ∈ _) && _) eqn:Hg0; [| done].
  exfalso. unfold fallback_value in Hg. rewrite Hg0 in Hg.
  rewrite order_after_same in Hg. congruence.
Qed.

Lemma lines_value_stable order sorted cand ns :
  lines_value order sorted cand = Some ns ->
  exists ns',
    lines_value (order_after order ns) sorted cand = Some ns' /\
    (ns' = ns \/ ns' = DocdataOrder.status (order_after order ns)).
Proof.
  unfold lines_value. destruct cand as [c|].
  - intros [= ->]. exists ns. by split; [| left].
  - destruct (last sorted) as [p|]; [| done]. simpl. intros [= <-].
    eexists. split; [reflexivity |]. apply fallback_value_stable.
Qed.

(** What a pass over a report with payment entries has done when it
    returns. *)
Lemma _store_report_payments_Return
    cfg doc seen now order totals entries indented_status w order1 w1 :
  _store_report cfg doc seen now order
    {| approximateTotals := totals; payment := Some entries |} indented_status w
  = (Return order1, w1) ->
  let order_t := DocdataOrder.set_totals totals order in
  let sorted := sort_by id entries in
  let cand :=
    foldl (candidate cfg (DocdataOrder.currency order) totals entries) None sorted in
  exists new_status,
    lines_value order_t sorted cand = Some new_status /\
    order1 = order_after order_t new_status /\
    orders w1 = <[DocdataOrder.order_key order := order1]> (orders w) /\
    (exists evs,
       signals w1
       = (signals w ++ evs ++ status_signal (DocdataOrder.status order) order1)%list /\
       Forall is_line_signal evs) /\
    (store_wf (payments w) -> NoDup (map id entries) ->
     store_wf (payments w1) /\
     forall p, p ∈ entries ->
       payments w1 !! id p = Some (line_value order_t p (payments w !! id p)).1.1).
Proof.
  intros Hrun order_t sorted cand.
  unfold _store_report in Hrun. cbn [payment approximateTotals] in Hrun.
  fold order_t in Hrun.
  apply bind_Return_inv in Hrun as (ns & wa & Hlines & Hstore).
  apply bind_Return_inv in Hlines as ([ns' objs] & wa' & Hlines & Hret).
  injection Hret as -> ->.
  apply _store_report_lines_Return in Hlines as (Hv & Ho & (evs & Hs & Hevs) & Hrows).
  destruct (store_status_run order_t ns wa) as [l Hl].
  rewrite Hl in Hstore. injection Hstore as <- <-.
  exists ns. fold (order_after order_t ns). simpl.
  split; [exact Hv |]. split; [done |]. split; [by rewrite Ho |].
  split; [| exact Hrows].
  exists evs. split; [| done]. by rewrite Hs, <- app_assoc.
Qed.

(** A pass over a report whose lines are all stored and up to date, on an
    order that already has the totals and the status the pass computes. *)
Lemma _store_report_settled
    cfg doc seen now order1 totals entries indented_status w1 new_status :
  DocdataOrder.set_totals totals order1 = order1 ->
  (forall p, p ∈ entries -> exists r,
     payments w1 !! id p = Some r /\ line_value order1 p (Some r) = (r, false, false)) ->
  lines_value order1 (sort_by id entries)
    (foldl (candidate cfg (DocdataOrder.currency order1) totals entries) None
       (sort_by id entries))
  = Some new_status ->
  order_after order1 new_status = order1 ->
  exists l,
    _store_report cfg doc seen now order1
      {| approximateTotals := totals; payment := Some entries |} indented_status w1
    = (Return order1,
       {| orders := <[DocdataOrder.order_key order1 := order1]> (orders w1);
          payments := payments w1;
          concurrent := concurrent w1;
          writes := writes w1 ++ [SaveOrder (DocdataOrder.order_key order1)];
          signals := signals w1;
          log := log w1 ++ l |}).
Proof.
  intros Hset Hall Hv Hst.
  destruct (_store_report_lines_settled cfg doc seen order1 totals entries w1
              new_status Hall Hv) as (objs & w2 & Hl & [l2 ->]).
  unfold _store_report. cbn [payment approximateTotals]. rewrite Hset.
  erewrite bind_run; [| by erewrite bind_run; [| exact Hl]].
  destruct (store_status_run order1 new_status (add_log l2 w1)) as [l Hl2].
  rewrite Hl2. clear Hl2. fold (order_after order1 new_status). rewrite Hst.
  exists (l2 ++ l)%list. simpl.
  rewrite bool_decide_eq_true_2 by done.
  by rewrite app_nil_r, app_assoc.
Qed.

(** C7, amended.  Replaying a report on the order a first pass returned, in
    the world that pass left, for a report with pairwise distinct payment
    ids, a payment table filed by payment id and a clock on the same side
    of the 21 days: the second pass returns the same order, sends no signal
    and leaves the order table and the payment table as they were; no
    payment line is written.  It does write once: the order is saved again,
    unconditionally, with the values it already has. *)
Theorem replay_changes_no_state
    (cfg : gmap string Z) (doc seen : list string) (now now' : Z)
    (order : DocdataOrder.t) (report : Report)
    (indented_status : option string) (w : World)
    (order1 : DocdataOrder.t) (w1 : World) :
  store_wf (payments w) ->
  (forall entries, payment report = Some entries -> NoDup (map id entries)) ->
  (DocdataOrder.created order < now - timedelta_days 21
   <-> DocdataOrder.created order < now' - timedelta_days 21) ->
  _store_report cfg doc seen now order report indented_status w
  = (Return order1, w1) ->
  let out := _store_report cfg doc seen now' order1 report indented_status w1 in
  fst out = Return order1 /\
  signals (snd out) = signals w1 /\
  payments (snd out) = payments w1 /\
  orders (snd out) = orders w1 /\
  writes (snd out)
  = (writes w1 ++ [SaveOrder (DocdataOrder.order_key order1)])%list.
Proof.
  intros Hwf Hnd Hage Hrun out. subst out.
  destruct report as [totals [entries|]].
  - apply _store_report_payments_Return in Hrun
      as (ns & Hv & -> & Ho & _ & Hrows).
    destruct (Hrows Hwf (Hnd entries eq_refl)) as [_ Hrow]. clear Hrows.
    set (order_t := DocdataOrder.set_totals totals order) in *.
    destruct (lines_value_stable _ _ _ _ Hv) as (ns' & Hv' & Hst).
    destruct (_store_report_settled cfg doc seen now' (order_after order_t ns)
                totals entries indented_status w1 ns') as [l Hl].
    { apply order_after_set_totals. }
    { intros p Hp. eexists. split; [by apply Hrow |]. apply line_value_settled. }
    { rewrite order_after_currency. exact Hv'. }
    { by apply order_after_stable. }
    rewrite Hl. simpl. repeat split.
    rewrite Ho, order_after_key. apply insert_insert_eq.
  - destruct (_store_report_no_payment cfg doc seen now order totals
                indented_status w) as [l Hl].
    rewrite Hl in Hrun. clear Hl. injection Hrun as Horder Hw1.
    set (order_t := DocdataOrder.set_totals totals order) in *.
    assert (Hset : DocdataOrder.set_totals totals order1 = order1)
      by (rewrite <- Horder; apply order_after_set_totals).
    assert (Hst : order_after order1
                    (heuristic_value now' order1 totals indented_status) = order1).
    { rewrite <- Horder. apply order_after_stable.
      apply (heuristic_value_stable now now' order_t totals indented_status).
      exact Hage. }
    assert (Hkey : DocdataOrder.order_key order1 = DocdataOrder.order_key order)
      by (rewrite <- Horder, order_after_key; reflexivity).
    destruct (_store_report_no_payment cfg doc seen now' order1 totals
                indented_status w1) as [l2 Hl2].
    rewrite Hl2. clear Hl2. rewrite Hset, Hst. simpl.
    rewrite bool_decide_eq_true_2 by done.
    repeat split; [by rewrite app_nil_r |].
    rewrite <- Hw1. simpl. rewrite Hkey, Horder. apply insert_insert_eq.
Qed.

(** C7 as stated fails: the second pass over an identical report is not
    free of writes.  It saves the order row again. *)
Lemma replay_saves_the_order_again :
  let first := _store_report ∅ [] [] 0 (order_of "new" 0) paid_report None empty_world in
  exists order1,
    fst first = Return order1 /\
    let second := _store_report ∅ [] [] 0 order1 paid_report None (snd first) in
    writes (snd first) = [InsertPayment 1; SaveOrder "K"] /\
    writes (snd second) = [InsertPayment 1; SaveOrder "K"; SaveOrder "K"].
Proof. eexists. vm_compute. repeat split. Qed.

Lemma store_wf_empty : store_wf ∅.
Proof. intros k r Hk. by rewrite lookup_empty in Hk. Qed.

(** C7, amended, at the paid order: the replay sends no signal and changes
    neither table. *)
Lemma replay_changes_no_state_witness :
  match _store_report ∅ [] [] 0 (order_of "new" 0) paid_report None empty_world with
  | (Return order1, w1) =>
    let out := _store_report ∅ [] [] 0 order1 paid_report None w1 in
    fst out = Return order1 /\
    signals (snd out) = signals w1 /\
    payments (snd out) = payments w1 /\
    orders (snd out) = orders w1
  | (Raise _, _) => False
  end.
Proof.
  destruct (_store_report ∅ [] [] 0 (order_of "new" 0) paid_report None empty_world)
    as [[order1|e] w1] eqn:Hfirst.
  - destruct (replay_changes_no_state ∅ [] [] 0 0 (order_of "new" 0) paid_report
                None empty_world order1 w1) as (H1 & H2 & H3 & H4 & _).
    + apply store_wf_empty.
    + intros entries [= <-]. cbn. apply NoDup_singleton.
    + reflexivity.
    + exact Hfirst.
    + by repeat split.
  - vm_compute in Hfirst. discriminate.
Defined.

(** * The order table is written by [store_status] only *)

Lemma bind_orders {A B} (m : M A) (k : A -> M B) w :
  orders (m w).2 = orders w ->
  (forall a w1, orders (k a w1).2 = orders w1) ->
  orders ((m ≫= k) w).2 = orders w.
Proof.
  intros Hm Hk. unfold mbind, M_bind, bind.
  destruct (m w) as [[a|e] w1]; simpl in *; [| done].
  by rewrite Hk.
Qed.

Lemma persist_payment_orders order p row added updated w :
  orders (persist_payment order p row added updated w).2 = orders w.
Proof.
  destruct added.
  - destruct (landed (DocdataPayment.payment_id row) w !! DocdataPayment.payment_id row)
      as [r|] eqn:Hl.
    + by rewrite persist_payment_conflict by by eexists.
    + unfold landed in Hl.
      destruct (concurrent w !! DocdataPayment.payment_id row) as [r|] eqn:Hc.
      * by rewrite lookup_insert_eq in Hl.
      * by rewrite persist_payment_insert by done.
  - by destruct updated.
Qed.

Lemma store_report_line_orders cfg doc seen order totals entries new_status p w :
  orders (store_report_line cfg doc seen order
            {| approximateTotals := totals; payment := Some entries |}
            new_status p w).2
  = orders w.
Proof.
  destruct (store_report_line_run cfg doc seen order totals entries new_status p w)
    as (w1 & Hw1 & ->).
  rewrite bind_orders; [by apply logs_only_orders | apply persist_payment_orders | done].
Qed.

Lemma store_report_loop_orders cfg doc seen order totals entries l :
  forall new_status objs w,
  orders (store_report_loop cfg doc seen order
            {| approximateTotals := totals; payment := Some entries |}
            l new_status objs w).2
  = orders w.
Proof.
  induction l as [|p l IH]; intros new_status objs w; simpl; [done |].
  apply bind_orders; [apply store_report_line_orders |].
  intros [ns dd] w1. apply IH.
Qed.

Lemma conclude_lines_orders order totals sorted cand objs w :
  orders (conclude_lines order totals sorted cand objs w).2 = orders w.
Proof.
  destruct (lines_value order sorted cand) as [s|] eqn:Hv.
  - destruct (quiet_run _ _ w (conclude_lines_quiet order totals sorted cand objs s Hv))
      as [l ->]. done.
  - by rewrite conclude_lines_raise.
Qed.

Lemma _store_report_lines_orders cfg doc seen order totals entries w :
  orders (_store_report_lines cfg doc seen order
            {| approximateTotals := totals; payment := Some entries |} w).2
  = orders w.
Proof.
  destruct (_store_report_lines_run cfg doc seen order totals entries w)
    as (w0 & Hw0 & ->).
  rewrite bind_orders; [by apply logs_only_orders | apply store_report_loop_orders |].
  intros [ns objs] w1. apply conclude_lines_orders.
Qed.

(** A pass that raises has not saved the order. *)
Lemma _store_report_Raise cfg doc seen now order report indented_status w e w' :
  _store_report cfg doc seen now order report indented_status w = (Raise e, w') ->
  orders w' = orders w.
Proof.
  destruct report as [totals [entries|]].
  - unfold _store_report. cbn [payment approximateTotals].
    unfold mbind at 1. unfold M_bind, bind at 1.
    destruct ((_store_report_lines _ _ _ _ _ ≫= _) w) as [[ns|e1] w1] eqn:Hl.
    + destruct (store_status_run (DocdataOrder.set_totals totals order) ns w1)
        as [l ->]. discriminate.
    + intros [= <- <-].
      change w1 with ((Raise (A := string) e1, w1).2). rewrite <- Hl.
      apply bind_orders; [apply _store_report_lines_orders | by intros []].
  - destruct (_store_report_no_payment cfg doc seen now order totals
                indented_status w) as [l ->]. discriminate.
Qed.

(** What a pass that returns has done to the order and its signals. *)
Lemma _store_report_Return cfg doc seen now order report indented_status w order' w' :
  _store_report cfg doc seen now order report indented_status w = (Return order', w') ->
  exists new_status evs,
    order' = order_after (DocdataOrder.set_totals (approximateTotals report) order)
               new_status /\
    orders w' = <[DocdataOrder.order_key order := order']> (orders w) /\
    signals w'
    = (signals w ++ evs ++ status_signal (DocdataOrder.status order) order')%list /\
    Forall is_line_signal evs.
Proof.
  intros Hrun. destruct report as [totals [entries|]].
  - apply _store_report_payments_Return in Hrun
      as (ns & _ & -> & Ho & (evs & Hs & Hevs) & _).
    by exists ns, evs.
  - destruct (_store_report_no_payment cfg doc seen now order totals
                indented_status w) as [l Hl].
    rewrite Hl in Hrun. injection Hrun as <- <-.
    eexists _, []. simpl. repeat split. constructor.
Qed.

(** * Non-regression of terminal states *)

Lemma decision_value_decided totals m s :
  decision_value totals m = Some s -> s ∈ decided.
Proof.
  unfold decision_value, zero_sum_value.
  repeat case_bool_decide; intros [= <-]; compute_done.
Qed.

Lemma candidate_decided cfg cur totals entries l : forall new_status s,
  foldl (candidate cfg cur totals entries) new_status l = Some s ->
  new_status = Some s \/ s ∈ decided.
Proof.
  induction l as [|p l IH]; intros new_status s; simpl; [by left |].
  intros H. apply IH in H as [H|H]; [| by right].
  unfold candidate in H. case_bool_decide; [| by left].
  destruct (decision_value _ _) as [d|] eqn:Hd; [| by left].
  right. injection H as <-. by eapply decision_value_decided.
Qed.

Ltac elem_cases :=
  repeat match goal with
         | H : _ ∈ _ :: _ |- _ => apply elem_of_cons in H; destruct H as [H|H]
         | H : _ ∈ [] |- _ => apply elem_of_nil in H; destruct H
         end;
  simpl in *;
  unfold DocdataOrder.STATUS_NEW, DocdataOrder.STATUS_IN_PROGRESS,
    DocdataOrder.STATUS_PENDING, DocdataOrder.STATUS_PAID,
    DocdataOrder.STATUS_PAID_REFUNDED, DocdataOrder.STATUS_REFUNDED,
    DocdataOrder.STATUS_CANCELLED, DocdataOrder.STATUS_CHARGED_BACK,
    DocdataOrder.STATUS_EXPIRED, DocdataOrder.STATUS_UNKNOWN in *.

(** Apart from the all-zero branch of the no-payment heuristics, a pass of
    the update flow or of the cancel flow never takes a CANCELLED or EXPIRED
    order to NEW or IN_PROGRESS. *)
Lemma non_regression_guarded
    cfg doc seen now order report indented_status w order' w' :
  DocdataOrder.status order
    ∈ [DocdataOrder.STATUS_CANCELLED; DocdataOrder.STATUS_EXPIRED] ->
  indented_status = None \/ indented_status = Some DocdataOrder.STATUS_CANCELLED ->
  _store_report cfg doc seen now order report indented_status w = (Return order', w') ->
  DocdataOrder.status order'
    ∈ [DocdataOrder.STATUS_NEW; DocdataOrder.STATUS_IN_PROGRESS] ->
  payment report = None /\ all_zero (approximateTotals report) = true /\
  DocdataOrder.status order = DocdataOrder.STATUS_EXPIRED /\
  ~ DocdataOrder.created order < now - timedelta_days 21 /\
  indented_status = None.
Proof.
  intros Hold Hint Hrun Hnew.
  assert (Hterm : forall ns,
    order' = order_after (DocdataOrder.set_totals (approximateTotals report) order) ns ->
    ns ∈ [DocdataOrder.STATUS_NEW; DocdataOrder.STATUS_IN_PROGRESS]).
  { intros ns ->. unfold order_after in Hnew.
    case_bool_decide as Hs; simpl in Hnew.
    - exfalso. elem_cases; congruence.
    - unfold assigned_status in Hnew. case_bool_decide; [done |].
      exfalso. elem_cases; congruence. }
  clear Hnew.
  destruct report as [totals [entries|]]; simpl in *.
  - exfalso.
    apply _store_report_payments_Return in Hrun as (ns & Hv & Ho & _).
    specialize (Hterm ns Ho). unfold lines_value in Hv.
    destruct (foldl _ _ _) as [c|] eqn:Hc.
    + injection Hv as ->. apply candidate_decided in Hc as [Hc|Hc]; [done |].
      unfold decided in Hc. elem_cases; congruence.
    + destruct (last _) as [p|]; [| done]. simpl in Hv. injection Hv as <-.
      unfold fallback_value in Hterm. simpl in Hterm.
      rewrite (bool_decide_eq_true_2 (DocdataOrder.status order ∈ _)) in Hterm
        by (elem_cases; rewrite Hold; compute_done).
      rewrite andb_true_l in Hterm. case_bool_decide; [| done].
      elem_cases; congruence.
  - destruct (_store_report_no_payment cfg doc seen now order totals
                indented_status w) as [l Hl].
    rewrite Hl in Hrun. clear Hl. injection Hrun as Ho _. symmetry in Ho.
    specialize (Hterm _ Ho). unfold heuristic_value in Hterm. simpl in Hterm.
    destruct (all_zero totals).
    + case_bool_decide as Hc; [exfalso; elem_cases; congruence |].
      assert (He : DocdataOrder.status order = DocdataOrder.STATUS_EXPIRED)
        by (elem_cases; congruence).
      case_bool_decide; destruct Hint as [-> | ->]; simpl in Hterm;
        try (exfalso; elem_cases; congruence).
      done.
    + rewrite bool_decide_eq_true_2 in Hterm
        by (elem_cases; rewrite Hold; compute_done).
      exfalso. elem_cases; congruence.
Qed.

(** * Every computed status of the two flows is recognized *)

Lemma status_mapping_recognized s :
  default DocdataOrder.STATUS_UNKNOWN (status_mapping !! s)
  ∈ DocdataOrder.STATUS_CHOICES.
Proof.
  destruct (status_mapping !! s) as [v|] eqn:Hs; simpl; [| compute_done].
  apply elem_of_list_to_map_2 in Hs.
  elem_cases; simplify_eq; compute_done.
Qed.

Lemma decided_recognized s : s ∈ decided -> s ∈ DocdataOrder.STATUS_CHOICES.
Proof. unfold decided. intros H. elem_cases; subst; compute_done. Qed.

Lemma order_after_status order new_status :
  new_status ∈ DocdataOrder.STATUS_CHOICES ->
  DocdataOrder.status (order_after order new_status) = new_status.
Proof.
  intros H. unfold order_after. case_bool_decide; [done |].
  simpl. unfold assigned_status. by rewrite bool_decide_eq_true_2.
Qed.

Lemma py_or_recognized indented_status default_status :
  intended_recognized indented_status ->
  default_status ∈ DocdataOrder.STATUS_CHOICES ->
  py_or indented_status default_status ∈ DocdataOrder.STATUS_CHOICES.
Proof.
  intros Hi Hd. unfold py_or. destruct indented_status as [s|]; [| done].
  case_bool_decide; [done |]. destruct (Hi s eq_refl); done.
Qed.

Lemma heuristic_value_recognized now order totals indented_status :
  intended_recognized indented_status ->
  heuristic_value now order totals indented_status ∈ DocdataOrder.STATUS_CHOICES.
Proof.
  intros Hi. unfold heuristic_value.
  destruct (all_zero totals); repeat case_bool_decide;
    try (apply py_or_recognized; [done | compute_done]).
  - match goal with H : _ = _ |- _ => rewrite H end. compute_done.
  - elem_cases; match goal with H : _ = _ |- _ => rewrite H end; compute_done.
Qed.

Lemma lines_value_recognized cfg cur totals entries order sorted new_status :
  lines_value order sorted (foldl (candidate cfg cur totals entries) None sorted)
  = Some new_status ->
  new_status ∈ DocdataOrder.STATUS_CHOICES.
Proof.
  unfold lines_value. destruct (foldl _ _ _) as [c|] eqn:Hc.
  - intros [= <-]. apply candidate_decided in Hc as [Hc|Hc]; [done |].
    by apply decided_recognized.
  - destruct (last sorted) as [p|]; [| done]. simpl. intros [= <-].
    unfold fallback_value.
    destruct (bool_decide_reflect
                (DocdataOrder.status order
                 ∈ [DocdataOrder.STATUS_EXPIRED; DocdataOrder.STATUS_CANCELLED]))
      as [He|He]; simpl; [| apply status_mapping_recognized].
    case_bool_decide; [| apply status_mapping_recognized].
    elem_cases; match goal with H : DocdataOrder.status _ = _ |- _ => rewrite H end;
      compute_done.
Qed.

(** A pass of the update flow or of the cancel flow returns the order in a
    recognized status, whatever status it had. *)
Lemma _store_report_recognized
    cfg doc seen now order report indented_status w order' w' :
  intended_recognized indented_status ->
  _store_report cfg doc seen now order report indented_status w = (Return order', w') ->
  DocdataOrder.status order' ∈ DocdataOrder.STATUS_CHOICES.
Proof.
  intros Hi Hrun. destruct report as [totals [entries|]].
  - apply _store_report_payments_Return in Hrun as (ns & Hv & -> & _).
    apply lines_value_recognized in Hv. by rewrite order_after_status.
  - destruct (_store_report_no_payment cfg doc seen now order totals
                indented_status w) as [l Hl].
    rewrite Hl in Hrun. clear Hl. injection Hrun as <- _.
    rewrite order_after_status; by apply heuristic_value_recognized.
Qed.

(** C9. The status assignment at the end of a pass, on an order whose
    current status is one of the recognized values: a computed status that
    is not recognized is replaced by UNKNOWN, with a warning, and the
    assignment succeeds; assigning the status the order already has changes
    nothing and reports no change; so a pass that returns leaves the order,
    as returned and as saved, in a recognized status, and sends
    [order_status_changed] exactly when the status differs from the one
    before, after the signals of the lines; a pass of the update flow or of
    the cancel flow leaves a recognized status whatever status the order
    had; a pass that raises has not touched the order row. *)
Theorem status_assignment_spec :
  (forall order new_status w,
     DocdataOrder.status order ∈ DocdataOrder.STATUS_CHOICES ->
     new_status ∉ DocdataOrder.STATUS_CHOICES ->
     exists msg,
       _set_status order new_status w
       = (Return (true, DocdataOrder.set_status DocdataOrder.STATUS_UNKNOWN order),
          add_log [{| log_level := WARNING; log_message := msg |}] w)) /\
  (forall order w,
     _set_status order (DocdataOrder.status order) w = (Return (false, order), w)) /\
  (forall cfg doc seen now order report indented_status w order' w',
     DocdataOrder.status order ∈ DocdataOrder.STATUS_CHOICES ->
     _store_report cfg doc seen now order report indented_status w
     = (Return order', w') ->
     DocdataOrder.status order' ∈ DocdataOrder.STATUS_CHOICES /\
     orders w' !! DocdataOrder.order_key order = Some order' /\
     exists evs,
       Forall is_line_signal evs /\
       signals w'
       = (signals w ++ evs ++
          (if bool_decide (DocdataOrder.status order = DocdataOrder.status order')
           then []
           else [order_status_changed order' (DocdataOrder.status order)
                   (DocdataOrder.status order')]))%list) /\
  (forall cfg doc seen now order report indented_status w order' w',
     indented_status = None
     \/ indented_status = Some DocdataOrder.STATUS_CANCELLED ->
     _store_report cfg doc seen now order report indented_status w
     = (Return order', w') ->
     DocdataOrder.status order' ∈ DocdataOrder.STATUS_CHOICES) /\
  (forall cfg doc seen now order report indented_status w e w',
     _store_report cfg doc seen now order report indented_status w = (Raise e, w') ->
     orders w' = orders w).
Proof.
  split; [| split; [| split; [| split]]].
  - intros order new_status w Hold Hnew.
    assert (Hne : DocdataOrder.status order <> new_status) by congruence.
    destruct (_set_status_changed order new_status w Hne) as [msg Hmsg].
    exists msg. rewrite Hmsg. unfold assigned_status.
    by rewrite !bool_decide_eq_false_2 by done.
  - apply _set_status_same.
  - intros cfg doc seen now order report indented_status w order' w' Hold Hrun.
    apply _store_report_Return in Hrun as (ns & evs & -> & Ho & Hs & Hevs).
    split; [by apply order_after_recognized |].
    split; [rewrite Ho; apply lookup_insert_eq |].
    exists evs. by split.
  - intros cfg doc seen now order report indented_status w order' w' Hi Hrun.
    eapply _store_report_recognized; [| exact Hrun].
    intros s Hs. right. destruct Hi as [-> | ->]; [done |].
    injection Hs as <-. compute_done.
  - intros. by eapply _store_report_Raise.
Qed.

(** C9, at an order in status NEW that is assigned a status outside the
    vocabulary, and at a pass that computes NEW again. *)
Lemma status_assignment_spec_witness :
  (exists msg,
     _set_status (order_of "new" 0) "closed" empty_world
     = (Return (true, DocdataOrder.set_status DocdataOrder.STATUS_UNKNOWN
                        (order_of "new" 0)),
        add_log [{| log_level := WARNING; log_message := msg |}] empty_world)) /\
  match _store_report ∅ [] [] 0 (order_of "new" 0)
          {| approximateTotals := totals_of 1000 0 0 0; payment := None |}
          None empty_world with
  | (Return order', w') =>
    DocdataOrder.status order' ∈ DocdataOrder.STATUS_CHOICES /\
    orders w' !! "K" = Some order'
  | (Raise _, _) => False
  end.
Proof.
  destruct status_assignment_spec as (Hcoerce & _ & Hpass & _ & _).
  split.
  - apply Hcoerce; [compute_done | compute_done].
  - destruct (_store_report ∅ [] [] 0 (order_of "new" 0)
                {| approximateTotals := totals_of 1000 0 0 0; payment := None |}
                None empty_world) as [[order'|e] w'] eqn:Hrun.
    + assert (Hin : DocdataOrder.status (order_of "new" 0)
                      ∈ DocdataOrder.STATUS_CHOICES) by compute_done.
      destruct (Hpass _ _ _ _ _ _ _ _ _ _ Hin Hrun) as (Hrec & Hrow & _).
      by split.
    + vm_compute in Hrun. discriminate.
Defined.

(** * Further properties of the core *)

Lemma payment_sum_loop_run payment class_name success_status tags :
  forall amount w,
  exists l,
    payment_sum_loop payment class_name success_status tags amount w
    = (Return (amount + items_total success_status (Some tags)), add_log l w) /\
    Forall (fun r => log_level r = DEBUG) l /\
    length l = length (filter (fun tag => item_status tag <> success_status) tags).
Proof.
  induction tags as [|tag rest IH]; intros amount w; simpl.
  - exists []. rewrite add_log_nil. replace (amount + 0) with amount by lia. done.
  - destruct (bool_decide_reflect (item_status tag = success_status)) as [Hs|Hs].
    + destruct (IH (amount + _to_decimal (item_amount tag)) w) as (l & Hl & Hd & Hn).
      exists l. rewrite Hl. split; [f_equal; f_equal; simpl; lia |]. split; [done |].
      rewrite filter_cons_False by (intros H; by apply H). done.
    + destruct (format_from_total
                  "{0} of {1} is marked as {2}, not adding to totals" None
                  [class_name; str (id payment); item_status tag] eq_refl)
        as [msg Hmsg].
      destruct (IH amount
                  (add_log [{| log_level := DEBUG; log_message := msg |}] w))
        as (l & Hl & Hd & Hn).
      exists ({| log_level := DEBUG; log_message := msg |} :: l).
      split; [| split].
      * unfold mbind, M_bind, bind, format, lift. rewrite Hmsg. simpl.
        fold (add_log [{| log_level := DEBUG; log_message := msg |}] w).
        rewrite Hl. by rewrite add_log_app.
      * by constructor.
      * rewrite filter_cons_True by done. simpl. by rewrite Hn.
Qed.

(** X1.  [_get_payment_sum] adds up the amounts of exactly those elements of
    the tag whose status is the success status, and gives 0 when the
    authorization has no such tag.  It never raises and touches nothing but
    the log, where it leaves one DEBUG record per element it skipped. *)
Theorem payment_sum_adds_successful_elements
    (payment : Payment) (xml_tag : Authorization -> option (list Item))
    (class_name success_status : string) (w : World) :
  let tags := default [] (xml_tag (authorization payment)) in
  exists l,
    _get_payment_sum payment xml_tag class_name success_status w
    = (Return
         (foldr Z.add 0
            (map (fun tag => value (item_amount tag))
               (filter (fun tag => item_status tag = success_status) tags))),
       add_log l w) /\
    Forall (fun r => log_level r = DEBUG) l /\
    length l = length (filter (fun tag => item_status tag <> success_status) tags).
Proof.
  intros tags. subst tags. unfold _get_payment_sum.
  destruct (xml_tag (authorization payment)) as [tags|]; simpl.
  - destruct (payment_sum_loop_run payment class_name success_status tags 0 w)
      as (l & Hl & Hd & Hn).
    exists l. rewrite Hl. split; [| done]. f_equal. f_equal.
    rewrite Z.add_0_l. unfold items_total.
    clear. induction tags as [|tag rest IH]; simpl; [done |].
    case_bool_decide.
    + rewrite filter_cons_True by done. simpl. by rewrite <- IH.
    + by rewrite filter_cons_False by done.
  - exists []. by rewrite add_log_nil.
Qed.

(** X2.  On a report that has payment entries, the sub-decision on an
    AUTHORIZED line never raises and touches nothing but the log; it gives
    no status or one of PAID, CHARGED_BACK, REFUNDED, PAID_REFUNDED and
    UNKNOWN; and what it gives is the same for every line of the report and
    from every world: it depends on the totals and the currencies only. *)
Theorem sub_decision_range
    (cfg : gmap string Z) (order : DocdataOrder.t) (totals : Totals)
    (entries : list Payment) (p p' : Payment) (w w' : World) :
  let report := {| approximateTotals := totals; payment := Some entries |} in
  exists r l,
    _process_authorized_payment cfg order report p w = (Return r, add_log l w) /\
    match r with
    | None => True
    | Some s =>
      s ∈ [DocdataOrder.STATUS_PAID; DocdataOrder.STATUS_CHARGED_BACK;
           DocdataOrder.STATUS_REFUNDED; DocdataOrder.STATUS_PAID_REFUNDED;
           DocdataOrder.STATUS_UNKNOWN]
    end /\
    fst (_process_authorized_payment cfg order report p' w') = Return r.
Proof.
  intros report.
  destruct (quiet_run _ _ w
              (_process_authorized_payment_quiet cfg order totals entries p))
    as [l Hl].
  eexists _, l. split; [exact Hl |]. split.
  - destruct (decision_value totals _) as [s|] eqn:Hr; [| done].
    exact (decision_value_decided _ _ _ Hr).
  - apply quiet_fst, _process_authorized_payment_quiet.
Qed.

Lemma foldl_candidate_Some cfg cur totals entries l s : forall new_status,
  decision_value totals (margin_value cfg cur totals entries) = Some s ->
  foldl (candidate cfg cur totals entries) new_status l
  = if existsb (fun p => bool_decide (auth_status (authorization p) = "AUTHORIZED")) l
    then Some s else new_status.
Proof.
  intros new_status Hd. revert new_status.
  induction l as [|p l IH]; intros new_status; simpl; [done |].
  rewrite IH. unfold candidate. rewrite Hd.
  destruct (bool_decide (auth_status (authorization p) = "AUTHORIZED")); simpl;
    [| done].
  by destruct (existsb _ l).
Qed.

Lemma foldl_candidate_None cfg cur totals entries l : forall new_status,
  decision_value totals (margin_value cfg cur totals entries) = None
  \/ existsb (fun p => bool_decide (auth_status (authorization p) = "AUTHORIZED")) l
     = false ->
  foldl (candidate cfg cur totals entries) new_status l = new_status.
Proof.
  intros new_status Hd. revert new_status.
  induction l as [|p l IH]; intros new_status; simpl; [done |].
  rewrite IH.
  - unfold candidate. destruct Hd as [-> | Hd]; [by case_bool_decide |].
    simpl in Hd. apply orb_false_iff in Hd as [-> _]. done.
  - destruct Hd as [Hd | Hd]; [by left |]. right.
    simpl in Hd. by apply orb_false_iff in Hd as [_ ->].
Qed.

Lemma existsb_sort_by {A} (key : A -> Z) (f : A -> bool) l :
  existsb f (sort_by key l) = existsb f l.
Proof. apply existsb_Permutation, sort_by_perm. Qed.

Lemma last_sort_by_max {A} (key : A -> Z) l p :
  last (sort_by key l) = Some p ->
  p ∈ l /\ forall q, q ∈ l -> key q <= key p.
Proof.
  intros Hlast.
  assert (Hs : Sorted (fun a b => key a <= key b) (sort_by key l))
    by apply sort_by_sorted.
  apply Sorted_StronglySorted in Hs; [| intros a b c; lia].
  assert (Hin : forall q, q ∈ sort_by key l -> key q <= key p).
  { revert Hlast Hs. generalize (sort_by key l). intros s.
    induction s as [|a s IH]; intros Hlast Hss q Hq; [by apply elem_of_nil in Hq |].
    apply StronglySorted_inv in Hss as [Hss Ha].
    destruct s as [|b s].
    - simpl in Hlast. injection Hlast as <-.
      apply list_elem_of_singleton in Hq as ->. lia.
    - assert (Hl : last (b :: s) = Some p) by exact Hlast.
      apply elem_of_cons in Hq as [-> | Hq].
      + assert (Hp : p ∈ b :: s).
        { clear -Hl. revert Hl. generalize (b :: s). intros t.
          induction t as [|c t IHt]; [done |]. destruct t as [|d t].
          - intros [= <-]. left.
          - intros H. right. by apply IHt. }
        rewrite Forall_forall in Ha. by apply Ha.
      + by apply IH. }
  split.
  - apply (elem_of_sort_by key). clear -Hlast. revert Hlast.
    generalize (sort_by key l). intros t.
    induction t as [|c t IHt]; [done |]. destruct t as [|d t].
    + intros [= <-]. left.
    + intros H. right. by apply IHt.
  - intros q Hq. apply Hin. by apply elem_of_sort_by.
Qed.

Lemma existsb_authorized_true (entries : list Payment) :
  (exists p, p ∈ entries /\ auth_status (authorization p) = "AUTHORIZED") ->
  existsb (fun p => bool_decide (auth_status (authorization p) = "AUTHORIZED")) entries
  = true.
Proof.
  intros (p & Hp & Ha). apply existsb_exists. exists p.
  split; [by apply list_elem_of_In | by apply bool_decide_eq_true].
Qed.

Lemma existsb_authorized_false (entries : list Payment) :
  (forall p, p ∈ entries -> auth_status (authorization p) <> "AUTHORIZED") ->
  existsb (fun p => bool_decide (auth_status (authorization p) = "AUTHORIZED")) entries
  = false.
Proof.
  intros Hall. apply not_true_is_false. intros H.
  apply existsb_exists in H as (p & Hp & Ha).
  apply bool_decide_eq_true in Ha. apply (Hall p); [by apply list_elem_of_In | done].
Qed.

(** X4.  When a report has an AUTHORIZED line and the sub-decision gives a
    status, a pass that returns leaves the order in exactly that status,
    whatever the other lines say, wherever the AUTHORIZED line stands, and
    whatever status the order had (CANCELLED and EXPIRED included). *)
Theorem authorized_decision_is_final
    (cfg : gmap string Z) (doc seen : list string) (now : Z)
    (order : DocdataOrder.t) (totals : Totals) (entries : list Payment)
    (indented_status : option string) (w : World)
    (order' : DocdataOrder.t) (w' : World)
    (p0 : Payment) (w0 : World) (d : string) :
  let report := {| approximateTotals := totals; payment := Some entries |} in
  _store_report cfg doc seen now order report indented_status w = (Return order', w') ->
  (exists p, p ∈ entries /\ auth_status (authorization p) = "AUTHORIZED") ->
  fst (_process_authorized_payment cfg order report p0 w0) = Return (Some d) ->
  DocdataOrder.status order' = d.
Proof.
  intros report Hrun Hauth Hd.
  unfold report in Hd.
  rewrite (quiet_fst _ _ w0
             (_process_authorized_payment_quiet cfg order totals entries p0)) in Hd.
  injection Hd as Hd.
  apply _store_report_payments_Return in Hrun as (ns & Hv & -> & _).
  rewrite (foldl_candidate_Some _ _ _ _ _ d _ Hd) in Hv.
  rewrite existsb_sort_by, (existsb_authorized_true _ Hauth) in Hv.
  simpl in Hv. injection Hv as <-.
  apply order_after_status, decided_recognized.
  by eapply decision_value_decided.
Qed.

(** X5.  When no line of the report is AUTHORIZED, or the sub-decision gives
    no status, a pass that returns takes the status from a line with the
    highest payment id: the status its authorization status maps to, UNKNOWN
    when the mapping has no entry for it; but an order that is EXPIRED or
    CANCELLED keeps its status where the mapping says NEW or IN_PROGRESS. *)
Theorem fallback_on_highest_id
    (cfg : gmap string Z) (doc seen : list string) (now : Z)
    (order : DocdataOrder.t) (totals : Totals) (entries : list Payment)
    (indented_status : option string) (w : World)
    (order' : DocdataOrder.t) (w' : World) (p0 : Payment) (w0 : World) :
  let report := {| approximateTotals := totals; payment := Some entries |} in
  _store_report cfg doc seen now order report indented_status w = (Return order', w') ->
  (forall p, p ∈ entries -> auth_status (authorization p) <> "AUTHORIZED")
  \/ fst (_process_authorized_payment cfg order report p0 w0) = Return None ->
  exists p,
    p ∈ entries /\ (forall q, q ∈ entries -> id q <= id p) /\
    let mapped :=
      default DocdataOrder.STATUS_UNKNOWN
        (status_mapping !! auth_status (authorization p)) in
    DocdataOrder.status order'
    = if bool_decide (DocdataOrder.status order ∈
                        [DocdataOrder.STATUS_EXPIRED; DocdataOrder.STATUS_CANCELLED])
         && bool_decide (mapped ∈
                        [DocdataOrder.STATUS_NEW; DocdataOrder.STATUS_IN_PROGRESS])
      then DocdataOrder.status order
      else mapped.
Proof.
  intros report Hrun Hnone.
  apply _store_report_payments_Return in Hrun as (ns & Hv & -> & _).
  rewrite foldl_candidate_None in Hv.
  2: { destruct Hnone as [Hall | Hd]; [right | left].
       - rewrite existsb_sort_by. by apply existsb_authorized_false.
       - unfold report in Hd.
         rewrite (quiet_fst _ _ w0
                    (_process_authorized_payment_quiet cfg order totals entries p0))
           in Hd.
         by injection Hd. }
  unfold lines_value in Hv.
  destruct (last (sort_by id entries)) as [p|] eqn:Hlast; [| done].
  simpl in Hv. injection Hv as <-.
  apply last_sort_by_max in Hlast as [Hin Hmax].
  exists p. split; [done |]. split; [done |]. intros mapped.
  unfold fallback_value. cbn [DocdataOrder.status DocdataOrder.set_totals].
  fold mapped.
  destruct (_ && _) eqn:Hguard.
  - change (DocdataOrder.status order)
      with (DocdataOrder.status (DocdataOrder.set_totals totals order)) at 1.
    by rewrite order_after_same.
  - apply order_after_status, status_mapping_recognized.
Qed.

Lemma line_value_fields order p found :
  let row := (line_value order p found).1.1 in
  DocdataPayment.payment_method row = paymentMethod p /\
  DocdataPayment.status row = auth_status (authorization p) /\
  DocdataPayment.confidence_level row = confidenceLevel (authorization p) /\
  DocdataPayment.amount_allocated row = allocated p /\
  DocdataPayment.amount_debited row
  = items_total "CAPTURED" (capture (authorization p)) /\
  DocdataPayment.amount_refunded row
  = items_total "CAPTURED" (refund (authorization p)) /\
  DocdataPayment.amount_chargeback row
  = items_total "CHARGED" (chargeback (authorization p)) /\
  DocdataPayment.docdata_order row
  = match found with
    | Some r => DocdataPayment.docdata_order r
    | None => DocdataOrder.order_key order
    end.
Proof.
  unfold line_value. destruct found as [r|]; simpl.
  all: repeat (case_bool_decide; simpl in * ); simplify_eq;
    repeat split; try done.
  all: by repeat match goal with
              | H : ~ (_ <> _) |- _ => apply dec_stable in H
              end.
Qed.

Lemma line_value_updated order p r :
  (line_value order p (Some r)).2 = true ->
  (line_value order p (Some r)).1.1 <> r.
Proof.
  intros Hupd Heq.
  pose proof (line_value_fields order p (Some r)) as (Hm & Hs & Hc & Ha & Hd & Hr & Hb & _).
  rewrite Heq in Hm, Hs, Hc, Ha, Hd, Hr, Hb. clear Heq.
  unfold line_value in Hupd. simpl in Hupd.
  rewrite (bool_decide_eq_true_2 (paymentMethod p = _)) in Hupd by done.
  simpl in Hupd.
  rewrite (bool_decide_eq_false_2 (DocdataPayment.status r <> _)) in Hupd
    by (intros H; by apply H).
  rewrite bool_decide_eq_false_2 in Hupd; [done |].
  intros H. apply H. by rewrite Hc, Ha, Hd, Hr, Hb.
Qed.

(** X6.  Each line of a pass that returns fires at most one signal and
    issues at most one write: a line whose payment id is not in the table is
    inserted and announced by [payment_added]; a line that is in the table
    and differs from the report is updated and announced by
    [payment_updated]; a line that is in the table and up to date is not
    written and not announced. *)
Theorem line_signal_discipline
    (cfg : gmap string Z) (doc seen : list string)
    (order : DocdataOrder.t) (totals : Totals) (entries : list Payment)
    (new_status new_status' : option string) (p src : Payment)
    (row : DocdataPayment.t) (w w' : World) :
  store_report_line cfg doc seen order
    {| approximateTotals := totals; payment := Some entries |} new_status p w
  = (Return (new_status', (row, src)), w') ->
  match payments w !! id p with
  | None =>
    signals w' = (signals w ++ [payment_added order row])%list /\
    writes w' = (writes w ++ [InsertPayment (id p)])%list
  | Some r =>
    (row = r ->
     signals w' = signals w /\ writes w' = writes w /\ payments w' = payments w) /\
    (row <> r ->
     signals w' = (signals w ++ [payment_updated order row])%list /\
     writes w' = (writes w ++ [UpdatePayment (DocdataPayment.payment_id r)])%list)
  end.
Proof.
  intros Hrun.
  apply store_report_line_Return in Hrun as (_ & Hdd & _ & Hpay & Hsig & Hwr).
  injection Hdd as -> ->.
  pose proof (line_value_added order p (payments w !! id p)) as Hadded.
  pose proof (line_value_payment_id order p (payments w !! id p)) as Hid.
  destruct (payments w !! id p) as [r|] eqn:Hfound.
  - rewrite bool_decide_eq_false_2 in Hadded by done.
    unfold line_signal, line_write in *. rewrite Hadded in *. simpl in *.
    destruct (line_value order p (Some r)).2 eqn:Hupd.
    + split; [intros Heq; by apply line_value_updated in Hupd |].
      intros _. by rewrite Hid in Hwr.
    + split; [intros _; by rewrite !app_nil_r in * |].
      intros Hne. by apply line_value_unchanged in Hupd.
  - rewrite bool_decide_eq_true_2 in Hadded by done.
    unfold line_signal, line_write in *. rewrite Hadded in *. simpl in *.
    by rewrite Hid in Hwr.
Qed.

(** X4, at a CANCELLED order whose report is fully captured: the pass
    leaves it PAID. *)
Lemma authorized_decision_is_final_witness :
  match _store_report ∅ [] [] 0 (order_of "cancelled" 0) paid_report None empty_world with
  | (Return order', _) => DocdataOrder.status order' = "paid"
  | (Raise _, _) => False
  end.
Proof.
  destruct (_store_report ∅ [] [] 0 (order_of "cancelled" 0) paid_report None empty_world)
    as [[order'|e] w'] eqn:Hrun.
  - apply (authorized_decision_is_final ∅ [] [] 0 (order_of "cancelled" 0)
             (totals_of 1000 1000 0 0) [line_of 1 "VISA" "AUTHORIZED" "EUR"] None
             empty_world order' w' (line_of 1 "VISA" "AUTHORIZED" "EUR") empty_world
             "paid" Hrun).
    + exists (line_of 1 "VISA" "AUTHORIZED" "EUR"). split; [left | reflexivity].
    + vm_compute. reflexivity.
  - vm_compute in Hrun. discriminate.
Defined.

(** X5, at an EXPIRED order whose two lines are NEW and STARTED: the order
    stays EXPIRED. *)
Lemma fallback_on_highest_id_witness :
  match _store_report ∅ [] [] 0 (order_of "expired" 0)
          {| approximateTotals := totals_of 1000 0 0 0;
             payment := Some [line_of 2 "VISA" "STARTED" "EUR";
                              line_of 1 "VISA" "NEW" "EUR"] |} None empty_world with
  | (Return order', _) =>
    exists p,
      p ∈ [line_of 2 "VISA" "STARTED" "EUR"; line_of 1 "VISA" "NEW" "EUR"] /\
      (forall q, q ∈ [line_of 2 "VISA" "STARTED" "EUR"; line_of 1 "VISA" "NEW" "EUR"] ->
         id q <= id p) /\
      let mapped :=
        default DocdataOrder.STATUS_UNKNOWN
          (status_mapping !! auth_status (authorization p)) in
      DocdataOrder.status order'
      = if bool_decide (DocdataOrder.status (order_of "expired" 0) ∈
                          [DocdataOrder.STATUS_EXPIRED; DocdataOrder.STATUS_CANCELLED])
           && bool_decide (mapped ∈
                          [DocdataOrder.STATUS_NEW; DocdataOrder.STATUS_IN_PROGRESS])
        then DocdataOrder.status (order_of "expired" 0)
        else mapped
  | (Raise _, _) => False
  end.
Proof.
  destruct (_store_report ∅ [] [] 0 (order_of "expired" 0)
              {| approximateTotals := totals_of 1000 0 0 0;
                 payment := Some [line_of 2 "VISA" "STARTED" "EUR";
                                  line_of 1 "VISA" "NEW" "EUR"] |} None empty_world)
    as [[order'|e] w'] eqn:Hrun.
  - apply (fallback_on_highest_id ∅ [] [] 0 (order_of "expired" 0)
             (totals_of 1000 0 0 0)
             [line_of 2 "VISA" "STARTED" "EUR"; line_of 1 "VISA" "NEW" "EUR"] None
             empty_world order' w' (line_of 1 "VISA" "NEW" "EUR") empty_world Hrun).
    left. intros p Hp.
    apply elem_of_cons in Hp as [-> | Hp]; [discriminate |].
    apply list_elem_of_singleton in Hp as ->. discriminate.
  - vm_compute in Hrun. discriminate.
Defined.

(** X6, at a line whose payment id is not in the table: it is inserted and
    announced by [payment_added]. *)
Lemma line_signal_discipline_witness :
  match store_report_line ∅ [] [] (order_of "new" 0) paid_report None
          (line_of 1 "VISA" "AUTHORIZED" "EUR") empty_world with
  | (Return (_, (row, _)), w') =>
    signals w' = [payment_added (order_of "new" 0) row] /\
    writes w' = [InsertPayment 1]
  | (Raise _, _) => False
  end.
Proof.
  destruct (store_report_line ∅ [] [] (order_of "new" 0) paid_report None
              (line_of 1 "VISA" "AUTHORIZED" "EUR") empty_world)
    as [[[ns' [row src]]|e] w'] eqn:Hrun.
  - exact (line_signal_discipline ∅ [] [] (order_of "new" 0)
             (totals_of 1000 1000 0 0) [line_of 1 "VISA" "AUTHORIZED" "EUR"]
             None ns' (line_of 1 "VISA" "AUTHORIZED" "EUR") src row empty_world w'
             Hrun).
  - vm_compute in Hrun. discriminate.
Defined.

(** X7.  The update flow and the cancel flow never take a CANCELLED order to
    NEW or IN_PROGRESS, and they take an EXPIRED order there in one
    situation only: a report without payment entries, whose six totals are
    all zero, for an order not older than 21 days, in the update flow. *)
Theorem terminal_status_not_reopened
    (cfg : gmap string Z) (doc seen : list string) (now : Z)
    (order : DocdataOrder.t) (report : Report)
    (indented_status : option string) (w : World)
    (order' : DocdataOrder.t) (w' : World) :
  DocdataOrder.status order
    ∈ [DocdataOrder.STATUS_CANCELLED; DocdataOrder.STATUS_EXPIRED] ->
  indented_status = None \/ indented_status = Some DocdataOrder.STATUS_CANCELLED ->
  _store_report cfg doc seen now order report indented_status w = (Return order', w') ->
  DocdataOrder.status order = DocdataOrder.STATUS_CANCELLED
  \/ is_Some (payment report)
  \/ ~ (totalShopperPending (approximateTotals report) = 0 /\
        totalAcquirerPending (approximateTotals report) = 0 /\
        totalAcquirerApproved (approximateTotals report) = 0 /\
        totalCaptured (approximateTotals report) = 0 /\
        totalRefunded (approximateTotals report) = 0 /\
        totalChargedback (approximateTotals report) = 0)
  \/ DocdataOrder.created order < now - timedelta_days 21
  \/ indented_status = Some DocdataOrder.STATUS_CANCELLED ->
  DocdataOrder.status order'
    ∉ [DocdataOrder.STATUS_NEW; DocdataOrder.STATUS_IN_PROGRESS].
Proof.
  intros Hold Hint Hrun Hcase Hnew.
  destruct (non_regression_guarded _ _ _ _ _ _ _ _ _ _ Hold Hint Hrun Hnew)
    as (Hp & Hz & He & Hyoung & Hi).
  destruct Hcase as [Hc | [Hs | [Hnz | [Hage | Hc]]]].
  - rewrite He in Hc. discriminate.
  - rewrite Hp in Hs. by destruct Hs.
  - apply Hnz. by apply all_zero_spec.
  - done.
  - rewrite Hi in Hc. discriminate.
Qed.

(** X7, at a CANCELLED order that is updated from a report without payment
    entries. *)
Lemma terminal_status_not_reopened_witness :
  match _store_report ∅ [] [] 0 (order_of "cancelled" 0)
          {| approximateTotals := totals_of 1000 0 0 0; payment := None |}
          None empty_world with
  | (Return order', _) =>
    DocdataOrder.status order'
      ∉ [DocdataOrder.STATUS_NEW; DocdataOrder.STATUS_IN_PROGRESS]
  | (Raise _, _) => False
  end.
Proof.
  destruct (_store_report ∅ [] [] 0 (order_of "cancelled" 0)
              {| approximateTotals := totals_of 1000 0 0 0; payment := None |}
              None empty_world) as [[order'|e] w'] eqn:Hrun.
  - apply (terminal_status_not_reopened ∅ [] [] 0 (order_of "cancelled" 0)
             {| approximateTotals := totals_of 1000 0 0 0; payment := None |}
             None empty_world order' w').
    + compute_done.
    + by left.
    + exact Hrun.
    + by left.
  - vm_compute in Hrun. discriminate.
Defined.

Lemma status_without_payments_nonzero now order totals indented_status w :
  all_zero totals = false ->
  exists msg,
    status_without_payments now order totals indented_status w
    = (Return (heuristic_value now order totals indented_status),
       add_log [{| log_level := ERROR; log_message := msg |}] w).
Proof.
  intros Hz. unfold status_without_payments, heuristic_value.
  fold (all_zero totals). rewrite Hz. eexists.
  unfold mbind, M_bind, bind, logger, add_log. simpl.
  destruct (bool_decide (DocdataOrder.status order ∈ _)); reflexivity.
Qed.

(** X8.  A pass over a report without payment entries whose six totals are
    not all zero returns, logs an error, saves the order and leaves the
    payment table alone.  An order that is EXPIRED or CANCELLED keeps its
    status and no signal is sent; any other order takes the intended status
    when one is requested, and becomes NEW otherwise. *)
Theorem nonzero_totals_heuristics
    (cfg : gmap string Z) (doc seen : list string) (now : Z)
    (order : DocdataOrder.t) (totals : Totals)
    (indented_status : option string) (w : World) :
  ~ (totalShopperPending totals = 0 /\ totalAcquirerPending totals = 0 /\
     totalAcquirerApproved totals = 0 /\ totalCaptured totals = 0 /\
     totalRefunded totals = 0 /\ totalChargedback totals = 0) ->
  let out :=
    _store_report cfg doc seen now order
      {| approximateTotals := totals; payment := None |} indented_status w in
  let terminal :=
    DocdataOrder.status order
      ∈ [DocdataOrder.STATUS_EXPIRED; DocdataOrder.STATUS_CANCELLED] in
  exists order',
    fst out = Return order' /\
    orders (snd out) !! DocdataOrder.order_key order = Some order' /\
    payments (snd out) = payments w /\
    (exists r l, log (snd out) = (log w ++ r :: l)%list /\ log_level r = ERROR) /\
    (terminal ->
       DocdataOrder.status order' = DocdataOrder.status order /\
       signals (snd out) = signals w) /\
    (~ terminal -> indented_status = None ->
       DocdataOrder.status order' = DocdataOrder.STATUS_NEW) /\
    (forall s, ~ terminal -> indented_status = Some s -> s <> "" ->
       s ∈ DocdataOrder.STATUS_CHOICES -> DocdataOrder.status order' = s).
Proof.
  intros Hnz out terminal. subst out.
  assert (Hz : all_zero totals = false).
  { apply not_true_is_false. intros Hz. by apply Hnz, all_zero_spec. }
  set (order_t := DocdataOrder.set_totals totals order).
  destruct (status_without_payments_nonzero now order_t totals indented_status w Hz)
    as [msg Hmsg].
  set (ns := heuristic_value now order_t totals indented_status) in *.
  destruct (store_status_run order_t ns
              (add_log [{| log_level := ERROR; log_message := msg |}] w))
    as [l Hl].
  assert (Hrun :
    _store_report cfg doc seen now order
      {| approximateTotals := totals; payment := None |} indented_status w
    = (Return (order_after order_t ns),
       {| orders := <[DocdataOrder.order_key order := order_after order_t ns]> (orders w);
          payments := payments w;
          concurrent := concurrent w;
          writes := writes w ++ [SaveOrder (DocdataOrder.order_key order)];
          signals := signals w ++ status_signal (DocdataOrder.status order)
                                    (order_after order_t ns);
          log := (log w ++ [{| log_level := ERROR; log_message := msg |}]) ++ l |})).
  { unfold _store_report. cbn [payment approximateTotals]. fold order_t.
    rewrite (bind_run _ _ _ _ _ Hmsg). exact Hl. }
  rewrite Hrun. clear Hrun Hl Hmsg. simpl.
  exists (order_after order_t ns).
  split; [done |]. split; [apply lookup_insert_eq |]. split; [done |].
  split; [exists {| log_level := ERROR; log_message := msg |}, l;
          by rewrite <- app_assoc |].
  assert (Hns : ns = if bool_decide terminal then DocdataOrder.status order
                     else py_or indented_status DocdataOrder.STATUS_NEW).
  { unfold ns, heuristic_value. by rewrite Hz. }
  split; [| split].
  - intros Ht. rewrite bool_decide_eq_true_2 in Hns by done. rewrite Hns.
    assert (Heq : order_after order_t (DocdataOrder.status order) = order_t)
      by apply (order_after_same order_t).
    rewrite !Heq. split; [done |].
    unfold status_signal. rewrite bool_decide_eq_true_2 by done.
    by rewrite app_nil_r.
  - intros Ht ->. rewrite bool_decide_eq_false_2 in Hns by done. rewrite Hns.
    simpl. apply order_after_status. compute_done.
  - intros s Ht -> Hs Hin. rewrite bool_decide_eq_false_2 in Hns by done.
    rewrite Hns. simpl. rewrite bool_decide_eq_false_2 by done.
    by apply order_after_status.
Qed.

(** X8, at an EXPIRED order whose report has a captured amount and no
    payment entry: it stays EXPIRED. *)
Lemma nonzero_totals_heuristics_witness :
  exists order',
    fst (_store_report ∅ [] [] 0 (order_of "expired" 0)
           {| approximateTotals := totals_of 1000 500 0 0; payment := None |}
           None empty_world)
    = Return order' /\
    DocdataOrder.status order' = "expired".
Proof.
  destruct (nonzero_totals_heuristics ∅ [] [] 0 (order_of "expired" 0)
              (totals_of 1000 500 0 0) None empty_world)
    as (order' & Hrun & _ & _ & _ & Hkeep & _).
  - intros (_ & _ & _ & Hc & _). discriminate.
  - exists order'. split; [exact Hrun |]. apply Hkeep. compute_done.
Defined.

Lemma _store_report_payments_other
    cfg doc seen now order totals entries indented_status w order1 w1 :
  _store_report cfg doc seen now order
    {| approximateTotals := totals; payment := Some entries |} indented_status w
  = (Return order1, w1) ->
  store_wf (payments w) ->
  NoDup (map id entries) ->
  forall k, k ∉ map id entries -> payments w1 !! k = payments w !! k.
Proof.
  intros Hrun Hwf Hnd k Hk.
  unfold _store_report in Hrun. cbn [payment approximateTotals] in Hrun.
  set (order_t := DocdataOrder.set_totals totals order) in *.
  apply bind_Return_inv in Hrun as (ns & wa & Hlines & Hstore).
  apply bind_Return_inv in Hlines as ([ns' objs] & wa' & Hlines & Hret).
  injection Hret as -> ->.
  destruct (store_status_run order_t ns wa) as [l Hl].
  rewrite Hl in Hstore. injection Hstore as _ <-. simpl.
  destruct (_store_report_lines_run cfg doc seen order_t totals entries w)
    as (w0 & Hw0 & Heq).
  rewrite Heq in Hlines. clear Heq.
  apply bind_Return_inv in Hlines as ([c objs0] & w2 & Hloop & Hend).
  simpl in Hend.
  assert (Hpay : payments wa = payments w2).
  { destruct (lines_value order_t (sort_by id entries) c) as [s|] eqn:Hv;
      [| by rewrite conclude_lines_raise in Hend].
    destruct (quiet_run _ _ w2
                (conclude_lines_quiet order_t totals (sort_by id entries) c objs0 s Hv))
      as [l2 Hl2].
    rewrite Hl2 in Hend. by injection Hend as _ _ <-. }
  rewrite Hpay.
  assert (Hm : Permutation (map id (sort_by id entries)) (map id entries))
    by apply Permutation_map, sort_by_perm.
  destruct (store_report_loop_rows _ _ _ _ _ _ _ _ _ _ _ _ _ Hloop)
    as (_ & _ & Hother).
  - by rewrite (logs_only_payments _ _ Hw0).
  - by rewrite Hm.
  - rewrite Hother by by rewrite Hm.
    by rewrite (logs_only_payments _ _ Hw0).
Qed.

(** X9.  After a pass that returns, over a report with pairwise distinct
    payment ids and a payment table filed by payment id, every entry of the
    report has its row in the payment table, and the row carries the entry's
    values: its payment method, authorization status and confidence level,
    the authorized amount as allocated amount when the status is AUTHORIZED
    and 0 otherwise, and the sums of its captures, refunds and chargebacks.
    A row that was there keeps the order it belongs to; a new row belongs to
    the order of the pass.  Rows of payment ids that are not in the report
    are untouched. *)
Theorem stored_lines_mirror_report
    (cfg : gmap string Z) (doc seen : list string) (now : Z)
    (order : DocdataOrder.t) (totals : Totals) (entries : list Payment)
    (indented_status : option string) (w : World)
    (order' : DocdataOrder.t) (w' : World) :
  _store_report cfg doc seen now order
    {| approximateTotals := totals; payment := Some entries |} indented_status w
  = (Return order', w') ->
  store_wf (payments w) ->
  NoDup (map id entries) ->
  (forall p, p ∈ entries ->
     exists row,
       payments w' !! id p = Some row /\
       DocdataPayment.payment_id row = id p /\
       DocdataPayment.payment_method row = paymentMethod p /\
       DocdataPayment.status row = auth_status (authorization p) /\
       DocdataPayment.confidence_level row = confidenceLevel (authorization p) /\
       DocdataPayment.amount_allocated row
       = (if bool_decide (auth_status (authorization p) = "AUTHORIZED")
          then value (auth_amount (authorization p)) else 0) /\
       (forall w0,
          fst (_get_payment_sum p capture "Capture" "CAPTURED" w0)
          = Return (DocdataPayment.amount_debited row)) /\
       (forall w0,
          fst (_get_payment_sum p refund "Refund" "CAPTURED" w0)
          = Return (DocdataPayment.amount_refunded row)) /\
       (forall w0,
          fst (_get_payment_sum p chargeback "Chargeback" "CHARGED" w0)
          = Return (DocdataPayment.amount_chargeback row)) /\
       DocdataPayment.docdata_order row
       = match payments w !! id p with
         | Some r => DocdataPayment.docdata_order r
         | None => DocdataOrder.order_key order
         end) /\
  (forall k, k ∉ map id entries -> payments w' !! k = payments w !! k).
Proof.
  intros Hrun Hwf Hnd.
  split; [| by eapply _store_report_payments_other].
  intros p Hp.
  apply _store_report_payments_Return in Hrun as (ns & _ & _ & _ & _ & Hrows).
  destruct (Hrows Hwf Hnd) as [Hwf' Hrow].
  set (order_t := DocdataOrder.set_totals totals order) in *.
  exists (line_value order_t p (payments w !! id p)).1.1.
  pose proof (line_value_fields order_t p (payments w !! id p))
    as (Hm & Hs & Hc & Ha & Hd & Hr & Hb & Ho).
  split; [by apply Hrow |].
  split; [apply Hwf'; by apply Hrow |].
  split; [done |]. split; [done |]. split; [done |]. split; [done |].
  split; [intros w0; rewrite Hd; apply quiet_fst, _get_payment_sum_quiet |].
  split; [intros w0; rewrite Hr; apply quiet_fst, _get_payment_sum_quiet |].
  split; [intros w0; rewrite Hb; apply quiet_fst, _get_payment_sum_quiet |].
  done.
Qed.

(** X9, at the paid order: the row of payment 1 is AUTHORIZED with 10.00
    allocated. *)
Lemma stored_lines_mirror_report_witness :
  match _store_report ∅ [] [] 0 (order_of "new" 0) paid_report None empty_world with
  | (Return _, w') =>
    exists row,
      payments w' !! 1 = Some row /\
      DocdataPayment.status row = "AUTHORIZED" /\
      DocdataPayment.amount_allocated row = 1000
  | (Raise _, _) => False
  end.
Proof.
  destruct (_store_report ∅ [] [] 0 (order_of "new" 0) paid_report None empty_world)
    as [[order'|e] w'] eqn:Hrun.
  - destruct (stored_lines_mirror_report ∅ [] [] 0 (order_of "new" 0)
                (totals_of 1000 1000 0 0) [line_of 1 "VISA" "AUTHORIZED" "EUR"]
                None empty_world order' w' Hrun) as [Hrows _].
    + apply store_wf_empty.
    + cbn. apply NoDup_singleton.
    + destruct (Hrows (line_of 1 "VISA" "AUTHORIZED" "EUR"))
        as (row & Hrow & _ & _ & Hs & _ & Ha & _); [left |].
      exists row. split; [exact Hrow |]. split; [exact Hs | exact Ha].
  - vm_compute in Hrun. discriminate.
Defined.

(** X10.  A pass that returns writes one row of the order table, the row of
    its order, and leaves the rows of all other orders alone.  The order it
    returns is the order it was given with the seven totals of the report
    and, possibly, another status: its order key, merchant, merchant order
    id, currency, gross amount and creation time are never changed. *)
Theorem pass_sets_totals_keeps_identity
    (cfg : gmap string Z) (doc seen : list string) (now : Z)
    (order : DocdataOrder.t) (report : Report)
    (indented_status : option string) (w : World)
    (order' : DocdataOrder.t) (w' : World) :
  _store_report cfg doc seen now order report indented_status w = (Return order', w') ->
  let totals := approximateTotals report in
  (DocdataOrder.order_key order' = DocdataOrder.order_key order /\
   DocdataOrder.merchant_name order' = DocdataOrder.merchant_name order /\
   DocdataOrder.merchant_order_id order' = DocdataOrder.merchant_order_id order /\
   DocdataOrder.currency order' = DocdataOrder.currency order /\
   DocdataOrder.total_gross_amount order' = DocdataOrder.total_gross_amount order /\
   DocdataOrder.created order' = DocdataOrder.created order) /\
  (DocdataOrder.total_registered order' = totalRegistered totals /\
   DocdataOrder.total_shopper_pending order' = totalShopperPending totals /\
   DocdataOrder.total_acquirer_pending order' = totalAcquirerPending totals /\
   DocdataOrder.total_acquirer_approved order' = totalAcquirerApproved totals /\
   DocdataOrder.total_captured order' = totalCaptured totals /\
   DocdataOrder.total_refunded order' = totalRefunded totals /\
   DocdataOrder.total_charged_back order' = totalChargedback totals) /\
  orders w' !! DocdataOrder.order_key order = Some order' /\
  (forall k, k <> DocdataOrder.order_key order -> orders w' !! k = orders w !! k).
Proof.
  intros Hrun totals.
  apply _store_report_Return in Hrun as (ns & evs & -> & Ho & _ & _).
  fold totals in Ho |- *.
  split; [| split; [| split]].
  - unfold order_after. by case_bool_decide.
  - unfold order_after. by case_bool_decide.
  - rewrite Ho. apply lookup_insert_eq.
  - intros k Hk. rewrite Ho. by rewrite lookup_insert_ne.
Qed.

(** X10, at the paid order. *)
Lemma pass_sets_totals_keeps_identity_witness :
  match _store_report ∅ [] [] 0 (order_of "new" 0) paid_report None empty_world with
  | (Return order', w') =>
    DocdataOrder.total_gross_amount order' = 1000 /\
    DocdataOrder.total_captured order' = 1000 /\
    orders w' !! "K" = Some order'
  | (Raise _, _) => False
  end.
Proof.
  destruct (_store_report ∅ [] [] 0 (order_of "new" 0) paid_report None empty_world)
    as [[order'|e] w'] eqn:Hrun.
  - destruct (pass_sets_totals_keeps_identity ∅ [] [] 0 (order_of "new" 0)
                paid_report None empty_world order' w' Hrun)
      as ((_ & _ & _ & _ & Hg & _) & (_ & _ & _ & _ & Hc & _) & Hrow & _).
    split; [exact Hg |]. split; [exact Hc | exact Hrow].
  - vm_compute in Hrun. discriminate.
Defined.

(** * The callers *)

(** X11.  [update_order] refuses an order of another merchant: when the
    client the gateway hands out for the order's merchant name carries a
    different merchant name, it raises [InvalidMerchant] naming the order,
    its merchant and the client's merchant; the status is not fetched and
    nothing is stored, sent or written. *)
Theorem update_order_rejects_other_merchant
    (PaymentInfo : Type)
    (DocdataClient_for_merchant : string -> bool -> reply (Client PaymentInfo))
    (cfg : gmap string Z) (doc seen : list string) (now : Z)
    (self : Interface PaymentInfo) (order : DocdataOrder.t)
    (client : Client PaymentInfo) (w : World) :
  DocdataClient_for_merchant (DocdataOrder.merchant_name order)
    (testing_mode PaymentInfo self) = Ok client ->
  client_merchant_name PaymentInfo client <> DocdataOrder.merchant_name order ->
  update_order PaymentInfo DocdataClient_for_merchant cfg doc seen now self order w
  = (Fail (InvalidMerchant
             ("Order " ++ DocdataOrder.merchant_order_id order
              ++ " belongs to a different merchant: "
              ++ DocdataOrder.merchant_name order
              ++ " (client uses: " ++ client_merchant_name PaymentInfo client
              ++ ")")),
     w).
Proof.
  intros Hclient Hne. unfold update_order. rewrite Hclient.
  rewrite bool_decide_eq_true_2 by done. reflexivity.
Qed.

(** X11, at an order of merchant shop and a gateway that answers with the
    client of merchant other. *)
Lemma update_order_rejects_other_merchant_witness :
  let client :=
    {| client_merchant_name := "other";
       client_status := fun _ => Ok paid_report;
       client_cancel := fun _ => Ok tt;
       client_start := fun _ (_ : unit) _ => Ok 1 |} in
  update_order unit (fun _ _ => Ok client) ∅ [] [] 0
    {| testing_mode := true; client := client |} (order_of "new" 0) empty_world
  = (Fail (InvalidMerchant
             "Order 100001 belongs to a different merchant: shop (client uses: other)"),
     empty_world).
Proof.
  intros client.
  apply (update_order_rejects_other_merchant unit (fun _ _ => Ok client) ∅ [] [] 0
           {| testing_mode := true; client := client |} (order_of "new" 0) client
           empty_world).
  - reflexivity.
  - discriminate.
Defined.



Lemma start_payment_store (order : DocdataOrder.t) (pid : Z) w :
  exists l,
    core ('(_, order) ← _set_status order DocdataOrder.STATUS_IN_PROGRESS;
          save_order order;;
          mret pid) w
    = (Ok pid,
       {| orders :=
            <[DocdataOrder.order_key order :=
                order_after order DocdataOrder.STATUS_IN_PROGRESS]> (orders w);
          payments := payments w;
          concurrent := concurrent w;
          writes := writes w ++ [SaveOrder (DocdataOrder.order_key order)];
          signals := signals w;
          log := log w ++ l |}).
Proof.
  unfold core, order_after.
  case_bool_decide as Hs.
  - exists []. rewrite <- Hs at 1.
    rewrite (bind_run _ _ _ _ _ (_set_status_same order w)).
    unfold save_order, mbind, M_bind, bind. simpl. by rewrite app_nil_r.
  - destruct (_set_status_changed order DocdataOrder.STATUS_IN_PROGRESS w Hs)
      as [msg Hmsg].
    rewrite (bind_run _ _ _ _ _ Hmsg). eexists.
    unfold save_order, mbind, M_bind, bind. simpl. reflexivity.
Qed.

(** X13.  [start_payment] either fails before it touches anything, when the
    order key is unknown or belongs to an inactive merchant or the gateway
    refuses, or it returns the payment id the gateway gave and has saved the
    order as IN_PROGRESS, whatever status the order had.  It sends no
    signal, not even when the status changes, and leaves the payment table
    and all other orders alone. *)
Theorem start_payment_spec
    (PaymentInfo : Type)
    (DocdataClient_for_merchant : string -> bool -> reply (Client PaymentInfo))
    (active_merchants : DocdataOrder.t -> bool)
    (self : Interface PaymentInfo) (order : string + DocdataOrder.t)
    (payment : PaymentInfo) (payment_method : option string) (w : World) :
  match start_payment PaymentInfo DocdataClient_for_merchant active_merchants
          self order payment payment_method w with
  | (Ok payment_id, w') =>
    exists o client o',
      match order with
      | inl order_key => orders w !! order_key = Some o /\ active_merchants o = true
      | inr given => o = given
      end /\
      DocdataClient_for_merchant (DocdataOrder.merchant_name o)
        (testing_mode PaymentInfo self) = Ok client /\
      client_start PaymentInfo client (DocdataOrder.order_key o) payment payment_method
      = Ok payment_id /\
      orders w' = <[DocdataOrder.order_key o := o']> (orders w) /\
      DocdataOrder.status o' = DocdataOrder.STATUS_IN_PROGRESS /\
      o' = DocdataOrder.set_status DocdataOrder.STATUS_IN_PROGRESS o /\
      payments w' = payments w /\
      signals w' = signals w /\
      writes w' = (writes w ++ [SaveOrder (DocdataOrder.order_key o)])%list
  | (Fail e, w') => w' = w
  end.
Proof.
  unfold start_payment.
  assert (Hfound : forall o,
    match
      match DocdataClient_for_merchant (DocdataOrder.merchant_name o)
              (testing_mode PaymentInfo self) with
      | Ok client =>
        match client_start PaymentInfo client (DocdataOrder.order_key o) payment
                payment_method with
        | Ok payment_id =>
          core ('(_, order) ← _set_status o DocdataOrder.STATUS_IN_PROGRESS;
                save_order order;;
                mret payment_id) w
        | Fail e => (Fail e, w)
        end
      | Fail e => (Fail e, w)
      end
    with
    | (Ok payment_id, w') =>
      exists client o',
        DocdataClient_for_merchant (DocdataOrder.merchant_name o)
          (testing_mode PaymentInfo self) = Ok client /\
        client_start PaymentInfo client (DocdataOrder.order_key o) payment payment_method
        = Ok payment_id /\
        orders w' = <[DocdataOrder.order_key o := o']> (orders w) /\
        DocdataOrder.status o' = DocdataOrder.STATUS_IN_PROGRESS /\
        o' = DocdataOrder.set_status DocdataOrder.STATUS_IN_PROGRESS o /\
        payments w' = payments w /\
        signals w' = signals w /\
        writes w' = (writes w ++ [SaveOrder (DocdataOrder.order_key o)])%list
    | (Fail e, w') => w' = w
    end).
  { intros o.
    destruct (DocdataClient_for_merchant _ _) as [client|e] eqn:Hc.
    2: { done. }
    destruct (client_start _ client _ _ _) as [pid|e] eqn:Hs.
    2: { done. }
    destruct (start_payment_store o pid w) as [l ->].
    exists client, (order_after o DocdataOrder.STATUS_IN_PROGRESS). simpl.
    repeat split; try done.
    - apply order_after_status. compute_done.
    - unfold order_after. case_bool_decide as H; [| done].
      destruct o; simpl in *. by rewrite H. }
  destruct order as [order_key | given].
  - destruct (orders w !! order_key) as [o|] eqn:Ho; [| done].
    destruct (active_merchants o) eqn:Ha; [| done].
    specialize (Hfound o).
    destruct (match DocdataClient_for_merchant _ _ with Ok _ => _ | Fail _ => _ end)
      as [[pid|e] w']; [| done].
    destruct Hfound as (client & o' & H). by exists o, client, o'.
  - specialize (Hfound given).
    destruct (match DocdataClient_for_merchant _ _ with Ok _ => _ | Fail _ => _ end)
      as [[pid|e] w']; [| done].
    destruct Hfound as (client & o' & H). by exists given, client, o'.
Qed.

(** X14.  What a cancel that returns has done to the status.  For a report
    without payment entries the order ends CANCELLED, except that an EXPIRED
    order whose report totals are not all zero stays EXPIRED.  For a report
    with payment entries the intended status plays no role: the order ends
    as an update from the same report would leave it. *)
Theorem cancel_order_outcome
    (PaymentInfo : Type)
    (DocdataClient_for_merchant : string -> bool -> reply (Client PaymentInfo))
    (cfg : gmap string Z) (doc seen : list string) (now : Z)
    (self : Interface PaymentInfo) (order : DocdataOrder.t)
    (w : World) (order' : DocdataOrder.t) (w' : World) :
  cancel_order PaymentInfo DocdataClient_for_merchant cfg doc seen now self order w
  = (Ok order', w') ->
  exists client report,
    DocdataClient_for_merchant (DocdataOrder.merchant_name order)
      (testing_mode PaymentInfo self) = Ok client /\
    client_cancel PaymentInfo client (DocdataOrder.order_key order) = Ok tt /\
    client_status PaymentInfo client (DocdataOrder.order_key order) = Ok report /\
    orders w' !! DocdataOrder.order_key order = Some order' /\
    match payment report with
    | None =>
      DocdataOrder.status order'
      = if bool_decide (DocdataOrder.status order = DocdataOrder.STATUS_EXPIRED)
           && negb (bool_decide (totalShopperPending (approximateTotals report) = 0)
                    && bool_decide (totalAcquirerPending (approximateTotals report) = 0)
                    && bool_decide (totalAcquirerApproved (approximateTotals report) = 0)
                    && bool_decide (totalCaptured (approximateTotals report) = 0)
                    && bool_decide (totalRefunded (approximateTotals report) = 0)
                    && bool_decide (totalChargedback (approximateTotals report) = 0))
        then DocdataOrder.STATUS_EXPIRED
        else DocdataOrder.STATUS_CANCELLED
    | Some _ =>
      _store_report cfg doc seen now order report None w = (Return order', w')
    end.
Proof.
  intros Hrun. unfold cancel_order in Hrun.
  destruct (DocdataClient_for_merchant _ _) as [client|e1] eqn:Hc; [| done].
  destruct (client_cancel _ client _) as [[]|e1] eqn:Hcancel; [| done].
  destruct (client_status _ client _) as [report|e1] eqn:Hstatus; [| done].
  exists client, report. split; [done |]. split; [done |]. split; [done |].
  unfold core in Hrun.
  destruct (_store_report cfg doc seen now order report
              (Some DocdataOrder.STATUS_CANCELLED) w) as [[o|x] w1] eqn:Hpass;
    [| done].
  injection Hrun as -> ->.
  split.
  { apply _store_report_Return in Hpass as (ns & evs & _ & Ho & _).
    rewrite Ho. apply lookup_insert_eq. }
  destruct report as [totals [entries|]]; simpl; [exact Hpass |].
  destruct (_store_report_no_payment cfg doc seen now order totals
              (Some DocdataOrder.STATUS_CANCELLED) w) as [l Hl].
  rewrite Hl in Hpass. injection Hpass as <- _. clear Hl.
  fold (all_zero totals).
  set (order_t := DocdataOrder.set_totals totals order).
  assert (Hns :
    heuristic_value now order_t totals (Some DocdataOrder.STATUS_CANCELLED)
    = if bool_decide (DocdataOrder.status order = DocdataOrder.STATUS_EXPIRED)
         && negb (all_zero totals)
      then DocdataOrder.STATUS_EXPIRED else DocdataOrder.STATUS_CANCELLED).
  { unfold heuristic_value. simpl.
    destruct (all_zero totals); simpl.
    - rewrite andb_false_r. by repeat case_bool_decide.
    - rewrite andb_true_r.
      destruct (bool_decide_reflect
                  (DocdataOrder.status order = DocdataOrder.STATUS_EXPIRED))
        as [He|He].
      + rewrite bool_decide_eq_true_2; [done | rewrite He; compute_done].
      + case_bool_decide as Ht; [| by vm_compute].
        apply elem_of_cons in Ht as [Ht|Ht]; [done |].
        by apply list_elem_of_singleton in Ht. }
  rewrite Hns. apply order_after_status.
  destruct (_ && _); compute_done.
Qed.

(** X14, at a NEW order whose report has no payment entry: the cancel
    leaves it CANCELLED. *)
Lemma cancel_order_outcome_witness :
  let client :=
    {| client_merchant_name := "shop";
       client_status :=
         fun _ => Ok {| approximateTotals := totals_of 1000 0 0 0; payment := None |};
       client_cancel := fun _ => Ok tt;
       client_start := fun _ (_ : unit) _ => Ok 1 |} in
  match cancel_order unit (fun _ _ => Ok client) ∅ [] [] 0
          {| testing_mode := true; client := client |} (order_of "new" 0)
          empty_world with
  | (Ok order', w') =>
    DocdataOrder.status order' = "cancelled" /\ orders w' !! "K" = Some order'
  | (Fail _, _) => False
  end.
Proof.
  intros client.
  destruct (cancel_order unit (fun _ _ => Ok client) ∅ [] [] 0
              {| testing_mode := true; client := client |} (order_of "new" 0)
              empty_world) as [[order'|e] w'] eqn:Hrun.
  - destruct (cancel_order_outcome unit (fun _ _ => Ok client) ∅ [] [] 0
                {| testing_mode := true; client := client |} (order_of "new" 0)
                empty_world order' w' Hrun)
      as (c & report & Hc & _ & Hs & Hrow & Hst).
    injection Hc as <-. injection Hs as <-. by split.
  - vm_compute in Hrun. discriminate.
Defined.

Lemma conclude_lines_run order totals sorted cand objs w :
  conclude_lines order totals sorted cand objs w
  = match lines_value order sorted cand with
    | Some s =>
      (Return (s, sort_by (fun dd => DocdataPayment.payment_id dd.1) objs),
       add_log
         (if bool_decide (s <> DocdataOrder.STATUS_CANCELLED)
             && bool_decide (totalRegistered totals
                             <> DocdataOrder.total_gross_amount order)
          then [{| log_level := ERROR;
                   log_message :=
                     "Payment cluster %s total: %s does not equal Total Registered: %s." |}]
          else []) w)
    | None => (Raise (IndexError "list index out of range"), w)
    end.
Proof.
  assert (Hcheck : forall s : string,
    ((if bool_decide (s <> DocdataOrder.STATUS_CANCELLED)
         && bool_decide (totalRegistered totals
                         <> DocdataOrder.total_gross_amount order)
      then logger ERROR
             "Payment cluster %s total: %s does not equal Total Registered: %s."
      else mret tt) ≫= fun _ : unit =>
     mret (s, sort_by (fun dd : DocdataPayment.t * Payment =>
                         DocdataPayment.payment_id dd.1) objs)) w
    = (Return (s, sort_by (fun dd => DocdataPayment.payment_id dd.1) objs),
       add_log
         (if bool_decide (s <> DocdataOrder.STATUS_CANCELLED)
             && bool_decide (totalRegistered totals
                             <> DocdataOrder.total_gross_amount order)
          then [{| log_level := ERROR;
                   log_message :=
                     "Payment cluster %s total: %s does not equal Total Registered: %s." |}]
          else []) w)).
  { intros s. destruct (_ && _); [reflexivity |]. by rewrite add_log_nil. }
  unfold conclude_lines, lines_value, last_item.
  destruct cand as [s|]; [exact (Hcheck s) |].
  destruct (last sorted) as [p|]; [| reflexivity].
  change (fallback_value order <$> Some p) with (Some (fallback_value order p)).
  cbv beta iota. rewrite <- (Hcheck (fallback_value order p)).
  unfold fallback_value, mbind, M_bind, bind, mret, M_ret, ret. cbv beta iota zeta.
  destruct (bool_decide (DocdataOrder.status order ∈ _) && _); reflexivity.
Qed.

(** X16.  What follows the loop over the lines, lines 441-482, when it
    returns.  The check of the registered total against the gross amount of
    the order only logs: an ERROR record exactly when the status is not
    CANCELLED and the two amounts differ; the status and the lines that are
    returned do not depend on the totals, and nothing but the log changes.
    The lines that come back are the lines collected, none lost and none
    added; the order they come back in depends on how the stored payment ids
    compare and is not stated. *)
Theorem registered_total_check_only_logs
    (order : DocdataOrder.t) (totals : Totals) (report_payments : list Payment)
    (new_status : option string)
    (ddpayment_objects : list (DocdataPayment.t * Payment)) (w : World)
    (status : string) (lines : list (DocdataPayment.t * Payment)) (w' : World) :
  conclude_lines order totals report_payments new_status ddpayment_objects w
  = (Return (status, lines), w') ->
  w' = add_log
         (if bool_decide (status <> DocdataOrder.STATUS_CANCELLED)
             && bool_decide (totalRegistered totals
                             <> DocdataOrder.total_gross_amount order)
          then [{| log_level := ERROR;
                   log_message :=
                     "Payment cluster %s total: %s does not equal Total Registered: %s." |}]
          else []) w /\
  (forall totals',
     fst (conclude_lines order totals' report_payments new_status
            ddpayment_objects w)
     = Return (status, lines)) /\
  Permutation lines ddpayment_objects.
Proof.
  rewrite conclude_lines_run.
  destruct (lines_value order report_payments new_status) as [s|] eqn:Hv; [| done].
  intros [= <- <- <-].
  split; [done |]. split.
  - intros totals'. by rewrite conclude_lines_run, Hv.
  - apply sort_by_perm.
Qed.

(** X16, at a PAID status for an order of 10.00 with 9.99 registered: the
    mismatch is logged and the status stays PAID. *)
Lemma registered_total_check_only_logs_witness :
  match conclude_lines (order_of "new" 0) (totals_of 999 999 0 0)
          [line_of 1 "VISA" "AUTHORIZED" "EUR"] (Some "paid") [] empty_world with
  | (Return (status, lines), w') =>
    status = "paid" /\ lines = [] /\
    log w' = [{| log_level := ERROR;
                 log_message :=
                   "Payment cluster %s total: %s does not equal Total Registered: %s." |}]
  | (Raise _, _) => False
  end.
Proof.
  destruct (conclude_lines (order_of "new" 0) (totals_of 999 999 0 0)
              [line_of 1 "VISA" "AUTHORIZED" "EUR"] (Some "paid") [] empty_world)
    as [[[status lines]|e] w'] eqn:Hrun.
  - destruct (registered_total_check_only_logs _ _ _ _ _ _ _ _ _ Hrun)
      as (Hw & _ & Hperm).
    vm_compute in Hrun. injection Hrun as <- <- _.
    split; [reflexivity |]. split; [reflexivity |].
    rewrite Hw. reflexivity.
  - vm_compute in Hrun. discriminate.
Defined.

Lemma line_write_budget order row added updated :
  length (line_write row added updated)
  = length (line_signal order row added updated) /\
  (length (line_write row added updated) <= 1)%nat /\
  Forall is_payment_write (line_write row added updated).
Proof.
  unfold line_write, line_signal.
  destruct added, updated; simpl; repeat split; try lia; repeat constructor.
Qed.

Lemma store_report_loop_writes cfg doc seen order totals entries l :
  forall new_status objs w r w',
  store_report_loop cfg doc seen order
    {| approximateTotals := totals; payment := Some entries |} l new_status objs w
  = (Return r, w') ->
  exists ws evs,
    writes w' = (writes w ++ ws)%list /\
    signals w' = (signals w ++ evs)%list /\
    length ws = length evs /\
    (length ws <= length l)%nat /\
    Forall is_payment_write ws /\
    Forall is_line_signal evs.
Proof.
  induction l as [|p l IH]; intros new_status objs w r w' Hrun; simpl in Hrun.
  - injection Hrun as <- <-. exists [], []. rewrite !app_nil_r.
    repeat split; try done; constructor.
  - apply bind_Return_inv in Hrun as ([ns1 dd] & w1 & Hline & Hrest).
    apply store_report_line_Return in Hline as (_ & _ & _ & _ & Hs & Hw).
    apply IH in Hrest as (ws & evs & Hw' & Hs' & Hlen & Hle & Hpw & Hev).
    set (v := line_value order p (payments w !! id p)) in *.
    destruct (line_write_budget order v.1.1 v.1.2 v.2) as (Hl1 & Hl2 & Hl3).
    exists (line_write v.1.1 v.1.2 v.2 ++ ws)%list,
      (line_signal order v.1.1 v.1.2 v.2 ++ evs)%list.
    rewrite Hw', Hs', Hw, Hs, <- !app_assoc, !length_app.
    repeat split; try done.
    + lia.
    + simpl. lia.
    + by apply Forall_app.
    + apply Forall_app. split; [apply line_signal_is_line_signal | done].
Qed.

(** X17.  The writes of a pass that returns.  The order row is saved exactly
    once, and last.  Before it come the writes to the payment table: at most
    one per entry of the report, none when the report has no payment
    entries, and each of them is announced by exactly one [payment_added] or
    [payment_updated] signal; the [order_status_changed] signal, if any,
    comes after those. *)
Theorem pass_write_budget
    (cfg : gmap string Z) (doc seen : list string) (now : Z)
    (order : DocdataOrder.t) (report : Report)
    (indented_status : option string) (w : World)
    (order' : DocdataOrder.t) (w' : World) :
  _store_report cfg doc seen now order report indented_status w = (Return order', w') ->
  exists ws evs,
    writes w' = (writes w ++ ws ++ [SaveOrder (DocdataOrder.order_key order)])%list /\
    signals w'
    = (signals w ++ evs ++
       (if bool_decide (DocdataOrder.status order = DocdataOrder.status order')
        then []
        else [order_status_changed order' (DocdataOrder.status order)
                (DocdataOrder.status order')]))%list /\
    length ws = length evs /\
    (length ws <= length (default [] (payment report)))%nat /\
    Forall is_payment_write ws /\
    Forall is_line_signal evs.
Proof.
  intros Hrun. destruct report as [totals [entries|]].
  - unfold _store_report in Hrun. cbn [payment approximateTotals] in Hrun.
    set (order_t := DocdataOrder.set_totals totals order) in *.
    apply bind_Return_inv in Hrun as (ns & wa & Hlines & Hstore).
    apply bind_Return_inv in Hlines as ([ns' objs] & wa' & Hlines & Hret).
    injection Hret as -> ->.
    destruct (store_status_run order_t ns wa) as [l Hl].
    rewrite Hl in Hstore. injection Hstore as <- <-. clear Hl. simpl.
    destruct (_store_report_lines_run cfg doc seen order_t totals entries w)
      as (w0 & Hw0 & Heq).
    rewrite Heq in Hlines. clear Heq.
    apply bind_Return_inv in Hlines as ([c objs0] & w2 & Hloop & Hend).
    simpl in Hend.
    rewrite conclude_lines_run in Hend.
    destruct (lines_value order_t (sort_by id entries) c) as [s|]; [| done].
    injection Hend as <- _ <-.
    apply store_report_loop_writes in Hloop
      as (ws & evs & Hw & Hs & Hlen & Hle & Hpw & Hev).
    exists ws, evs. simpl. rewrite Hw, Hs.
    rewrite (logs_only_writes _ _ Hw0), (logs_only_signals _ _ Hw0).
    rewrite <- !app_assoc.
    repeat split; try done.
    assert (Hp : length (sort_by id entries) = length entries)
      by apply Permutation_length, sort_by_perm.
    lia.
  - destruct (_store_report_no_payment cfg doc seen now order totals
                indented_status w) as [l Hl].
    rewrite Hl in Hrun. injection Hrun as <- <-. clear Hl.
    exists [], []. simpl. repeat split; try done; constructor.
Qed.

(** X17, at the paid order: one insert, then the save of the order. *)
Lemma pass_write_budget_witness :
  match _store_report ∅ [] [] 0 (order_of "new" 0) paid_report None empty_world with
  | (Return _, w') =>
    exists ws,
      writes w' = (ws ++ [SaveOrder "K"])%list /\ (length ws <= 1)%nat /\
      Forall is_payment_write ws
  | (Raise _, _) => False
  end.
Proof.
  destruct (_store_report ∅ [] [] 0 (order_of "new" 0) paid_report None empty_world)
    as [[order'|e] w'] eqn:Hrun.
  - destruct (pass_write_budget ∅ [] [] 0 (order_of "new" 0) paid_report None
                empty_world order' w' Hrun)
      as (ws & evs & Hw & _ & _ & Hle & Hpw & _).
    exists ws. split; [exact Hw |]. split; [exact Hle | exact Hpw].
  - vm_compute in Hrun. discriminate.
Defined.

(** * The order in which the lines are processed *)

Lemma line_write_id row added updated :
  Forall (fun wr => written_id wr = DocdataPayment.payment_id row)
    (line_write row added updated).
Proof.
  unfold line_write. destruct added, updated; simpl; repeat constructor.
Qed.

Lemma store_report_loop_ascending cfg doc seen order totals entries l :
  forall new_status objs w r w',
  store_report_loop cfg doc seen order
    {| approximateTotals := totals; payment := Some entries |} l new_status objs w
  = (Return r, w') ->
  store_wf (payments w) ->
  NoDup (map id l) ->
  StronglySorted (fun a b => id a <= id b) l ->
  exists ws,
    writes w' = (writes w ++ ws)%list /\
    Forall is_payment_write ws /\
    Forall (fun wr => written_id wr ∈ map id l) ws /\
    StronglySorted Z.lt (map written_id ws) /\
    (forall p, p ∈ l -> payments w !! id p = None -> InsertPayment (id p) ∈ ws).
Proof.
  induction l as [|p l IH]; intros new_status objs w r w' Hrun Hwf Hnd Hss;
    simpl in Hrun.
  - injection Hrun as <- <-. exists []. rewrite app_nil_r.
    repeat split; try constructor.
    intros p Hp. by apply elem_of_nil in Hp.
  - apply bind_Return_inv in Hrun as ([ns1 dd] & w1 & Hline & Hrest).
    apply store_report_line_Return in Hline as (_ & _ & _ & Hpay & _ & Hw).
    simpl in Hnd. apply NoDup_cons in Hnd as [Hp Hnd].
    apply StronglySorted_inv in Hss as [Hss Hle].
    set (v := line_value order p (payments w !! id p)) in *.
    assert (Hid : DocdataPayment.payment_id v.1.1 = id p).
    { unfold v. rewrite line_value_payment_id.
      destruct (payments w !! id p) as [r0|] eqn:Hr; [by apply Hwf | done]. }
    assert (Hother : forall k, k <> id p -> payments w1 !! k = payments w !! k).
    { intros k Hk. rewrite Hpay, Hid.
      destruct (v.1.2 || v.2); [by rewrite lookup_insert_ne | done]. }
    assert (Hwf1 : store_wf (payments w1)).
    { intros k r0 Hk. destruct (decide (k = id p)) as [->|Hne].
      - rewrite Hpay, Hid in Hk. destruct (v.1.2 || v.2).
        + rewrite lookup_insert_eq in Hk. by simplify_eq.
        + by apply Hwf.
      - rewrite Hother in Hk by done. by apply Hwf. }
    destruct (IH _ _ _ _ _ Hrest Hwf1 Hnd Hss)
      as (ws & Hw' & Hpw & Hin & Hsorted & Hins).
    assert (Hgt : Forall (Z.lt (id p)) (map written_id ws)).
    { apply Forall_fmap. eapply Forall_impl; [exact Hin |].
      intros wr Hwr. simpl.
      apply list_elem_of_fmap in Hwr as (q & Hq & Hql).
      rewrite Forall_forall in Hle. specialize (Hle q Hql).
      assert (id p <> id q).
      { intros Heq. apply Hp. rewrite Heq. apply list_elem_of_fmap. by exists q. }
      lia. }
    destruct (line_write_budget order v.1.1 v.1.2 v.2) as (_ & Hlen & Hlw).
    pose proof (line_write_id v.1.1 v.1.2 v.2) as Hlid. rewrite Hid in Hlid.
    exists (line_write v.1.1 v.1.2 v.2 ++ ws)%list.
    split; [by rewrite Hw', Hw, <- app_assoc |].
    split; [by apply Forall_app |].
    split; [| split].
    + apply Forall_app. split.
      * eapply Forall_impl; [exact Hlid |]. intros wr ->. simpl. left.
      * eapply Forall_impl; [exact Hin |]. intros wr Hwr. simpl. by right.
    + destruct (line_write v.1.1 v.1.2 v.2) as [|wr [|wr' lw]]; simpl in *.
      * exact Hsorted.
      * apply Forall_cons in Hlid as [-> _]. by constructor.
      * lia.
    + intros q Hq Hnone. apply elem_of_app.
      apply elem_of_cons in Hq as [-> | Hq].
      * left. unfold line_write.
        assert (Hadded : v.1.2 = true).
        { unfold v. rewrite line_value_added. by apply bool_decide_eq_true. }
        rewrite Hadded, Hid. simpl. left.
      * right. apply Hins; [done |]. rewrite Hother; [done |].
        intros Heq. apply Hp. rewrite <- Heq. apply list_elem_of_fmap. by exists q.
Qed.

(** C2, amended.  The payment entries are processed sorted by id,
    ascending; and for a report whose payment ids are pairwise distinct,
    permuting its payment entries changes nothing in the outcome of the
    pass: the same order is returned or the same exception raised, and the
    same rows, writes, signals and log records are left behind.  The pass
    itself goes through the entries in ascending order of id: from a
    payment table filed by payment id, the writes of a pass that returns are
    writes to the payment table under strictly ascending payment ids,
    followed by the save of the order, and every entry whose id was not in
    the table is inserted among them. *)
Theorem reordering_is_deterministic
    (cfg : gmap string Z) (doc seen : list string) (now : Z)
    (order : DocdataOrder.t) (totals : Totals)
    (entries entries' : list Payment)
    (indented_status : option string) (w : World) :
  Permutation entries entries' ->
  NoDup (map id entries) ->
  Sorted (fun a b => id a <= id b) (sort_by id entries) /\
  Permutation (sort_by id entries) entries /\
  sort_by id entries' = sort_by id entries /\
  _store_report cfg doc seen now order
    {| approximateTotals := totals; payment := Some entries' |} indented_status w
  = _store_report cfg doc seen now order
      {| approximateTotals := totals; payment := Some entries |} indented_status w /\
  (forall order' w',
     store_wf (payments w) ->
     _store_report cfg doc seen now order
       {| approximateTotals := totals; payment := Some entries |} indented_status w
     = (Return order', w') ->
     exists ws,
       writes w'
       = (writes w ++ ws ++ [SaveOrder (DocdataOrder.order_key order)])%list /\
       Forall is_payment_write ws /\
       StronglySorted Z.lt (map written_id ws) /\
       (forall p, p ∈ entries -> payments w !! id p = None ->
          InsertPayment (id p) ∈ ws)).
Proof.
  intros Hperm Hnd.
  assert (Hsort : sort_by id entries' = sort_by id entries)
    by (symmetry; by apply sort_by_unique).
  split; [apply sort_by_sorted |].
  split; [apply sort_by_perm |].
  split; [exact Hsort |].
  split.
  { unfold _store_report. cbn [payment approximateTotals].
    apply bind_ext; [| reflexivity].
    apply bind_ext; [| reflexivity].
    unfold _store_report_lines. cbn [payment approximateTotals].
    apply bind_ext; [reflexivity |]. intros msg w1.
    apply bind_ext; [reflexivity |]. intros [] w2.
    unfold report_payment. cbn [payment]. rewrite !bind_mret. cbv zeta.
    rewrite Hsort.
    apply bind_ext; [| reflexivity].
    symmetry. by apply store_report_loop_reordered. }
  intros order' w' Hwf Hrun.
  unfold _store_report in Hrun. cbn [payment approximateTotals] in Hrun.
  set (order_t := DocdataOrder.set_totals totals order) in *.
  apply bind_Return_inv in Hrun as (ns & wa & Hlines & Hstore).
  apply bind_Return_inv in Hlines as ([ns' objs] & wa' & Hlines & Hret).
  injection Hret as -> ->.
  destruct (store_status_run order_t ns wa) as [l Hl].
  rewrite Hl in Hstore. injection Hstore as _ <-. clear Hl. simpl.
  destruct (_store_report_lines_run cfg doc seen order_t totals entries w)
    as (w0 & Hw0 & Heq).
  rewrite Heq in Hlines. clear Heq.
  apply bind_Return_inv in Hlines as ([c objs0] & w2 & Hloop & Hend).
  simpl in Hend.
  rewrite conclude_lines_run in Hend.
  destruct (lines_value order_t (sort_by id entries) c) as [s|]; [| done].
  injection Hend as _ _ <-.
  assert (Hm : Permutation (map id (sort_by id entries)) (map id entries))
    by apply Permutation_map, sort_by_perm.
  apply store_report_loop_ascending in Hloop
    as (ws & Hw & Hpw & _ & Hsorted & Hins).
  - exists ws. simpl. rewrite Hw, (logs_only_writes _ _ Hw0), <- app_assoc.
    split; [done |]. split; [done |]. split; [done |].
    intros p Hp Hnone. apply Hins; [by apply elem_of_sort_by |].
    by rewrite (logs_only_payments _ _ Hw0).
  - by rewrite (logs_only_payments _ _ Hw0).
  - by rewrite Hm.
  - apply Sorted_StronglySorted; [intros a b c0; lia | apply sort_by_sorted].
Qed.

(** C2, amended, at a report listing payment 2 before payment 1: payment 1
    is written first. *)
Lemma reordering_is_deterministic_witness :
  let a := line_of 1 "IDEAL" "NEW" "EUR" in
  let b := line_of 2 "VISA" "AUTHORIZED" "EUR" in
  let run entries :=
    _store_report ∅ [] [] 0 (order_of "new" 0)
      {| approximateTotals := totals_of 1000 1000 0 0; payment := Some entries |}
      None empty_world in
  sort_by id [b; a] = [a; b] /\
  run [a; b] = run [b; a] /\
  match run [b; a] with
  | (Return _, w') =>
    exists ws,
      writes w' = (ws ++ [SaveOrder "K"])%list /\
      StronglySorted Z.lt (map written_id ws) /\
      InsertPayment 1 ∈ ws /\ InsertPayment 2 ∈ ws
  | (Raise _, _) => False
  end.
Proof.
  intros a b run.
  destruct (reordering_is_deterministic ∅ [] [] 0 (order_of "new" 0)
              (totals_of 1000 1000 0 0) [b; a] [a; b] None empty_world)
    as (_ & _ & Hsort & Hrun & Hasc).
  - apply perm_swap.
  - cbn. apply NoDup_cons. split; [| apply NoDup_singleton].
    rewrite list_elem_of_singleton. lia.
  - split; [rewrite <- Hsort; reflexivity |].
    split; [exact Hrun |].
    fold (run [b; a]) in Hasc.
    destruct (run [b; a]) as [[order'|e] w'] eqn:Hpass.
    + destruct (Hasc order' w' store_wf_empty eq_refl)
        as (ws & Hw & _ & Hsorted & Hins).
      exists ws. split; [exact Hw |]. split; [exact Hsorted |].
      split.
      * apply (Hins a); [right; left | reflexivity].
      * apply (Hins b); [left | reflexivity].
    + vm_compute in Hpass. discriminate.
Defined.

(** * EXPIRED and CANCELLED orders are not reopened *)





